(** * netops: the upgrade decision and orchestration core

    A shallow embedding of the decision logic of the repository and the
    properties its specification states about it.

    Two implementations live side by side in the repository and both are
    embedded here:
    - the HTTP agent, [src/agent/decision_agent.py], with its three FastAPI
      tool servers under [src/servers/mcp_*/server.py] (module [Legacy]);
    - the MCP agent, [src/src/agent/mcp_agent.py] with
      [src/src/agent/decision_engine.py] and the stdio tool servers under
      [src/src/servers/] (module [Mcp]).

    Python values are dynamically typed; the embedding keeps them so
    ([Py.jval]) and makes every exception explicit ([Py.res]). *)

From Stdlib Require Import QArith Qround Lqa String ZArith Lia.
From stdpp Require Import base option list gmap strings pretty.

Set Warnings "-register-all".
Local Open Scope string_scope.

(** ** Python values and exceptions *)

Module Py.

(** JSON values as Python sees them after [json.loads] / [resp.json()]:
    [None], booleans, numbers (int or float, as rationals), strings and
    dicts.  JSON arrays are left out: no value the decision logic inspects
    is one.  [PyObject] is a Python object that is not JSON data (the MCP
    client can hand one back); it is truthy and supports none of the
    operations below. *)
Inductive jval : Type :=
| JNull
| JBool (b : bool)
| JNum (q : Q)
| JStr (s : string)
| JObj (d : gmap string jval)
| PyObject (cls : string).

(** An exception, by class name and by [str(e)]. *)
Inductive exn : Type := Exception (cls : string) (msg : string).

Definition exn_str (e : exn) : string :=
  match e with Exception _ msg => msg end.

(** The result of evaluating Python code: a value, or a raised exception. *)
Inductive res (A : Type) : Type :=
| Ok (a : A)
| Raise (e : exn).
Arguments Ok {A} a.
Arguments Raise {A} e.

Definition res_bind {A B : Type} (m : res A) (k : A -> res B) : res B :=
  match m with
  | Ok a => k a
  | Raise e => Raise e
  end.

Declare Scope res_scope.
Delimit Scope res_scope with res.
Notation "x <- m ;; k" := (res_bind m (fun x => k))
  (at level 100, m at next level, right associativity) : res_scope.

Definition TypeError (msg : string) : exn := Exception "TypeError" msg.
Definition KeyError (k : string) : exn := Exception "KeyError" k.
Definition AttributeError (msg : string) : exn := Exception "AttributeError" msg.

(** [bool(v)]: Python truthiness. *)
Definition truthy (v : jval) : bool :=
  match v with
  | JNull => false
  | JBool b => b
  | JNum q => negb (Qeq_bool q 0)
  | JStr s => negb (String.eqb s "")
  | JObj d => match map_to_list d with nil => false | _ => true end
  | PyObject _ => true
  end.

(** [a or b]: the first operand when it is truthy, else the second. *)
Definition py_or (a b : jval) : jval := if truthy a then a else b.

(** [v is None] *)
Definition is_none (v : jval) : bool :=
  match v with JNull => true | _ => false end.

(** The numeric reading of a value in a comparison; [bool] is a subclass of
    [int] in Python. *)
Definition num_of (v : jval) : option Q :=
  match v with
  | JNum q => Some q
  | JBool b => Some (if b then 1 else 0)%Q
  | _ => None
  end.

(** [a <= b]: numbers compare by value, strings lexicographically, and any
    other pairing raises [TypeError]. *)
Definition py_le (a b : jval) : res bool :=
  match num_of a, num_of b with
  | Some x, Some y => Ok (Qle_bool x y)
  | _, _ =>
      match a, b with
      | JStr s, JStr t => Ok (String.leb s t)
      | _, _ => Raise (TypeError "'<=' not supported between these instances")
      end
  end.

(** [a >= b] *)
Definition py_ge (a b : jval) : res bool :=
  match num_of a, num_of b with
  | Some x, Some y => Ok (Qle_bool y x)
  | _, _ =>
      match a, b with
      | JStr s, JStr t => Ok (String.leb t s)
      | _, _ => Raise (TypeError "'>=' not supported between these instances")
      end
  end.

(** [a > b] and [a < b] *)
Definition py_gt (a b : jval) : res bool :=
  match num_of a, num_of b with
  | Some x, Some y => Ok (negb (Qle_bool x y))
  | _, _ =>
      match a, b with
      | JStr s, JStr t => Ok (negb (String.leb s t))
      | _, _ => Raise (TypeError "'>' not supported between these instances")
      end
  end.

Definition py_lt (a b : jval) : res bool := py_gt b a.

(** [d.get(k, dflt)]; on anything but a dict the attribute is missing. *)
Definition py_get (v : jval) (k : string) (dflt : jval) : res jval :=
  match v with
  | JObj d => Ok (default dflt (d !! k))
  | _ => Raise (AttributeError "object has no attribute 'get'")
  end.

(** [d[k]] with a string key. *)
Definition py_index (v : jval) (k : string) : res jval :=
  match v with
  | JObj d =>
      match d !! k with
      | Some x => Ok x
      | None => Raise (KeyError k)
      end
  | _ => Raise (TypeError "object is not subscriptable by a string key")
  end.

(** A piece of text received from outside: the text and what [json.loads]
    reads from it ([None] when it is not valid JSON). *)
Record text : Type := { raw : string; loads : option jval }.

Definition json_loads (t : text) : res jval :=
  match loads t with
  | Some v => Ok v
  | None => Raise (Exception "JSONDecodeError" "Expecting value")
  end.

(** [str(v)] and f-string interpolation of a value.  How Python prints a
    number is left to the instance; nothing proved below depends on it. *)
Class Format := fmt : jval -> string.

(** [json.dumps(v)] as a reply body. *)
Definition json_text `{Format} (v : jval) : text :=
  {| raw := fmt v; loads := Some v |}.

End Py.
Export Py.
Local Open Scope res_scope.

(** ** HealthAggregator status: [src/src/servers/influx_server.py] *)

Module Influx.

(** [InfluxMCPServer.calculate_health_status] *)
Definition calculate_health_status (cpu mem errors : jval) : res string :=
  if is_none cpu || is_none mem then Ok "unknown"
  else
    c <- py_gt errors (JNum 0) ;;
    if c then Ok "critical"
    else
      w1 <- py_gt cpu (JNum 80) ;;
      w <- (if w1 then Ok true else py_lt mem (JNum 20)) ;;
      if w then Ok "warning"
      else
        c1 <- py_gt cpu (JNum 70) ;;
        c <- (if c1 then Ok true else py_lt mem (JNum 30)) ;;
        if c then Ok "caution" else Ok "healthy".

End Influx.

(** ** Programs that call collaborators

    The agents are sequential programs whose only effects are calls to
    collaborators (HTTP tool servers, MCP tool servers, the gate's model API)
    and exceptions.  A program is the tree of its calls: every call may
    return a reply or raise, and the program continues on either. *)

Module Eff.

Section Prog.
Context {call : Type} {reply : call -> Type}.

Inductive prog (A : Type) : Type :=
| Ret (a : A)
| Throw (e : exn)
| Do (c : call) (k : res (reply c) -> prog A).
Arguments Ret {A} a.
Arguments Throw {A} e.
Arguments Do {A} c k.

Fixpoint bind {A B : Type} (p : prog A) (f : A -> prog B) : prog B :=
  match p with
  | Ret a => f a
  | Throw e => Throw e
  | Do c k => Do c (fun o => bind (k o) f)
  end.

(** [try: p  except Exception as e: h e] *)
Fixpoint try_except {A : Type} (p : prog A) (h : exn -> prog A) : prog A :=
  match p with
  | Ret a => Ret a
  | Throw e => h e
  | Do c k => Do c (fun o => try_except (k o) h)
  end.

(** Issue a call; its exception, if any, propagates. *)
Definition perform (c : call) : prog (reply c) :=
  Do c (fun o => match o with Ok r => Ret r | Raise e => Throw e end).

(** Pure Python evaluation inside a program. *)
Definition lift {A : Type} (r : res A) : prog A :=
  match r with Ok a => Ret a | Raise e => Throw e end.

(** *** Running a program against collaborators

    A handler answers each call from the state of the world and changes
    that state. *)
Section Run.
Context {W : Type} (handle : forall c : call, W -> res (reply c) * W).

Fixpoint run {A : Type} (p : prog A) (w : W) : res A * W :=
  match p with
  | Ret a => (Ok a, w)
  | Throw e => (Raise e, w)
  | Do c k => let '(o, w') := handle c w in run (k o) w'
  end.

(** The calls a run issues, in order. *)
Fixpoint calls {A : Type} (p : prog A) (w : W) : list call :=
  match p with
  | Ret _ | Throw _ => nil
  | Do c k => let '(o, w') := handle c w in c :: calls (k o) w'
  end.

(** One call of a program: the unit of interleaving when several requests
    are served at once. *)
Definition step {A : Type} (p : prog A) (w : W) : option (prog A * W) :=
  match p with
  | Do c k => let '(o, w') := handle c w in Some (k o, w')
  | _ => None
  end.

(** Two requests interleaved call by call: [true] lets the first one take a
    step, [false] the second; a finished request stays put. *)
Fixpoint interleave {A : Type} (sched : list bool)
    (p1 p2 : prog A) (w : W) : prog A * prog A * W :=
  match sched with
  | nil => (p1, p2, w)
  | true :: s =>
      match step p1 w with
      | Some (p1', w') => interleave s p1' p2 w'
      | None => interleave s p1 p2 w
      end
  | false :: s =>
      match step p2 w with
      | Some (p2', w') => interleave s p1 p2' w'
      | None => interleave s p1 p2 w
      end
  end.

End Run.

(** A property of every call a program can issue, whatever the collaborators
    answer. *)
Fixpoint every_call {A : Type} (P : call -> Prop) (p : prog A) : Prop :=
  match p with
  | Ret _ | Throw _ => True
  | Do c k => P c /\ forall o, every_call P (k o)
  end.

(** A property of every value a program can return, whatever the
    collaborators answer. *)
Fixpoint every_return {A : Type} (Q : A -> Prop) (p : prog A) : Prop :=
  match p with
  | Ret a => Q a
  | Throw _ => True
  | Do c k => forall o, every_return Q (k o)
  end.

End Prog.

Arguments prog : clear implicits.
Arguments Ret {call reply A} a.
Arguments Throw {call reply A} e.
Arguments Do {call reply A} c k.

Declare Scope prog_scope.
Delimit Scope prog_scope with prog.
Notation "x <~ m ;; k" := (bind m (fun x => k))
  (at level 100, m at next level, right associativity) : prog_scope.

End Eff.
Export Eff.
Local Open Scope prog_scope.

(** ** The database both agents write to

    Tables as [src/src/common/database.py] declares them ([init_schema]);
    only the columns the tool servers read or write are kept. *)

Module Db.

(** A row of [upgrades].  [u_history] is ghost state: every status the row
    has been given by an UPDATE, oldest first (the column itself only keeps
    the last one, and [audit_events] is keyed by router, not by attempt). *)
Record upgrade_row : Type := {
  u_router_id : string;
  u_requested_by : string;
  u_decision : string;
  u_reason : jval;
  u_status : string;
  u_target_ver : jval;
  u_history : list string
}.

Record audit_event : Type := {
  a_router_id : string;
  a_event : string;
  a_details : jval
}.

Record tables : Type := {
  routers : gmap string (gmap string jval);     (* by primary key [id] *)
  upgrade_policies : list (gmap string jval);
  upgrades : gmap Z upgrade_row;                (* by primary key [id] *)
  upgrades_id_seq : Z;                          (* BIGSERIAL *)
  audit_events : list audit_event
}.

(** [status TEXT DEFAULT 'pending'] *)
Definition default_status : string := "pending".

(** [INSERT INTO upgrades(router_id, requested_by, decision, reason,
    target_ver) VALUES (...) RETURNING id].  The sequence advances whether
    or not the row is accepted; the row is refused when [router_id] names no
    router (REFERENCES), when [decision] fails the CHECK, or when the key
    is taken. *)
Definition insert_upgrade (router_id requested_by decision : string)
    (reason target_ver : jval) (t : tables) : option Z * tables :=
  let id := upgrades_id_seq t in
  let t1 := {| routers := routers t; upgrade_policies := upgrade_policies t;
               upgrades := upgrades t; upgrades_id_seq := (id + 1)%Z;
               audit_events := audit_events t |} in
  let accepted :=
    bool_decide (is_Some (routers t !! router_id))
    && (String.eqb decision "approve" || String.eqb decision "deny")
    && bool_decide (upgrades t !! id = None) in
  if accepted then
    let row := {| u_router_id := router_id; u_requested_by := requested_by;
                  u_decision := decision; u_reason := reason;
                  u_status := default_status; u_target_ver := target_ver;
                  u_history := nil |} in
    (Some id,
     {| routers := routers t1; upgrade_policies := upgrade_policies t1;
        upgrades := <[id := row]> (upgrades t1);
        upgrades_id_seq := upgrades_id_seq t1;
        audit_events := audit_events t1 |})
  else (None, t1).

Definition set_status (status : string) (row : upgrade_row) : upgrade_row :=
  {| u_router_id := u_router_id row; u_requested_by := u_requested_by row;
     u_decision := u_decision row; u_reason := u_reason row;
     u_status := status; u_target_ver := u_target_ver row;
     u_history := u_history row ++ [status] |}.

(** [UPDATE upgrades SET status = %s WHERE id = %s] followed by
    [INSERT INTO audit_events(router_id, event, details)
     SELECT router_id, %s, %s FROM upgrades WHERE id = %s]:
    nothing happens when no row has that id. *)
Definition update_status (id : Z) (status : string) (details : jval)
    (t : tables) : tables :=
  match upgrades t !! id with
  | None => t
  | Some row =>
      {| routers := routers t; upgrade_policies := upgrade_policies t;
         upgrades := <[id := set_status status row]> (upgrades t);
         upgrades_id_seq := upgrades_id_seq t;
         audit_events :=
           audit_events t ++
             [ {| a_router_id := u_router_id row;
                  a_event := "upgrade_status:" ++ status;
                  a_details := details |} ] |}
  end.

(** [SELECT p.* FROM upgrade_policies p JOIN routers r
     ON r.vendor = p.vendor AND r.model = p.model WHERE r.id = %s LIMIT 1] *)
Definition sql_eq (a b : option jval) : bool :=
  match a, b with
  | Some (JStr x), Some (JStr y) => String.eqb x y
  | _, _ => false
  end.

Definition select_policy (router_id : string) (t : tables)
    : option (gmap string jval) :=
  match routers t !! router_id with
  | None => None
  | Some r =>
      head (filter (fun p => sql_eq (r !! "vendor") (p !! "vendor")
                             && sql_eq (r !! "model") (p !! "model") = true)
                   (upgrade_policies t))
  end.

End Db.

(** ** The world outside the agents *)

Module World.

(** What the transport does to one request: it is served and answered; it
    never reaches the server; or it is served and the answer is lost (the
    HTTP client sets a 30 second timeout). *)
Inductive delivery : Type := Delivered | Unreachable | ReplyLost.

(** Everything outside the repository, by the number of the request it
    answers: the transport, the telemetry store (the value of the first
    record of a Flux query on a measurement, router and window; [JNull] when
    there is no record), the [ansible-playbook] process (return code, stdout,
    stderr, for a router, target version and check flag), the clock, and the
    gate's model API with replies of type [G]. *)
Record Env (G : Type) : Type := {
  network : nat -> delivery;
  influx_query : nat -> string -> string -> string -> res jval;
  ansible_playbook : nat -> string -> jval -> bool -> res (Z * string * string);
  utcnow : nat -> string;
  gate_api : nat -> res G
}.
Arguments network {G} e n.
Arguments influx_query {G} e n measurement router_id window.
Arguments ansible_playbook {G} e n router_id target_ver check.
Arguments utcnow {G} e n.
Arguments gate_api {G} e n.

(** The state the servers keep: the database, the calls made to the
    playbook runner so far (router, target version, check flag: every call
    of [run_playbook] or [execute_ansible_playbook], whether or not the
    process got started), and the number of requests seen. *)
Record world : Type := {
  db : Db.tables;
  playbook_runs : list (string * jval * bool);
  clock : nat
}.

Definition with_db (t : Db.tables) (w : world) : world :=
  {| db := t; playbook_runs := playbook_runs w; clock := clock w |}.

Definition with_run (r : string * jval * bool) (w : world) : world :=
  {| db := db w; playbook_runs := playbook_runs w ++ [r]; clock := clock w |}.

Definition tick (w : world) : world :=
  {| db := db w; playbook_runs := playbook_runs w; clock := S (clock w) |}.

End World.

(** ** The HTTP agent: [src/agent/decision_agent.py] *)

Module Legacy.

(** What [requests.post] hands back. *)
Record response : Type := { status_code : nat; body : text }.

(** The tool endpoints the agent posts to, with their JSON payloads. *)
Inductive request : Type :=
| get_router (router_id : string)
| get_policy (router_id : string)
| cpu_avg (router_id window : string)
| mem_free_min (router_id window : string)
| critical_error_count (router_id window : string)
| record_decision (router_id decision : string) (reason target_ver : jval)
| update_upgrade_status (upgrade_id : jval) (status : string) (info : option jval)
| upgrade (router_id : string) (target_ver : jval) (check : bool).

Inductive call : Type :=
| requests_post (r : request)
| chat_completions_create (model prompt : string).

(** [requests.post] returns a response; the chat call stands for the whole
    of lines 57-71 up to [resp.choices[0].message.content] and returns that
    content. *)
Definition reply (c : call) : Type :=
  match c with
  | requests_post _ => response
  | chat_completions_create _ _ => text
  end.

Abbreviation prog := (Eff.prog call reply).

(** A call that only reads: the inventory, the telemetry, the gate. *)
Definition read_only (c : call) : Prop :=
  match c with
  | requests_post (get_router _) | requests_post (get_policy _)
  | requests_post (cpu_avg _ _) | requests_post (mem_free_min _ _)
  | requests_post (critical_error_count _ _) => True
  | chat_completions_create _ _ => True
  | _ => False
  end.

(** A call to the automation backend. *)
Definition is_automation (c : call) : Prop :=
  match c with
  | requests_post (upgrade _ _ _) => True
  | _ => False
  end.


(** [policy.yaml] is read at import time and is not part of the sources;
    its entries are parameters. *)
Record PolicyFile : Type := {
  defaults_window : string;
  defaults_max_cpu_percent : Q;
  defaults_min_free_mem_percent : Q;
  defaults_max_critical_errors : Q;
  defaults_require_maintenance_window : bool;
  llm_gate_enabled : bool;
  llm_gate_model : string;
  llm_gate_prompt_notes : string
}.

Record Decision : Type := {
  approve : bool;
  reason : jval;
  target_ver : jval
}.

(** The dict [decide_and_act] returns; keys that a branch does not set are
    [None]. *)
Record outcome : Type := {
  o_upgrade_id : jval;
  o_status : string;
  o_reason : option jval;
  o_error : option string
}.

Section Agent.
Context `{Format} (POLICY : PolicyFile).

Definition PG_URL : string := "http://localhost:7001".
Definition IFX_URL : string := "http://localhost:7002".
Definition ANS_URL : string := "http://localhost:7003".

Definition url (r : request) : string :=
  match r with
  | get_router _ => PG_URL ++ "/tool/get_router"
  | get_policy _ => PG_URL ++ "/tool/get_policy"
  | cpu_avg _ _ => IFX_URL ++ "/tool/cpu_avg"
  | mem_free_min _ _ => IFX_URL ++ "/tool/mem_free_min"
  | critical_error_count _ _ => IFX_URL ++ "/tool/critical_error_count"
  | record_decision _ _ _ _ => PG_URL ++ "/tool/record_decision"
  | update_upgrade_status _ _ _ => PG_URL ++ "/tool/update_upgrade_status"
  | upgrade _ _ _ => ANS_URL ++ "/tool/upgrade"
  end.

Definition RuntimeError (msg : string) : exn := Exception "RuntimeError" msg.

(** Lines 15-22 of [post]: an HTTP error status and a body that is not
    JSON both become [RuntimeError]. *)
Definition check_response (r : request) (resp : response) : res jval :=
  if (400 <=? status_code resp)%nat && (status_code resp <? 600)%nat then
    Raise (RuntimeError
             ("HTTP " ++ fmt (JNum (inject_Z (Z.of_nat (status_code resp))))
              ++ " from " ++ url r ++ ": "
              ++ substring 0 300 (raw (body resp))))
  else
    match loads (body resp) with
    | Some v => Ok v
    | None =>
        Raise (RuntimeError
                 ("Non-JSON response from " ++ url r ++ ": "
                  ++ substring 0 300 (raw (body resp))))
    end.

(** [post]: the request itself may raise too (no connection, timeout). *)
Definition post (r : request) : prog jval :=
  resp <~ perform (requests_post r) ;;
  lift (check_response r resp).

(** Lines 39-50 of [rule_decision], with the two [or] substitutions of
    lines 35-36: everything that follows the five requests.  [avg_cpu],
    [min_free_mem] and [errs] are the values read from the telemetry
    replies. *)
Definition rule_verdict (r pol avg_cpu min_free_mem errs : jval)
    : res Decision :=
  let cpu := py_or avg_cpu (JNum 100) in
  let mem := py_or min_free_mem (JNum 0) in
  max_cpu <- py_get pol "max_cpu_percent"
               (JNum (defaults_max_cpu_percent POLICY)) ;;
  min_mem <- py_get pol "min_free_mem_percent"
               (JNum (defaults_min_free_mem_percent POLICY)) ;;
  let max_err := JNum (defaults_max_critical_errors POLICY) in
  mw <- py_get r "maintenance_window" JNull ;;
  let within_window :=
    if truthy mw then
      (if negb (defaults_require_maintenance_window POLICY) then true else true)
    else true in
  ok <- (c <- py_le cpu max_cpu ;;
         if negb c then Ok false else
         m <- py_ge mem min_mem ;;
         if negb m then Ok false else
         e <- py_le errs max_err ;;
         if negb e then Ok false else Ok within_window) ;;
  let reason :=
    "cpu_avg=" ++ fmt cpu ++ "<= " ++ fmt max_cpu
    ++ ", mem_min=" ++ fmt mem ++ ">= " ++ fmt min_mem
    ++ ", crit_errs=" ++ fmt errs ++ "<= " ++ fmt max_err
    ++ ", window=" ++ fmt (JBool within_window) in
  tv <- py_get r "target_ver" JNull ;;
  target <- (if truthy tv then Ok tv else py_get r "current_ver" JNull) ;;
  Ok {| approve := ok;
        reason := JStr (if ok then reason else "Denied: " ++ reason);
        target_ver := target |}.

Definition rule_decision (router_id : string) : prog Decision :=
  r <~ post (get_router router_id) ;;
  pol0 <~ post (get_policy router_id) ;;
  let pol := py_or pol0 (JObj ∅) in
  let window := defaults_window POLICY in
  cpu_r <~ post (cpu_avg router_id window) ;;
  avg_cpu <~ lift (py_index cpu_r "avg_cpu") ;;
  mem_r <~ post (mem_free_min router_id window) ;;
  min_free_mem <~ lift (py_index mem_r "min_free_mem") ;;
  err_r <~ post (critical_error_count router_id window) ;;
  errs <~ lift (py_index err_r "critical_errors") ;;
  lift (rule_verdict r pol avg_cpu min_free_mem errs).

Definition gate_prompt (decision : Decision) (router : jval) : string :=
  "Router: " ++ fmt router
  ++ " Pre-decision: " ++ (if approve decision then "APPROVE" else "DENY")
  ++ " Reason: " ++ fmt (reason decision)
  ++ " Task: Reply with JSON: {approve: true|false, reason: short}"
  ++ " Guidelines: " ++ llm_gate_prompt_notes POLICY.

(** Lines 71-72 of [llm_gate]: the decision read from the reply. *)
Definition gate_opinion (decision : Decision) (content : text) : res Decision :=
  data <- json_loads content ;;
  a <- py_index data "approve" ;;
  rs <- py_index data "reason" ;;
  Ok {| approve := truthy a; reason := rs;
        target_ver := target_ver decision |}.

(** [llm_gate] *)
Definition llm_gate (decision : Decision) (router : jval) : prog Decision :=
  if negb (llm_gate_enabled POLICY) then Ret decision
  else
    try_except
      (content <~ perform (chat_completions_create (llm_gate_model POLICY)
                             (gate_prompt decision router)) ;;
       lift (gate_opinion decision content))
      (fun e =>
         (* Fail-closed for safety *)
         Ret {| approve := false;
                reason := JStr ("LLM gate error: " ++ exn_str e);
                target_ver := target_ver decision |}).

Definition info1 (k : string) (v : jval) : option jval :=
  Some (JObj {[ k := v ]}).

(** Lines 81-113 of [decide_and_act]: what is done with the final
    decision [d]. *)
Definition act (router_id : string) (dry_run : bool) (d : Decision)
    : prog outcome :=
  rec <~ post (record_decision router_id
                 (if approve d then "approve" else "deny")
                 (reason d) (target_ver d)) ;;
  upgrade_id <~ lift (py_index rec "upgrade_id") ;;
  if negb (approve d) then
    _ <~ post (update_upgrade_status upgrade_id "denied"
                 (info1 "reason" (reason d))) ;;
    Ret {| o_upgrade_id := upgrade_id; o_status := "denied";
           o_reason := Some (reason d); o_error := None |}
  else
    (* Pre-check (dry-run) with robust error handling *)
    early <~ try_except
      (res <~ post (upgrade router_id (target_ver d) true) ;;
       _ <~ post (update_upgrade_status upgrade_id "precheck" (Some res)) ;;
       Ret None)
      (fun e =>
         _ <~ post (update_upgrade_status upgrade_id "precheck-failed"
                      (info1 "error" (JStr (exn_str e)))) ;;
         Ret (Some {| o_upgrade_id := upgrade_id;
                      o_status := "precheck-failed";
                      o_reason := None;
                      o_error := Some (exn_str e) |})) ;;
    match early with
    | Some out => Ret out
    | None =>
        if dry_run then
          Ret {| o_upgrade_id := upgrade_id; o_status := "precheck-ok";
                 o_reason := None; o_error := None |}
        else
          (* Execute *)
          try_except
            (_ <~ post (update_upgrade_status upgrade_id "running" None) ;;
             res <~ post (upgrade router_id (target_ver d) false) ;;
             _ <~ post (update_upgrade_status upgrade_id "success" (Some res)) ;;
             Ret {| o_upgrade_id := upgrade_id; o_status := "success";
                    o_reason := None; o_error := None |})
            (fun e =>
               _ <~ post (update_upgrade_status upgrade_id "failed"
                            (info1 "error" (JStr (exn_str e)))) ;;
               Ret {| o_upgrade_id := upgrade_id; o_status := "failed";
                      o_reason := None; o_error := Some (exn_str e) |})
    end.

(** [decide_and_act] *)
Definition decide_and_act (router_id : string) (dry_run : bool)
    : prog outcome :=
  router <~ post (get_router router_id) ;;
  d <~ rule_decision router_id ;;
  d <~ llm_gate d router ;;
  act router_id dry_run d.

End Agent.

End Legacy.

(** ** The HTTP tool servers: [src/servers/mcp_postgres/server.py],
    [src/servers/mcp_influx/server.py], [src/servers/mcp_ansible/server.py] *)

Module LegacyWorld.
Import Legacy.

Import World.

Abbreviation Env := (World.Env text).

Section Servers.
Context `{Format} (env : Env).

Definition json_response (code : nat) (v : jval) : response :=
  {| status_code := code; body := json_text v |}.

(** [raise HTTPException(code, detail)] *)
Definition http_exception (code : nat) (detail : string) : response :=
  json_response code (JObj {[ "detail" := JStr detail ]}).

(** A request body that fails pydantic validation. *)
Definition unprocessable : response :=
  http_exception 422 "validation error".

(** An exception FastAPI does not know. *)
Definition internal_server_error : response :=
  {| status_code := 500;
     body := {| raw := "Internal Server Error"; loads := None |} |}.

(** pydantic field types.  [int] is read from a JSON number without a
    fractional part (the agent only ever sends the number a
    [record_decision] reply carried; pydantic's reading of numeric strings
    is not modelled). *)
Definition as_int (v : jval) : option Z :=
  match v with
  | JNum q => if Qeq_bool q (inject_Z (Qfloor q)) then Some (Qfloor q) else None
  | _ => None
  end.

Definition as_str (v : jval) : option string :=
  match v with JStr s => Some s | _ => None end.

Definition as_opt_str (v : jval) : option jval :=
  match v with
  | JStr s => Some (JStr s)
  | JNull => Some JNull
  | _ => None
  end.

Definition as_opt_dict (v : option jval) : option jval :=
  match v with
  | None | Some JNull => Some (JObj ∅)     (* [p.info or {}] *)
  | Some (JObj d) => Some (py_or (JObj d) (JObj ∅))
  | Some _ => None
  end.

(** One endpoint call, on the server side. *)
Definition endpoint (r : request) (w : world) : response * world :=
  match r with
  | get_router router_id =>
      match Db.routers (db w) !! router_id with
      | Some row => (json_response 200 (JObj row), w)
      | None => (http_exception 404 "router not found", w)
      end
  | get_policy router_id =>
      match Db.select_policy router_id (db w) with
      | Some row => (json_response 200 (JObj row), w)
      | None => (json_response 200 JNull, w)
      end
  | cpu_avg router_id window =>
      match influx_query env (clock w) "cpu" router_id window with
      | Ok v => (json_response 200 (JObj {[ "avg_cpu" := v ]}), w)
      | Raise _ => (internal_server_error, w)
      end
  | mem_free_min router_id window =>
      match influx_query env (clock w) "mem" router_id window with
      | Ok v => (json_response 200 (JObj {[ "min_free_mem" := v ]}), w)
      | Raise _ => (internal_server_error, w)
      end
  | critical_error_count router_id window =>
      match influx_query env (clock w) "errors" router_id window with
      | Ok v =>
          (json_response 200
             (JObj {[ "critical_errors" := py_or v (JNum 0) ]}), w)
      | Raise _ => (internal_server_error, w)
      end
  | record_decision router_id decision reason target_ver =>
      match as_str reason, as_opt_str target_ver with
      | Some reason, Some target_ver =>
          if negb (String.eqb decision "approve" || String.eqb decision "deny")
          then (http_exception 400 "decision must be approve|deny", w)
          else
            match Db.insert_upgrade router_id "agentx" decision
                    (JStr reason) target_ver (db w) with
            | (Some id, t) =>
                (json_response 200
                   (JObj {[ "upgrade_id" := JNum (inject_Z id) ]}),
                 with_db t w)
            | (None, t) => (internal_server_error, with_db t w)
            end
      | _, _ => (unprocessable, w)
      end
  | update_upgrade_status upgrade_id status info =>
      match as_int upgrade_id, as_opt_dict info with
      | Some id, Some details =>
          (json_response 200 (JObj {[ "ok" := JBool true ]}),
           with_db (Db.update_status id status details (db w)) w)
      | _, _ => (unprocessable, w)
      end
  | upgrade router_id target_ver check =>
      match as_str target_ver with
      | None => (unprocessable, w)
      | Some ver =>
          let w' := with_run (router_id, JStr ver, check) w in
          match ansible_playbook env (clock w) router_id (JStr ver) check with
          | Raise _ => (internal_server_error, w')
          | Ok (returncode, stdout, stderr) =>
              if negb (returncode =? 0)%Z then (http_exception 500 stderr, w')
              else
                (json_response 200
                   (JObj {[ "returncode" := JNum (inject_Z returncode);
                            "stdout" := JStr stdout;
                            "stderr" := JStr stderr ]}), w')
          end
      end
  end.

(** The collaborators as the agent meets them. *)
Definition handle (c : call) (w : world) : res (reply c) * world :=
  match c return res (reply c) * world with
  | requests_post r =>
      match network env (clock w) with
      | Unreachable =>
          (Raise (Exception "ConnectionError" "connection refused"), tick w)
      | Delivered =>
          let '(resp, w') := endpoint r w in (Ok resp, tick w')
      | ReplyLost =>
          let '(_, w') := endpoint r w in
          (Raise (Exception "ReadTimeout" "read timed out"), tick w')
      end
  | chat_completions_create _ _ => (gate_api env (clock w), tick w)
  end.

End Servers.

End LegacyWorld.

(** ** The MCP agent: [src/src/agent/decision_engine.py] and
    [src/src/agent/mcp_agent.py] *)

Module Mcp.

(** An entry of [UpgradeDecision.metrics_summary]: a JSON value, or the
    list of condition lines. *)
Inductive sval : Type :=
| SVal (v : jval)
| SList (l : list string).

(** [UpgradeDecision.additional_checks]: [None], the default [[]] of
    [decision_data.get], or what the gate sent. *)
Inductive checks : Type :=
| NoChecks
| EmptyChecks
| Checks (v : jval).

Record UpgradeDecision : Type := {
  approve : jval;
  reason : jval;
  target_ver : jval;
  confidence : jval;
  metrics_summary : option (gmap string sval);
  additional_checks : checks
}.

(** The [llm_gate] section of the engine's [policy.yaml]. *)
Record gate_section : Type := {
  enabled : option jval;
  model : option string
}.

(** [policy.yaml] is loaded by [DecisionEngine.__init__] and is not part of
    the sources; its entries are parameters. *)
Record PolicyFile : Type := {
  defaults_window : string;
  defaults_max_cpu_percent : Q;
  defaults_min_free_mem_percent : Q;
  defaults_max_critical_errors : Q;
  defaults_require_maintenance_window : bool;
  llm_gate : option gate_section
}.

(** [CallToolResult.content]: empty, a first item with a [text], or a first
    item without one. *)
Inductive tool_result : Type :=
| NoContent
| TextContent (t : text)
| OtherContent.

(** A content block of the model API's message. *)
Inductive block : Type :=
| TextBlock (t : text)
| OtherBlock (type : string).

(** The tools the agent calls, by server, with their arguments. *)
Inductive tool_call : Type :=
| pg_get_router (router_id : string)
| pg_get_policy (router_id : string)
| influx_health_summary (router_id window : string)
| pg_record_decision (router_id decision : string) (reason target_ver : jval)
| pg_update_upgrade_status (upgrade_id : jval) (status : string) (info : option jval)
| ansible_upgrade (router_id : string) (target_ver : jval) (check : bool).

Inductive call : Type :=
| session_call_tool (t : tool_call)
| messages_create (model prompt : string).

Definition reply (c : call) : Type :=
  match c with
  | session_call_tool _ => tool_result
  | messages_create _ _ => list block
  end.

Abbreviation prog := (Eff.prog call reply).

(** A call to the automation backend. *)
Definition is_automation (c : call) : Prop :=
  match c with
  | session_call_tool (ansible_upgrade _ _ _) => True
  | _ => False
  end.

(** A call that is not a status update. *)
Definition no_status_update (c : call) : Prop :=
  match c with
  | session_call_tool (pg_update_upgrade_status _ _ _) => False
  | _ => True
  end.

(** A call that cannot touch a row of [upgrades]: not a [record_decision],
    and a status update only with an id the server refuses as missing. *)
Definition no_row_change (c : call) : Prop :=
  match c with
  | session_call_tool (pg_record_decision _ _ _ _) => False
  | session_call_tool (pg_update_upgrade_status upgrade_id _ _) =>
      truthy upgrade_id = false
  | _ => True
  end.

(** The dict [execute_upgrade] returns; keys that a branch does not set are
    [None]. *)
Record outcome : Type := {
  o_status : string;
  o_router_id : string;
  o_reason : option jval;
  o_upgrade_id : option jval;
  o_target_version : option jval;
  o_execution_details : option jval;
  o_error : option string
}.

Section Agent.
Context `{Format} (POLICY : PolicyFile).

(** Line 50: [cpu <= max_cpu if cpu is not None else False] *)
Definition cpu_condition (cpu max_cpu : jval) : res bool :=
  if negb (is_none cpu) then py_le cpu max_cpu else Ok false.

(** Line 51: [mem >= min_mem if mem is not None else False] *)
Definition mem_condition (mem min_mem : jval) : res bool :=
  if negb (is_none mem) then py_ge mem min_mem else Ok false.

(** [DecisionEngine.evaluate_upgrade_rules] *)
Definition evaluate_upgrade_rules (router_info policy health_summary : jval)
    : res UpgradeDecision :=
  metrics <- py_get health_summary "metrics" (JObj ∅) ;;
  (* Use policy-specific thresholds or fallback to defaults *)
  max_cpu <- py_get policy "max_cpu_percent"
               (JNum (defaults_max_cpu_percent POLICY)) ;;
  min_mem <- py_get policy "min_free_mem_percent"
               (JNum (defaults_min_free_mem_percent POLICY)) ;;
  let max_errors := JNum (defaults_max_critical_errors POLICY) in
  cpu <- py_get metrics "cpu_avg" (JNum 100) ;;
  mem <- py_get metrics "mem_free_min" (JNum 0) ;;
  errors <- py_get metrics "critical_errors" (JNum 0) ;;
  (* Check maintenance window (simplified - always pass for now) *)
  let within_window := true in
  (* Evaluate conditions *)
  cpu_ok <- cpu_condition cpu max_cpu ;;
  mem_ok <- mem_condition mem min_mem ;;
  errors_ok <- py_le errors max_errors ;;
  let window_ok :=
    within_window || negb (defaults_require_maintenance_window POLICY) in
  let approve := cpu_ok && mem_ok && errors_ok && window_ok in
  let mark (b : bool) := if b then "✓" else "✗" in
  let conditions :=
    [ "CPU " ++ fmt cpu ++ "% " ++ mark cpu_ok ++ " (limit: " ++ fmt max_cpu ++ "%)";
      "Memory " ++ fmt mem ++ "% " ++ mark mem_ok ++ " (min: " ++ fmt min_mem ++ "%)";
      "Errors " ++ fmt errors ++ " " ++ mark errors_ok ++ " (max: " ++ fmt max_errors ++ ")";
      "Window " ++ mark window_ok ] in
  let joined := String.concat ", " conditions in
  tv <- py_get router_info "target_ver" JNull ;;
  target <- (if truthy tv then Ok tv else py_get router_info "current_ver" JNull) ;;
  Ok {| approve := JBool approve;
        reason := JStr (if approve then "All conditions met: " ++ joined
                        else "Conditions failed: " ++ joined);
        target_ver := target;
        confidence := JNum (8 # 10);
        metrics_summary :=
          Some {[ "cpu" := SVal cpu; "mem" := SVal mem;
                  "errors" := SVal errors; "conditions" := SList conditions ]};
        additional_checks := NoChecks |}.

(** [NetworkUpgradeAgent.call_mcp_tool], for a connected server. *)
Definition call_mcp_tool (t : tool_call) : prog jval :=
  result <~ perform (session_call_tool t) ;;
  match result with
  | TextContent t =>
      match loads t with
      | Some v => Ret v
      | None => Ret (JObj {[ "raw" := JStr (raw t) ]})
      end
  | OtherContent =>
      Throw (AttributeError "object has no attribute 'text'")
  | NoContent => Ret (PyObject "CallToolResult")
  end.

(** [self.decision_engine.policy.get('llm_gate', {}).get('enabled', True)] *)
Definition gate_enabled : bool :=
  match llm_gate POLICY with
  | None => true
  | Some g => match enabled g with None => true | Some v => truthy v end
  end.

Definition gate_model : string :=
  match llm_gate POLICY with
  | None => "claude-3-5-sonnet-20241022"
  | Some g => default "claude-3-5-sonnet-20241022" (model g)
  end.

Definition gate_prompt (router_info policy health_summary : jval)
    (rule_decision : UpgradeDecision) : string :=
  "You are a network upgrade safety agent. ROUTER INFO: " ++ fmt router_info
  ++ " POLICY: " ++ fmt policy
  ++ " HEALTH METRICS: " ++ fmt health_summary
  ++ " RULE-BASED DECISION: " ++ fmt (approve rule_decision)
  ++ " " ++ fmt (reason rule_decision)
  ++ " " ++ fmt (confidence rule_decision).

(** Lines 210-221 of [llm_gate_decision]: the decision read from a text
    block. *)
Definition gate_opinion (rule_decision : UpgradeDecision) (content : text)
    : res UpgradeDecision :=
  decision_data <- json_loads content ;;
  a <- py_index decision_data "approve" ;;
  rs <- py_index decision_data "reason" ;;
  c <- py_index decision_data "confidence" ;;
  ms <- match metrics_summary rule_decision with
        | Some m => Ok (<[ "llm_analysis" := SVal decision_data ]> m)
        | None => Raise (TypeError "'NoneType' object is not a mapping")
        end ;;
  Ok {| approve := a; reason := rs;
        target_ver := target_ver rule_decision;
        confidence := c;
        metrics_summary := Some ms;
        additional_checks :=
          match decision_data with
          | JObj d => match d !! "additional_checks" with
                      | Some v => Checks v
                      | None => EmptyChecks
                      end
          | _ => EmptyChecks
          end |}.

(** [NetworkUpgradeAgent.llm_gate_decision] *)
Definition llm_gate_decision (router_info policy health_summary : jval)
    (rule_decision : UpgradeDecision) : prog UpgradeDecision :=
  if negb gate_enabled then Ret rule_decision
  else
    made <~ try_except
      (response <~ perform (messages_create gate_model
                    (gate_prompt router_info policy health_summary rule_decision)) ;;
       match response with
       | nil => Throw (Exception "IndexError" "list index out of range")
       | TextBlock t :: _ =>
           d <~ lift (gate_opinion rule_decision t) ;; Ret (Some d)
       | OtherBlock _ :: _ => Ret None
       end)
      (fun e =>
         (* Fail closed - deny on LLM error *)
         Ret (Some {| approve := JBool false;
                      reason := JStr ("LLM gate failed: " ++ exn_str e);
                      target_ver := target_ver rule_decision;
                      confidence := JNum 0;
                      metrics_summary := metrics_summary rule_decision;
                      additional_checks := NoChecks |})) ;;
    match made with
    | Some d => Ret d
    | None => Ret rule_decision
    end.

Definition decision_word (d : UpgradeDecision) : string :=
  if truthy (approve d) then "approve" else "deny".

(** [NetworkUpgradeAgent.analyze_upgrade_readiness].  The three reads of
    [asyncio.gather] are issued in the order they are written. *)
Definition analyze_upgrade_readiness (router_id : string) : prog UpgradeDecision :=
  try_except
    (router_info <~ call_mcp_tool (pg_get_router router_id) ;;
     policy <~ call_mcp_tool (pg_get_policy router_id) ;;
     health_summary <~ call_mcp_tool
                         (influx_health_summary router_id (defaults_window POLICY)) ;;
     (* Apply rule-based decision logic *)
     rule_decision <~ lift (evaluate_upgrade_rules router_info
                              (py_or policy (JObj ∅)) health_summary) ;;
     (* Use LLM for final decision with all context *)
     final_decision <~ llm_gate_decision router_info policy health_summary
                         rule_decision ;;
     (* Record the decision *)
     _ <~ call_mcp_tool (pg_record_decision router_id
                           (decision_word final_decision)
                           (reason final_decision) (target_ver final_decision)) ;;
     Ret final_decision)
    (fun e =>
       Ret {| approve := JBool false;
              reason := JStr ("Analysis failed: " ++ exn_str e);
              target_ver := JNull;
              confidence := JNum 0;
              metrics_summary := Some ∅;
              additional_checks := NoChecks |}).

(** Lines 244-306 of [execute_upgrade]: what is done with the decision
    [analyze_upgrade_readiness] returned. *)
Definition carry_out (router_id : string) (dry_run : bool)
    (decision : UpgradeDecision) : prog outcome :=
  if negb (truthy (approve decision)) then
    Ret {| o_status := "denied"; o_router_id := router_id;
           o_reason := Some (reason decision); o_upgrade_id := None;
           o_target_version := None; o_execution_details := None;
           o_error := None |}
  else
    (* Get the upgrade record ID for status tracking *)
    upgrade_record <~ call_mcp_tool
                        (pg_record_decision router_id "approve"
                           (reason decision) (target_ver decision)) ;;
    upgrade_id <~ lift (py_get upgrade_record "upgrade_id" JNull) ;;
    try_except
      ((* Update status to running *)
       _ <~ call_mcp_tool (pg_update_upgrade_status upgrade_id "running" None) ;;
       (* Execute the upgrade via Ansible MCP server *)
       upgrade_result <~ call_mcp_tool
                           (ansible_upgrade router_id (target_ver decision) dry_run) ;;
       (* Update status based on result *)
       ok <~ lift (py_get upgrade_result "success" JNull) ;;
       let final_status := if truthy ok then "success" else "failed" in
       _ <~ call_mcp_tool (pg_update_upgrade_status upgrade_id final_status
                             (Some upgrade_result)) ;;
       Ret {| o_status := final_status; o_router_id := router_id;
              o_reason := None; o_upgrade_id := Some upgrade_id;
              o_target_version := Some (target_ver decision);
              o_execution_details := Some upgrade_result;
              o_error := None |})
      (fun e =>
         (* Update status to failed *)
         _ <~ (if truthy upgrade_id then
                 call_mcp_tool (pg_update_upgrade_status upgrade_id "failed"
                                  (Some (JObj {[ "error" := JStr (exn_str e) ]})))
               else Ret JNull) ;;
         Ret {| o_status := "failed"; o_router_id := router_id;
                o_reason := None; o_upgrade_id := Some upgrade_id;
                o_target_version := None; o_execution_details := None;
                o_error := Some (exn_str e) |}).

(** [NetworkUpgradeAgent.execute_upgrade] *)
Definition execute_upgrade (router_id : string) (dry_run : bool) : prog outcome :=
  try_except
    ((* First, analyze readiness *)
     decision <~ analyze_upgrade_readiness router_id ;;
     carry_out router_id dry_run decision)
    (fun e =>
       Ret {| o_status := "error"; o_router_id := router_id;
              o_reason := None; o_upgrade_id := None;
              o_target_version := None; o_execution_details := None;
              o_error := Some (exn_str e) |}).

End Agent.

End Mcp.

(** ** The MCP tool servers: [src/src/servers/postgres_server.py],
    [src/src/servers/influx_server.py], [src/src/servers/ansible_server.py] *)

Module McpWorld.
Import World Mcp.

Abbreviation Env := (World.Env (list block)).

Section Servers.
Context `{Format} (env : Env).

Definition respond (v : jval) : tool_result := TextContent (json_text v).

(** The [except Exception] of the postgres and influx [call_tool]. *)
Definition tool_error (msg : string) : tool_result :=
  respond (JObj {[ "error" := JStr msg ]}).

(** The [except Exception] of the ansible [call_tool]. *)
Definition ansible_error (msg : string) : tool_result :=
  respond (JObj {[ "error" := JStr msg; "success" := JBool false ]}).

(** A value psycopg2 can pass as a query parameter. *)
Definition adaptable (v : jval) : bool :=
  match v with
  | JObj _ | PyObject _ => false
  | _ => true
  end.

(** The [id] a query parameter selects in [WHERE id = %s]; the agent only
    ever sends the number a [record_decision] reply carried. *)
Definition row_id (v : jval) : option Z :=
  match v with
  | JNum q => if Qeq_bool q (inject_Z (Qfloor q)) then Some (Qfloor q) else None
  | _ => None
  end.

(** [InfluxMCPServer.get_cpu_avg] (lines 147-174).  After its query the
    method builds its reply from the names [measurement], [field],
    [aggregation] and [value], none of which it binds: evaluating the reply
    raises [NameError], so the method never returns a result. *)
Definition get_cpu_avg (router_id window : string) (w : world) : res jval :=
  avg_cpu <- influx_query env (clock w) "cpu" router_id window ;;
  Raise (Exception "NameError" "name 'measurement' is not defined").

(** [InfluxMCPServer.get_mem_free_min] *)
Definition get_mem_free_min (router_id window : string) (w : world) : res jval :=
  min_mem <- influx_query env (clock w) "mem" router_id window ;;
  Ok (JObj {[ "router_id" := JStr router_id;
              "window" := JStr window;
              "min_free_mem" := min_mem;
              "timestamp" := JStr (utcnow env (clock w) ++ "Z") ]}).

(** [InfluxMCPServer.get_critical_error_count] *)
Definition get_critical_error_count (router_id window : string) (w : world)
    : res jval :=
  critical_errors <- influx_query env (clock w) "errors" router_id window ;;
  Ok (JObj {[ "router_id" := JStr router_id;
              "window" := JStr window;
              "critical_errors" := py_or critical_errors (JNum 0);
              "timestamp" := JStr (utcnow env (clock w) ++ "Z") ]}).

(** [InfluxMCPServer.get_health_summary] (lines 176-213): the three tools
    one after the other, their replies read back, and the status of the
    three values.  As [get_cpu_avg] raises, so does this method, before the
    other two tools are called. *)
Definition get_health_summary (router_id window : string) (w : world)
    : res jval :=
  cpu_data <- get_cpu_avg router_id window w ;;
  mem_data <- get_mem_free_min router_id window w ;;
  error_data <- get_critical_error_count router_id window w ;;
  avg_cpu <- py_get cpu_data "avg_cpu" JNull ;;
  min_free_mem <- py_get mem_data "min_free_mem" JNull ;;
  critical_errors <- py_get error_data "critical_errors" JNull ;;
  health_status <- Influx.calculate_health_status avg_cpu min_free_mem
                     critical_errors ;;
  Ok (JObj {[ "router_id" := JStr router_id;
              "window" := JStr window;
              "timestamp" := JStr (utcnow env (clock w) ++ "Z");
              "metrics" := JObj {[ "cpu_avg" := avg_cpu;
                                   "mem_free_min" := min_free_mem;
                                   "critical_errors" := critical_errors ]};
              "health_status" := JStr health_status ]}).

(** One tool call, on the server side: the tool's method under its
    server's [call_tool]. *)
Definition serve (t : tool_call) (w : world) : tool_result * world :=
  match t with
  | pg_get_router router_id =>
      if String.eqb router_id "" then (tool_error "Router ID is required", w)
      else
        match Db.routers (db w) !! router_id with
        | Some row => (respond (JObj row), w)
        | None => (tool_error ("Router " ++ router_id ++ " not found"), w)
        end
  | pg_get_policy router_id =>
      if String.eqb router_id "" then (tool_error "Router ID is required", w)
      else
        match Db.select_policy router_id (db w) with
        | Some row => (respond (JObj row), w)
        | None => (respond JNull, w)
        end
  | influx_health_summary router_id window =>
      match get_health_summary router_id window w with
      | Ok v => (respond v, w)
      | Raise e => (tool_error (exn_str e), w)
      end
  | pg_record_decision router_id decision reason target_ver =>
      if negb (negb (String.eqb router_id "") && negb (String.eqb decision "")
               && truthy reason)
      then (tool_error "router_id, decision, and reason are required", w)
      else if negb (adaptable reason && adaptable target_ver)
      then (tool_error "can't adapt type", w)
      else
        match Db.insert_upgrade router_id "mcp-agent" decision reason
                target_ver (db w) with
        | (Some id, t) =>
            (respond (JObj {[ "upgrade_id" := JNum (inject_Z id) ]}), with_db t w)
        | (None, t) => (tool_error "insert or update on table violates constraint",
                        with_db t w)
        end
  | pg_update_upgrade_status upgrade_id status info =>
      if negb (truthy upgrade_id) || String.eqb status ""
      then (tool_error "upgrade_id and status are required", w)
      else
        match row_id upgrade_id with
        | Some id =>
            (respond (JObj {[ "success" := JBool true ]}),
             with_db (Db.update_status id status (default (JObj ∅) info) (db w)) w)
        | None => (tool_error "invalid input for bigint", w)
        end
  | ansible_upgrade router_id target_ver check =>
      if String.eqb router_id "" || negb (truthy target_ver)
      then (ansible_error "router_id and target_ver are required", w)
      else
        let w' := with_run (router_id, target_ver, check) w in
        match ansible_playbook env (clock w) router_id target_ver check with
        | Raise e => (ansible_error (exn_str e), w')
        | Ok (returncode, stdout, stderr) =>
            (respond
               (JObj {[ "router_id" := JStr router_id;
                        "target_ver" := target_ver;
                        "check_mode" := JBool check;
                        "success" := JBool (returncode =? 0)%Z;
                        "execution_time" := JNum 0;
                        "ansible_output" :=
                          JObj {[ "stdout" := JStr stdout;
                                  "stderr" := JStr stderr;
                                  "returncode" := JNum (inject_Z returncode) ]} ]}),
             w')
        end
  end.

(** The collaborators as the agent meets them. *)
Definition handle (c : call) (w : world) : res (reply c) * world :=
  match c return res (reply c) * world with
  | session_call_tool t =>
      match network env (clock w) with
      | Unreachable =>
          (Raise (Exception "ConnectionError" "connection closed"), tick w)
      | Delivered =>
          let '(result, w') := serve t w in (Ok result, tick w')
      | ReplyLost =>
          let '(_, w') := serve t w in
          (Raise (Exception "TimeoutError" "timed out"), tick w')
      end
  | messages_create _ _ => (gate_api env (clock w), tick w)
  end.

End Servers.

End McpWorld.

(** ** The specification's reading of the derived health status

    Section 4.2 of the specification, in its own words: [critical] if
    critical_errors > 0; else [warning] if cpu_avg > 80 or mem_free_min < 20;
    else [caution] if cpu_avg > 70 or mem_free_min < 30; else [healthy];
    [unknown] if cpu_avg or mem_free_min could not be obtained. *)

Module Spec.

Definition gt (x y : Q) : bool := if Qlt_le_dec y x then true else false.
Definition lt (x y : Q) : bool := if Qlt_le_dec x y then true else false.

Definition health_status (cpu_avg mem_free_min : option Q) (critical_errors : Q)
    : string :=
  match cpu_avg, mem_free_min with
  | Some c, Some m =>
      if gt critical_errors 0 then "critical"
      else if gt c 80 || lt m 20 then "warning"
      else if gt c 70 || lt m 30 then "caution"
      else "healthy"
  | _, _ => "unknown"
  end.

(** A metric as the telemetry reply carries it: a number, or [None]. *)
Definition metric (v : option Q) : jval :=
  match v with Some q => JNum q | None => JNull end.

End Spec.

(** ** Snapshots, policies and worlds used in statements and examples *)

Module Samples.

(** A health summary whose [metrics] are [ms]. *)
Definition summary_with (ms : gmap string jval) : jval :=
  JObj {[ "metrics" := JObj ms ]}.

(** The metrics of a snapshot in which all three values were obtained. *)
Definition metrics_of (cpu_avg mem_free_min critical_errors : jval)
    : gmap string jval :=
  {[ "cpu_avg" := cpu_avg; "mem_free_min" := mem_free_min;
     "critical_errors" := critical_errors ]}.

(** The policy of the specification's end-to-end scenarios: at most 75%
    CPU, at least 25% free memory, no critical error. *)
Definition legacy_policy (gate : bool) : Legacy.PolicyFile :=
  {| Legacy.defaults_window := "2h";
     Legacy.defaults_max_cpu_percent := 75;
     Legacy.defaults_min_free_mem_percent := 25;
     Legacy.defaults_max_critical_errors := 0;
     Legacy.defaults_require_maintenance_window := false;
     Legacy.llm_gate_enabled := gate;
     Legacy.llm_gate_model := "gpt-4o-mini";
     Legacy.llm_gate_prompt_notes := "" |}.

Definition engine_policy (max_cpu min_mem : Q) (gate : bool) : Mcp.PolicyFile :=
  {| Mcp.defaults_window := "2h";
     Mcp.defaults_max_cpu_percent := max_cpu;
     Mcp.defaults_min_free_mem_percent := min_mem;
     Mcp.defaults_max_critical_errors := 0;
     Mcp.defaults_require_maintenance_window := false;
     Mcp.llm_gate := Some {| Mcp.enabled := Some (JBool gate); Mcp.model := None |} |}.

(** Router R1 of the scenarios. *)
Definition R1 : gmap string jval :=
  {[ "id" := JStr "R1"; "vendor" := JStr "cisco"; "model" := JStr "ISR4331";
     "current_ver" := JStr "16.9"; "target_ver" := JStr "17.3" ]}.

(** How the examples print values: integers in decimal, other numbers as a
    fraction. *)
Definition plain : Format :=
  fun v =>
    match v with
    | JNull => "None"
    | JBool b => if b then "True" else "False"
    | JNum q =>
        if Qeq_bool q (inject_Z (Qfloor q)) then pretty (Qfloor q)
        else pretty (Qnum q) ++ "/" ++ pretty (Zpos (Qden q))
    | JStr s => s
    | JObj _ => "{...}"
    | PyObject cls => cls
    end.

(** Collaborators that all answer: the given telemetry, a playbook that
    exits with [returncode], and the given gate reply; [net] says what the
    transport does. *)
Definition env_with {G : Type} (net : nat -> World.delivery)
    (cpu mem errs : jval) (returncode : Z) (gate : res G) : World.Env G :=
  {| World.network := net;
     World.influx_query := fun _ measurement _ _ =>
       if String.eqb measurement "cpu" then Ok cpu
       else if String.eqb measurement "mem" then Ok mem
       else Ok errs;
     World.ansible_playbook := fun _ _ _ _ => Ok (returncode, "", "stderr");
     World.utcnow := fun _ => "2024-01-01T00:00:00";
     World.gate_api := fun _ => gate |}.

Definition always_delivered : nat -> World.delivery := fun _ => World.Delivered.

(** A database that knows router R1 and has no upgrade yet. *)
Definition tables0 : Db.tables :=
  {| Db.routers := {[ "R1" := R1 ]};
     Db.upgrade_policies := nil;
     Db.upgrades := ∅;
     Db.upgrades_id_seq := 1;
     Db.audit_events := nil |}.

Definition world0 : World.world :=
  {| World.db := tables0; World.playbook_runs := nil; World.clock := 0 |}.

(** A rule decision in favour of the upgrade. *)
Definition approved : Legacy.Decision :=
  {| Legacy.approve := true; Legacy.reason := JStr "ok";
     Legacy.target_ver := JStr "17.3" |}.

Definition denied : Legacy.Decision :=
  {| Legacy.approve := false; Legacy.reason := JStr "Denied: cpu";
     Legacy.target_ver := JStr "17.3" |}.

Definition engine_approved : Mcp.UpgradeDecision :=
  {| Mcp.approve := JBool true; Mcp.reason := JStr "All conditions met";
     Mcp.target_ver := JStr "17.3"; Mcp.confidence := JNum (8 # 10);
     Mcp.metrics_summary := Some ∅; Mcp.additional_checks := Mcp.NoChecks |}.

Definition engine_denied : Mcp.UpgradeDecision :=
  {| Mcp.approve := JBool false; Mcp.reason := JStr "Conditions failed";
     Mcp.target_ver := JStr "17.3"; Mcp.confidence := JNum (8 # 10);
     Mcp.metrics_summary := Some ∅; Mcp.additional_checks := Mcp.NoChecks |}.

End Samples.

(** ** Gate failures *)

Module GateFailure.

(** An error is raised while the HTTP agent obtains the gate's opinion: the
    call itself raises, or reading the decision from the reply does. *)
Definition legacy_error `{Format} {W : Type}
    (handle : forall c : Legacy.call, W -> res (Legacy.reply c) * W)
    (POLICY : Legacy.PolicyFile) (d : Legacy.Decision) (router : jval)
    (w : W) (e : exn) : Prop :=
  match fst (handle (Legacy.chat_completions_create
                       (Legacy.llm_gate_model POLICY)
                       (Legacy.gate_prompt POLICY d router)) w) with
  | Raise e' => e' = e
  | Ok content => Legacy.gate_opinion d content = Raise e
  end.

(** The same for the MCP agent, whose reply is a list of content blocks:
    the call raises, there is no block, or reading the decision from a first
    text block raises. *)
Definition mcp_error `{Format} {W : Type}
    (handle : forall c : Mcp.call, W -> res (Mcp.reply c) * W)
    (POLICY : Mcp.PolicyFile) (router_info policy health_summary : jval)
    (rule : Mcp.UpgradeDecision) (w : W) (e : exn) : Prop :=
  match fst (handle (Mcp.messages_create (Mcp.gate_model POLICY)
                       (Mcp.gate_prompt router_info policy health_summary rule)) w) with
  | Raise e' => e' = e
  | Ok nil => e = Exception "IndexError" "list index out of range"
  | Ok (Mcp.TextBlock t :: _) => Mcp.gate_opinion rule t = Raise e
  | Ok (Mcp.OtherBlock _ :: _) => False
  end.

(** A reply text that is not JSON, is not a JSON object, or lacks one of
    the required fields. *)
Definition malformed (fields : list string) (t : text) : Prop :=
  match loads t with
  | None => True
  | Some (JObj d) => exists k, k ∈ fields /\ d !! k = None
  | Some _ => True
  end.

End GateFailure.

(** ** Upgrade attempts as the database records them *)

Module Attempt.
Import World.

(** The statuses after which an attempt is over, as the agents spell them
    (the specification writes precheck_failed for ["precheck-failed"]). *)
Definition terminal (status : string) : bool :=
  String.eqb status "denied" || String.eqb status "precheck-failed"
  || String.eqb status "success" || String.eqb status "failed".

(** A history in which [running] only comes after [precheck]. *)
Definition running_after_precheck (h : list string) : Prop :=
  forall before after : list string,
    h = (before ++ "running" :: after)%list -> "precheck" ∈ before.

(** The same, as a check: [seen] says whether [precheck] has occurred. *)
Fixpoint precheck_seen_before_running (seen : bool) (h : list string) : bool :=
  match h with
  | nil => true
  | s :: rest =>
      if String.eqb s "running" then seen && precheck_seen_before_running seen rest
      else precheck_seen_before_running (seen || String.eqb s "precheck") rest
  end.

(** A history with at most one terminal status. *)
Definition at_most_one_terminal (h : list string) : Prop :=
  (length (List.filter terminal h) <= 1)%nat.

(** A history that ends in a terminal status with [failed] on top of it,
    and has no terminal status before these two. *)
Definition failed_on_top (h : list string) : bool :=
  match rev h with
  | top :: s :: before =>
      String.eqb top "failed" && terminal s
      && forallb (fun x => negb (terminal x)) before
  | _ => false
  end.

(** How a record comes to hold two terminal statuses in a run that ends in
    the world [w']: the store applied the status update that wrote the
    first of them, the transport lost the reply to it, and the agent, seeing
    an exception, wrote [failed] with its next and last request.  The lost
    reply is that to the last request but one of the run. *)
Definition lost_final_update {G : Type} (env : Env G) (w' : world)
    (h : list string) : Prop :=
  network env (clock w' - 2) = ReplyLost /\ failed_on_top h = true.

(** What the amended invariant asks of a history of a run that ends in
    [w']: [running] only after [precheck], and a single terminal status
    unless the reply to the final status update was lost. *)
Definition sound_history {G : Type} (env : Env G) (w' : world)
    (h : list string) : Prop :=
  running_after_precheck h
  /\ (at_most_one_terminal h \/ lost_final_update env w' h).

(** The same for the agent without a precheck stage: [precheck] is never
    recorded. *)
Definition direct_history {G : Type} (env : Env G) (w' : world)
    (h : list string) : Prop :=
  ("precheck" ∉ h)
  /\ (at_most_one_terminal h \/ lost_final_update env w' h).

(** Between [w0] and [w] no row of [upgrades] was removed or changed, and
    every row added has a history that satisfies [P]. *)
Definition rows_since (w0 w : world) (P : list string -> Prop) : Prop :=
  (forall id row,
     Db.upgrades (db w0) !! id = Some row -> Db.upgrades (db w) !! id = Some row)
  /\ (forall id row,
        Db.upgrades (db w) !! id = Some row ->
        Db.upgrades (db w0) !! id = Some row
        \/ (Db.upgrades (db w0) !! id = None /\ P (Db.u_history row))).

(** An attempt with a status that is not terminal is in flight. *)
Definition in_flight (row : Db.upgrade_row) : bool :=
  negb (terminal (Db.u_status row)).

(** At most one attempt of the device is in flight. *)
Definition one_in_flight (router_id : string) (w : world) : Prop :=
  forall id1 id2 row1 row2,
    Db.upgrades (db w) !! id1 = Some row1 ->
    Db.upgrades (db w) !! id2 = Some row2 ->
    Db.u_router_id row1 = router_id -> Db.u_router_id row2 = router_id ->
    in_flight row1 = true -> in_flight row2 = true ->
    id1 = id2.

(** The dry-run precheck call made as request number [n] does not succeed:
    the transport fails it, or the playbook cannot be run or exits with a
    status other than 0. *)
Definition precheck_fails {G : Type} (env : Env G) (n : nat)
    (router_id : string) (target_ver : jval) : Prop :=
  network env n <> Delivered
  \/ match ansible_playbook env n router_id target_ver true with
     | Ok (returncode, _, _) => returncode <> 0%Z
     | Raise _ => True
     end.

(** The audit event a status update leaves. *)
Definition status_event (router_id status : string) (details : jval)
    : Db.audit_event :=
  {| Db.a_router_id := router_id;
     Db.a_event := "upgrade_status:" ++ status;
     Db.a_details := details |}.

(** The state of the world [n] requests after [w0], when nothing but the
    clock and the id sequence has moved. *)
Definition untouched (w0 : world) (n : nat) (w : world) : Prop :=
  Db.upgrades (db w) = Db.upgrades (db w0)
  /\ Db.audit_events (db w) = Db.audit_events (db w0)
  /\ playbook_runs w = playbook_runs w0
  /\ clock w = (clock w0 + n)%nat.

(** The state of the world [n] requests after [w0], when one attempt, [id]
    for router [router_id], has been recorded since and has gone through the
    statuses [h], leaving the audit events [evs], and the playbook has been
    run as [runs] says; every other row is as it was. *)
Definition attempt (w0 : world) (id : Z) (router_id : string)
    (h : list string) (evs : list Db.audit_event)
    (runs : list (string * jval * bool)) (n : nat) (w : world) : Prop :=
  Db.upgrades (db w0) !! id = None
  /\ (exists row,
        Db.upgrades (db w) !! id = Some row
        /\ Db.u_router_id row = router_id
        /\ Db.u_history row = h
        /\ Db.u_status row = default Db.default_status (last h))
  /\ (forall id', id' <> id ->
        Db.upgrades (db w) !! id' = Db.upgrades (db w0) !! id')
  /\ Db.audit_events (db w) = (Db.audit_events (db w0) ++ evs)%list
  /\ playbook_runs w = (playbook_runs w0 ++ runs)%list
  /\ clock w = (clock w0 + n)%nat.

(** Section 5 of the specification, in its own words: two simultaneous
    upgrade requests for the same device id result in exactly one proceeding;
    at most one attempt per device is in flight.  Here for the HTTP agent:
    however two requests are interleaved, a world without an attempt in
    flight for the device never comes to hold two. *)
Definition exclusive_per_device `{Format} (POLICY : Legacy.PolicyFile) : Prop :=
  forall (env : LegacyWorld.Env) (w : world) (router_id : string)
         (sched : list bool),
    (forall id row, Db.upgrades (db w) !! id = Some row -> in_flight row = false) ->
    one_in_flight router_id
      (snd (interleave (LegacyWorld.handle env) sched
              (Legacy.decide_and_act POLICY router_id false)
              (Legacy.decide_and_act POLICY router_id false) w)).

End Attempt.

(** ** The engine's other methods: [src/src/agent/decision_engine.py] *)

Module Engine.

(** The string operations that depend on how Python reads the text as
    Unicode: [s.lower()], and the characters of [s] when it is iterated
    over.  What they yield is left to the instance (for ASCII text: A-Z
    become a-z, and every byte is a character); what is proved below holds
    for every instance. *)
Class Unicode := {
  str_lower : string -> string;
  str_chars : string -> list string
}.

(** [v.lower()] on a value: only a string has the method. *)
Definition py_lower `{Unicode} (v : jval) : res string :=
  match v with
  | JStr s => Ok (str_lower s)
  | _ => Raise (AttributeError "object has no attribute 'lower'")
  end.

(** [sub in s] on strings. *)
Fixpoint contains (sub s : string) : bool :=
  String.prefix sub s
  || match s with
     | EmptyString => false
     | String _ rest => contains sub rest
     end.

(** A value of the policy file: a scalar or mapping, or a sequence. *)
Inductive yval : Type :=
| YScalar (v : jval)
| YSeq (l : list jval).

(** The sections of [policy.yaml] that the methods below read; the file is
    not part of the sources and its entries are parameters.  A mapping whose
    order of entries matters is a list of pairs, in the order of the
    file. *)
Record Constraints : Type := {
  upgrade_window : option (gmap string yval);
  pre_checks : option (list string)
}.

Record PolicyFile : Type := {
  constraints : option Constraints;
  vendor_policies : option (gmap string (list (string * jval)))
}.

(** [datetime.now()], as far as it is read: [.hour] and
    [.strftime('%A')]. *)
Record datetime : Type := { hour : Z; weekday : string }.

(** [DecisionEngine.calculate_risk_score]; the method does not read
    [router_info]. *)
Definition calculate_risk_score (router_info health_summary : jval) : res Z :=
  metrics <- py_get health_summary "metrics" (JObj ∅) ;;
  let risk_score := 0%Z in
  cpu <- py_get metrics "cpu_avg" (JNum 0) ;;
  mem <- py_get metrics "mem_free_min" (JNum 100) ;;
  errors <- py_get metrics "critical_errors" (JNum 0) ;;
  (* CPU risk *)
  risk_score <-
    (c <- py_gt cpu (JNum 85) ;;
     if c then Ok (risk_score + 40)%Z else
     c <- py_gt cpu (JNum 75) ;;
     if c then Ok (risk_score + 25)%Z else
     c <- py_gt cpu (JNum 60) ;;
     if c then Ok (risk_score + 10)%Z else Ok risk_score) ;;
  (* Memory risk *)
  risk_score <-
    (c <- py_lt mem (JNum 20) ;;
     if c then Ok (risk_score + 35)%Z else
     c <- py_lt mem (JNum 30) ;;
     if c then Ok (risk_score + 20)%Z else
     c <- py_lt mem (JNum 40) ;;
     if c then Ok (risk_score + 10)%Z else Ok risk_score) ;;
  (* Error risk *)
  risk_score <-
    (c <- py_gt errors (JNum 5) ;;
     if c then Ok (risk_score + 25)%Z else
     c <- py_gt errors (JNum 2) ;;
     if c then Ok (risk_score + 15)%Z else
     c <- py_gt errors (JNum 0) ;;
     if c then Ok (risk_score + 10)%Z else Ok risk_score) ;;
  Ok (Z.min risk_score 100).

Section Engine.
Context `{Unicode} (POLICY : PolicyFile).

(** [self.policy.get('constraints', {})] and the two entries read from
    it. *)
Definition policy_upgrade_window : gmap string yval :=
  match constraints POLICY with
  | Some c => default ∅ (upgrade_window c)
  | None => ∅
  end.

Definition policy_pre_checks : list string :=
  match constraints POLICY with
  | Some c => default [] (pre_checks c)
  | None => []
  end.

(** [DecisionEngine.get_vendor_requirements] *)
Definition get_vendor_requirements (router_info : jval) : res jval :=
  v <- py_get router_info "vendor" (JStr "") ;;
  vendor <- py_lower v ;;
  m <- py_get router_info "model" (JStr "") ;;
  model <- py_lower m ;;
  let vendor_policies := default ∅ (vendor_policies POLICY) in
  match vendor_policies !! vendor with
  | Some vendor_config =>
      (* Find matching model configuration *)
      match List.find (fun '(model_key, _) =>
                         contains (str_lower model_key) (str_lower model)
                         || contains (str_lower model) (str_lower model_key))
                      vendor_config with
      | Some (_, model_config) => Ok model_config
      | None => Ok (JObj ∅)
      end
  | None => Ok (JObj ∅)
  end.

(** What a [for] loop or a comprehension iterates over: the items of a
    sequence, the characters of a string, the keys of a mapping. *)
Definition py_iter (y : yval) : res (list jval) :=
  match y with
  | YSeq l => Ok l
  | YScalar (JStr s) => Ok (List.map JStr (str_chars s))
  | YScalar (JObj d) => Ok (List.map (fun kv => JStr (fst kv)) (map_to_list d))
  | YScalar _ => Raise (TypeError "object is not iterable")
  end.

(** [[day.lower() for day in days]] *)
Fixpoint lower_all (days : list jval) : res (list string) :=
  match days with
  | nil => Ok nil
  | day :: rest =>
      d <- py_lower day ;;
      ds <- lower_all rest ;;
      Ok (d :: ds)
  end.

(** A scalar entry of the window, in a comparison. *)
Definition scalar (y : yval) : res jval :=
  match y with
  | YScalar v => Ok v
  | YSeq _ => Raise (TypeError "'<=' not supported between these instances")
  end.

(** [DecisionEngine.check_maintenance_window] at the time [now]; the
    method does not read [router_info]. *)
Definition check_maintenance_window (now : datetime) (router_info : jval)
    : res bool :=
  let upgrade_window := policy_upgrade_window in
  if bool_decide (upgrade_window = ∅) then Ok true
  else
    let current_hour := JNum (inject_Z (hour now)) in
    let current_day := str_lower (weekday now) in
    let start_hour := default (YScalar (JNum 0)) (upgrade_window !! "start_hour") in
    let end_hour := default (YScalar (JNum 24)) (upgrade_window !! "end_hour") in
    days <- py_iter (default (YSeq []) (upgrade_window !! "allowed_days")) ;;
    allowed_days <- lower_all days ;;
    hour_ok <- (s <- scalar start_hour ;;
                a <- py_le s current_hour ;;
                if negb a then Ok false
                else e <- scalar end_hour ;; py_le current_hour e) ;;
    let day_ok :=
      match allowed_days with
      | nil => true
      | _ => bool_decide (current_day ∈ allowed_days)
      end in
    Ok (hour_ok && day_ok).

(** [DecisionEngine.generate_pre_checks].  The method returns
    [list(set(checks))], whose order Python does not fix: the result here
    is the set. *)
Definition generate_pre_checks (router_info : jval) : res (gset string) :=
  let base_checks := policy_pre_checks in
  vendor_requirements <- get_vendor_requirements router_info ;;
  let checks := base_checks in
  (* Add vendor-specific checks *)
  c <- py_get vendor_requirements "compatibility_check" JNull ;;
  let checks :=
    if truthy c then (checks ++ ["firmware_compatibility_check"])%list
    else checks in
  c <- py_get vendor_requirements "minimum_memory_mb" JNull ;;
  let checks :=
    if truthy c then (checks ++ ["memory_requirements_check"])%list
    else checks in
  c <- py_get vendor_requirements "bootflash_requirement_mb" JNull ;;
  let checks :=
    if truthy c then (checks ++ ["bootflash_space_check"])%list
    else checks in
  Ok (list_to_set checks).

End Engine.

End Engine.

(** The risk score of a snapshot of three numbers, part by part: the
    points each metric contributes. *)

Module RiskPoints.

Definition cpu_points (cpu : Q) : Z :=
  if Qle_bool cpu 60 then 0
  else if Qle_bool cpu 75 then 10
  else if Qle_bool cpu 85 then 25
  else 40.

Definition mem_points (mem : Q) : Z :=
  if Qle_bool 40 mem then 0
  else if Qle_bool 30 mem then 10
  else if Qle_bool 20 mem then 20
  else 35.

Definition error_points (errors : Q) : Z :=
  if Qle_bool errors 0 then 0
  else if Qle_bool errors 2 then 10
  else if Qle_bool errors 5 then 15
  else 25.

End RiskPoints.

(** An instance of [Engine.Unicode] for ASCII text, used in examples. *)

Module AsciiText.

Definition lower_char (c : Ascii.ascii) : Ascii.ascii :=
  let n := Ascii.nat_of_ascii c in
  if (65 <=? n)%nat && (n <=? 90)%nat then Ascii.ascii_of_nat (n + 32) else c.

Fixpoint lower (s : string) : string :=
  match s with
  | EmptyString => EmptyString
  | String c rest => String (lower_char c) (lower rest)
  end.

Definition chars (s : string) : list string :=
  List.map (fun c => String c "") (list_ascii_of_string s).

Definition text : Engine.Unicode :=
  {| Engine.str_lower := lower; Engine.str_chars := chars |}.

End AsciiText.

(** A policy file used in examples: a night window from 22 to 6, one base
    check, and one vendor with one model. *)

Module EngineSamples.
Import Engine.

Definition night_policy : PolicyFile :=
  {| constraints :=
       Some {| upgrade_window :=
                 Some {[ "start_hour" := YScalar (JNum 22);
                         "end_hour" := YScalar (JNum 6) ]};
               pre_checks := Some ["backup_config"] |};
     vendor_policies :=
       Some {[ "cisco" :=
                 [ ("isr4331", JObj {[ "compatibility_check" := JBool true ]});
                   ("asr1001", JObj {[ "minimum_memory_mb" := JNum 4096 ]}) ] ]} |}.

Definition monday_23h : datetime := {| hour := 23; weekday := "Monday" |}.

End EngineSamples.

(** ** Further predicates on programs and on the database *)

Module ProgProps.

Section Prog.
Context {call : Type} {reply : call -> Type}.

(** A program that raises nothing, whatever the collaborators answer. *)
Fixpoint never_raises {A : Type} (p : Eff.prog call reply A) : Prop :=
  match p with
  | Ret _ => True
  | Throw _ => False
  | Do c k => forall o, never_raises (k o)
  end.

(** A program that issues at most [n] calls that satisfy [P], whatever the
    collaborators answer. *)
Fixpoint at_most {A : Type} (P : call -> bool) (n : nat)
    (p : Eff.prog call reply A) : Prop :=
  match p with
  | Ret _ | Throw _ => True
  | Do c k =>
      if P c then
        match n with
        | O => False
        | S m => forall o, at_most P m (k o)
        end
      else forall o, at_most P n (k o)
  end.

End Prog.

End ProgProps.

Module Store.
Import World.

(** Every id in use is below the sequence: the next id is fresh. *)
Definition ids_below_seq (t : Db.tables) : Prop :=
  forall id row,
    Db.upgrades t !! id = Some row -> (id < Db.upgrades_id_seq t)%Z.

(** A row after some status updates: the columns the INSERT set are the
    same, and the statuses it has been given continue those of before. *)
Definition updated (row row' : Db.upgrade_row) : Prop :=
  Db.u_router_id row' = Db.u_router_id row
  /\ Db.u_requested_by row' = Db.u_requested_by row
  /\ Db.u_decision row' = Db.u_decision row
  /\ Db.u_reason row' = Db.u_reason row
  /\ Db.u_target_ver row' = Db.u_target_ver row
  /\ Db.u_history row `prefix_of` Db.u_history row'.

(** The database [t'] continues [t]: the inventory and the policies are
    the same, every upgrade record is still there, and the audit trail has
    only grown at its end. *)
Definition continues (t t' : Db.tables) : Prop :=
  Db.routers t' = Db.routers t
  /\ Db.upgrade_policies t' = Db.upgrade_policies t
  /\ (forall id row,
        Db.upgrades t !! id = Some row ->
        exists row', Db.upgrades t' !! id = Some row' /\ updated row row')
  /\ Db.audit_events t `prefix_of` Db.audit_events t'
  /\ (Db.upgrades_id_seq t <= Db.upgrades_id_seq t')%Z.

(** Between the worlds [w] and [x] no router, upgrade record, audit event
    or playbook run has been added or changed. *)
Definition same_records (w x : world) : Prop :=
  Db.routers (db x) = Db.routers (db w)
  /\ Db.upgrades (db x) = Db.upgrades (db w)
  /\ Db.audit_events (db x) = Db.audit_events (db w)
  /\ playbook_runs x = playbook_runs w.

(** The policy row is one for the router's vendor and model. *)
Definition policy_for (r p : gmap string jval) : Prop :=
  Db.sql_eq (r !! "vendor") (p !! "vendor") = true
  /\ Db.sql_eq (r !! "model") (p !! "model") = true.

End Store.

(** ** The chat commands: [src/interfaces/telegram_bot.py] *)

Module Telegram.
Import Legacy.

Section Bot.
Context `{Format} (POLICY : PolicyFile).

Definition newline : string := String (Ascii.ascii_of_nat 10) "".

(** The dict [decide_and_act] returns, as [str] prints it. *)
Definition outcome_dict (out : outcome) : jval :=
  let d : gmap string jval :=
    {[ "upgrade_id" := o_upgrade_id out; "status" := JStr (o_status out) ]} in
  let d := match o_reason out with Some r => <[ "reason" := r ]> d | None => d end in
  let d := match o_error out with Some e => <[ "error" := JStr e ]> d | None => d end in
  JObj d.

(** [status_cmd], by the text it replies with; [args] is [ctx.args]. *)
Definition status_cmd (args : list string) : prog string :=
  match args with
  | nil => Ret "Usage: /status R1"
  | rid :: _ =>
      d <~ rule_decision POLICY rid ;;
      Ret (rid ++ ": "
           ++ (if approve d then "OK to upgrade" else "Do NOT upgrade")
           ++ newline ++ fmt (reason d))
  end.

(** [upgrade_cmd] *)
Definition upgrade_cmd (args : list string) : prog string :=
  match args with
  | nil => Ret "Usage: /upgrade R1"
  | rid :: _ =>
      res <~ decide_and_act POLICY rid false ;;
      Ret ("Upgrade result: " ++ fmt (outcome_dict res))
  end.

End Bot.

End Telegram.

(** ** Kinds of calls *)

Module Calls.

(** The playbook run for real by the HTTP agent, and its run in check
    mode. *)
Definition real_run (c : Legacy.call) : bool :=
  match c with
  | Legacy.requests_post (Legacy.upgrade _ _ false) => true
  | _ => false
  end.

Definition check_run (c : Legacy.call) : bool :=
  match c with
  | Legacy.requests_post (Legacy.upgrade _ _ true) => true
  | _ => false
  end.

(** A call of the MCP agent to the automation backend. *)
Definition ansible_call (c : Mcp.call) : bool :=
  match c with
  | Mcp.session_call_tool (Mcp.ansible_upgrade _ _ _) => true
  | _ => false
  end.

(** A call that is not a run of the playbook for real. *)
Definition legacy_dry (c : Legacy.call) : Prop :=
  match c with
  | Legacy.requests_post (Legacy.upgrade _ _ check) => check = true
  | _ => True
  end.

Definition mcp_dry (c : Mcp.call) : Prop :=
  match c with
  | Mcp.session_call_tool (Mcp.ansible_upgrade _ _ check) => check = true
  | _ => True
  end.

(** What the MCP agent may call for a router that is not in the inventory
    without a record or a playbook run coming of it: reads, the gate, a
    decision for that router, a status update without an id and the
    playbook without a target version. *)
Definition harmless_for (router_id : string) (c : Mcp.call) : Prop :=
  match c with
  | Mcp.session_call_tool (Mcp.pg_record_decision rid _ _ _) => rid = router_id
  | Mcp.session_call_tool (Mcp.pg_update_upgrade_status upgrade_id _ _) =>
      upgrade_id = JNull
  | Mcp.session_call_tool (Mcp.ansible_upgrade _ target_ver _) => target_ver = JNull
  | _ => True
  end.

End Calls.

(** ** Order of calls *)

Module Order.

Section Prog.
Context {call : Type} {reply : call -> Type}.

(** Every call that satisfies [Q] comes after a call and answer that
    satisfy [P], whatever the collaborators answer; [seen] says whether
    such a call has been made already. *)
Fixpoint only_after {A : Type} (P : forall c : call, res (reply c) -> bool)
    (Q : call -> bool) (seen : bool) (p : Eff.prog call reply A) : Prop :=
  match p with
  | Ret _ | Throw _ => True
  | Do c k =>
      (Q c = true -> seen = true)
      /\ forall o, only_after P Q (seen || P c o) (k o)
  end.

End Prog.

(** A request to record the decision that got an answer. *)
Definition legacy_recorded (c : Legacy.call) : res (Legacy.reply c) -> bool :=
  match c with
  | Legacy.requests_post (Legacy.record_decision _ _ _ _) =>
      fun o => match o with Ok _ => true | Raise _ => false end
  | _ => fun _ => false
  end.

Definition mcp_recorded (c : Mcp.call) : res (Mcp.reply c) -> bool :=
  match c with
  | Mcp.session_call_tool (Mcp.pg_record_decision _ _ _ _) =>
      fun o => match o with Ok _ => true | Raise _ => false end
  | _ => fun _ => false
  end.

(** A call of the HTTP agent to the automation backend. *)
Definition legacy_backend (c : Legacy.call) : bool :=
  match c with
  | Legacy.requests_post (Legacy.upgrade _ _ _) => true
  | _ => false
  end.

End Order.

(** ** The command line of the MCP agent: [handle_cli] in
    [src/src/agent/mcp_agent.py] *)

Module Cli.

(** What [handle_cli] prints. *)
Inductive printed : Type :=
| usage
| decision (d : Mcp.UpgradeDecision)
| result (out : Mcp.outcome).

(** Its collaborators: [self.initialize()], [self.cleanup()], [print], and
    those of the agent's methods. *)
Inductive call : Type :=
| initialize
| cleanup
| print (what : printed)
| agent (c : Mcp.call).

Definition reply (c : call) : Type :=
  match c with
  | agent c' => Mcp.reply c'
  | _ => unit
  end.

Abbreviation prog := (Eff.prog call reply).

(** A method of the agent, run from the command line. *)
Fixpoint embed {A : Type} (p : Mcp.prog A) : prog A :=
  match p with
  | Ret a => Ret a
  | Throw e => Throw e
  | Do c k => Do (agent c) (fun o => embed (k o))
  end.

(** [sys.exit(1)] raises [SystemExit], which is not an [Exception]. *)
Definition SystemExit : exn := Exception "SystemExit" "1".

Definition is_exception (e : exn) : bool :=
  match e with Exception cls _ => negb (String.eqb cls "SystemExit") end.

(** [try: p  except Exception as e: h e  finally: f] *)
Definition try_except_finally {A : Type} (p : prog A) (h : exn -> prog A)
    (f : prog unit) : prog A :=
  r <~ try_except
         (a <~ try_except p (fun e => if is_exception e then h e else Throw e) ;;
          Ret (Ok a))
         (fun e => Ret (Raise e)) ;;
  _ <~ f ;;
  lift r.

Section Cli.
Context `{Format} (POLICY : Mcp.PolicyFile).

(** [handle_cli], with [sys.argv] as [argv]. *)
Definition handle_cli (argv : list string) : prog unit :=
  let args := drop 2 argv in  (* Skip script name and module path *)
  if (length args <? 2)%nat then
    _ <~ perform (print usage) ;;
    Throw SystemExit
  else
    let command := default "" (args !! 0%nat) in
    let router_id := default "" (args !! 1%nat) in
    try_except_finally
      (_ <~ perform initialize ;;
       if String.eqb command "analyze" then
         d <~ embed (Mcp.analyze_upgrade_readiness POLICY router_id) ;;
         perform (print (decision d))
       else if String.eqb command "upgrade" then
         out <~ embed (Mcp.execute_upgrade POLICY router_id false) ;;
         perform (print (result out))
       else if String.eqb command "dry-run" then
         out <~ embed (Mcp.execute_upgrade POLICY router_id true) ;;
         perform (print (result out))
       else
         Throw SystemExit)
      (fun e => Throw SystemExit)
      (perform cleanup).

End Cli.

(** The agent is connected: [initialize] has been called and [cleanup]
    has not.  [closes connected p]: the program [p], started in that state,
    calls the agent's tools only while connected and ends disconnected. *)
Fixpoint closes {A : Type} (connected : bool) (p : prog A) : Prop :=
  match p with
  | Ret _ | Throw _ => connected = false
  | Do c k =>
      match c with
      | initialize => forall o, closes true (k o)
      | cleanup => forall o, closes false (k o)
      | print _ => forall o, closes connected (k o)
      | agent _ => connected = true /\ forall o, closes connected (k o)
      end
  end.

(** Collaborators for examples: a terminal that prints, an agent that
    connects and disconnects, and no tool server that answers. *)
Definition offline (c : call) (w : unit) : res (reply c) * unit :=
  (match c return res (reply c) with
   | agent _ => Raise (Exception "ConnectionError" "connection closed")
   | _ => Ok tt
   end, w).

(** A call that neither connects nor disconnects. *)
Definition keeps_connection (c : call) : Prop :=
  match c with
  | initialize | cleanup => False
  | _ => True
  end.

(** A call that is not one of the agent, or is one that satisfies [P]. *)
Definition agent_call (P : Mcp.call -> Prop) (c : call) : Prop :=
  match c with
  | agent c' => P c'
  | _ => True
  end.

End Cli.

(** * Properties *)

(** ** General facts about programs *)

Section ProgFacts.
Context {call : Type} {reply : call -> Type}.

Lemma every_call_bind {A B} (P : call -> Prop) (p : Eff.prog call reply A) (f : A -> Eff.prog call reply B) :
  every_call P p -> (forall a, every_call P (f a)) -> every_call P (bind p f).
Proof.
  induction p as [a | e | c k IH]; simpl; intros Hp Hf; auto.
  destruct Hp as [Hc Hk]. split; [exact Hc | intros o; apply IH; auto].
Qed.

Lemma every_call_try_except {A} (P : call -> Prop) (p : Eff.prog call reply A) (h : exn -> Eff.prog call reply A) :
  every_call P p -> (forall e, every_call P (h e)) -> every_call P (try_except p h).
Proof.
  induction p as [a | e | c k IH]; simpl; intros Hp Hh; auto.
  destruct Hp as [Hc Hk]. split; [exact Hc | intros o; apply IH; auto].
Qed.

Lemma every_call_lift {A} (P : call -> Prop) (r : res A) :
  every_call P (lift (call := call) (reply := reply) r).
Proof. destruct r; exact I. Qed.

Lemma every_call_calls {A W} (P : call -> Prop)
    (handle : forall c : call, W -> res (reply c) * W) (p : Eff.prog call reply A) (w : W) :
  every_call P p -> Forall P (calls handle p w).
Proof.
  revert w. induction p as [a | e | c k IH]; simpl; intros w Hp.
  - constructor.
  - constructor.
  - destruct Hp as [Hc Hk]. destruct (handle c w) as [o w'].
    constructor; [exact Hc | apply IH, Hk].
Qed.

Lemma every_return_bind {A B} (Q' : A -> Prop) (Q : B -> Prop)
    (p : Eff.prog call reply A) (f : A -> Eff.prog call reply B) :
  every_return Q' p -> (forall a, Q' a -> every_return Q (f a)) ->
  every_return Q (bind p f).
Proof.
  induction p as [a | e | c k IH]; simpl; intros Hp Hf; auto.
Qed.

Lemma every_return_try_except {A} (Q : A -> Prop)
    (p : Eff.prog call reply A) (h : exn -> Eff.prog call reply A) :
  every_return Q p -> (forall e, every_return Q (h e)) ->
  every_return Q (try_except p h).
Proof.
  induction p as [a | e | c k IH]; simpl; intros Hp Hh; auto.
Qed.

Lemma every_return_true {A} (p : Eff.prog call reply A) :
  every_return (fun _ => True) p.
Proof. induction p as [a | e | c k IH]; simpl; auto. Qed.

Lemma every_return_run {A W} (Q : A -> Prop)
    (handle : forall c : call, W -> res (reply c) * W)
    (p : Eff.prog call reply A) (w : W) (a : A) :
  every_return Q p -> fst (run handle p w) = Ok a -> Q a.
Proof.
  revert w. induction p as [a' | e | c k IH]; simpl; intros w Hp Hr.
  - congruence.
  - discriminate.
  - destruct (handle c w) as [o w']. eapply IH; [apply Hp | exact Hr].
Qed.
End ProgFacts.

Module LegacyFacts.
Import Legacy.

Section Facts.
Context `{Format} (POLICY : PolicyFile).

Lemma post_calls (P : call -> Prop) (r : request) :
  P (requests_post r) -> every_call P (post r).
Proof.
  intros Hr. unfold post. apply every_call_bind.
  - simpl. split; [exact Hr | intros [resp | e]; exact I].
  - intros resp. apply every_call_lift.
Qed.

Lemma act_denied_no_automation router_id dry_run d :
  approve d = false ->
  every_call (fun c => ~ is_automation c) (act router_id dry_run d).
Proof.
  intros Hd. unfold act. rewrite Hd. cbn [negb].
  apply every_call_bind; [apply post_calls; simpl; tauto |].
  intros rec. apply every_call_bind; [apply every_call_lift |].
  intros id. apply every_call_bind; [apply post_calls; simpl; tauto |].
  intros _. exact I.
Qed.
End Facts.
End LegacyFacts.

(** ** Comparisons *)

Lemma Qle_bool_false (x y : Q) : Qle_bool x y = false <-> (y < x)%Q.
Proof.
  split.
  - intros Hf. apply Qnot_le_lt. intros Hle.
    apply Qle_bool_iff in Hle. congruence.
  - intros Hlt. destruct (Qle_bool x y) eqn:E; [| reflexivity].
    apply Qle_bool_iff in E. exfalso. exact (Qlt_not_le _ _ Hlt E).
Qed.

Lemma spec_gt_correct (x y : Q) : Spec.gt x y = negb (Qle_bool x y).
Proof.
  unfold Spec.gt. destruct (Qlt_le_dec y x) as [Hlt | Hle].
  - apply Qle_bool_false in Hlt. now rewrite Hlt.
  - apply Qle_bool_iff in Hle. now rewrite Hle.
Qed.

Lemma spec_lt_correct (x y : Q) : Spec.lt x y = negb (Qle_bool y x).
Proof.
  unfold Spec.lt. destruct (Qlt_le_dec x y) as [Hlt | Hle].
  - apply Qle_bool_false in Hlt. now rewrite Hlt.
  - apply Qle_bool_iff in Hle. now rewrite Hle.
Qed.

(** ** HealthAggregator *)

(** C8.  For every cpu_avg, mem_free_min and critical_errors, the status
    [calculate_health_status] derives is the one the specification words:
    [critical] if critical_errors > 0; else [warning] if cpu_avg > 80 or
    mem_free_min < 20; else [caution] if cpu_avg > 70 or mem_free_min < 30;
    else [healthy]; and [unknown] when cpu_avg or mem_free_min is absent. *)
Theorem calculate_health_status_spec
    (cpu_avg mem_free_min : option Q) (critical_errors : Q) :
  Influx.calculate_health_status
    (Spec.metric cpu_avg) (Spec.metric mem_free_min) (JNum critical_errors)
  = Ok (Spec.health_status cpu_avg mem_free_min critical_errors).
Proof.
  destruct cpu_avg as [c |], mem_free_min as [m |];
    unfold Influx.calculate_health_status, Spec.health_status; simpl;
    try reflexivity.
  rewrite !spec_gt_correct, !spec_lt_correct.
  unfold py_gt, py_lt, py_gt; simpl.
  destruct (Qle_bool critical_errors 0); simpl; [| reflexivity].
  destruct (Qle_bool c 80); simpl.
  - destruct (Qle_bool 20 m); simpl; [| reflexivity].
    destruct (Qle_bool c 70); simpl; [| reflexivity].
    destruct (Qle_bool 30 m); reflexivity.
  - reflexivity.
Qed.

(** ** PolicyEvaluator *)

Module RuleFacts.

Import Samples.

Lemma metrics_of_cpu c m e : metrics_of c m e !! "cpu_avg" = Some c.
Proof. reflexivity. Qed.

Lemma metrics_of_mem c m e : metrics_of c m e !! "mem_free_min" = Some m.
Proof. unfold metrics_of. now rewrite lookup_insert_ne, lookup_insert_eq. Qed.

Lemma metrics_of_errors c m e : metrics_of c m e !! "critical_errors" = Some e.
Proof.
  unfold metrics_of.
  rewrite lookup_insert_ne by done. rewrite lookup_insert_ne by done.
  apply lookup_singleton_eq.
Qed.

Lemma summary_metrics ms : py_get (summary_with ms) "metrics" (JObj ∅) = Ok (JObj ms).
Proof. reflexivity. Qed.

Section Engine.
Context `{Format} (POLICY : Mcp.PolicyFile).

(** The engine approves a snapshot of three numbers exactly when the three
    threshold conditions hold (its window condition is constantly true). *)
Lemma engine_approves_iff (router_info policy : gmap string jval)
    (cpu_avg mem_free_min critical_errors max_cpu min_mem : Q) :
  default (JNum (Mcp.defaults_max_cpu_percent POLICY))
          (policy !! "max_cpu_percent") = JNum max_cpu ->
  default (JNum (Mcp.defaults_min_free_mem_percent POLICY))
          (policy !! "min_free_mem_percent") = JNum min_mem ->
  exists d,
    Mcp.evaluate_upgrade_rules POLICY (JObj router_info) (JObj policy)
      (summary_with (metrics_of (JNum cpu_avg) (JNum mem_free_min)
                                (JNum critical_errors))) = Ok d
    /\ (Mcp.approve d = JBool true <->
        (cpu_avg <= max_cpu /\ min_mem <= mem_free_min
         /\ critical_errors <= Mcp.defaults_max_critical_errors POLICY)%Q).
Proof.
  intros Hcpu Hmem. unfold Mcp.evaluate_upgrade_rules.
  rewrite summary_metrics. simpl res_bind. rewrite Hcpu, Hmem.
  rewrite metrics_of_cpu, metrics_of_mem, metrics_of_errors. simpl.
  destruct (truthy (default JNull (router_info !! "target_ver"))); simpl;
    (eexists; split; [reflexivity |]); simpl;
    rewrite <- !Qle_bool_iff;
    destruct (Qle_bool cpu_avg max_cpu), (Qle_bool min_mem mem_free_min),
      (Qle_bool critical_errors _); simpl; intuition congruence.
Qed.
End Engine.

End RuleFacts.

Module RuleClaims.
Import Samples RuleFacts.

Section Claims.
Context `{Format}.

(** The rule decision of the HTTP agent approves a snapshot of three
    numbers exactly when the three threshold conditions hold for the
    values it evaluates, which are the measured ones after the [or]
    substitutions of lines 35-36. *)
Lemma rule_verdict_approves_iff (POLICY : Legacy.PolicyFile)
    (r pol : gmap string jval) (avg_cpu min_free_mem errs max_cpu min_mem : Q) :
  default (JNum (Legacy.defaults_max_cpu_percent POLICY))
          (pol !! "max_cpu_percent") = JNum max_cpu ->
  default (JNum (Legacy.defaults_min_free_mem_percent POLICY))
          (pol !! "min_free_mem_percent") = JNum min_mem ->
  exists d,
    Legacy.rule_verdict POLICY (JObj r) (JObj pol)
      (JNum avg_cpu) (JNum min_free_mem) (JNum errs) = Ok d
    /\ (Legacy.approve d = true <->
        ((if Qeq_bool avg_cpu 0 then 100 else avg_cpu) <= max_cpu
         /\ min_mem <= (if Qeq_bool min_free_mem 0 then 0 else min_free_mem)
         /\ errs <= Legacy.defaults_max_critical_errors POLICY)%Q).
Proof.
  intros Hcpu Hmem. unfold Legacy.rule_verdict. simpl res_bind.
  rewrite Hcpu, Hmem. unfold py_or. simpl truthy.
  destruct (Qeq_bool avg_cpu 0), (Qeq_bool min_free_mem 0); simpl;
    repeat match goal with
           | |- context [Qle_bool ?a ?b] =>
               let E := fresh "E" in destruct (Qle_bool a b) eqn:E; simpl
           end;
    destruct (truthy (default JNull (r !! "target_ver"))); simpl;
    (eexists; split; [reflexivity |]); simpl;
    rewrite <- !Qle_bool_iff;
    destruct (truthy (default JNull (r !! "maintenance_window"))),
      (Legacy.defaults_require_maintenance_window POLICY); simpl;
    intuition congruence.
Qed.

(** C10.  In [rule_decision] a reading of avg_cpu equal to 0 is replaced
    by 100 before evaluation: for every policy whose CPU limit is below 100
    the device is denied, and the reason shows the CPU value 100. *)
Theorem rule_decision_zero_cpu_denied (POLICY : Legacy.PolicyFile)
    (r pol : gmap string jval) (avg_cpu max_cpu : Q) (min_free_mem errs : jval) :
  (avg_cpu == 0)%Q ->
  default (JNum (Legacy.defaults_max_cpu_percent POLICY))
          (pol !! "max_cpu_percent") = JNum max_cpu ->
  (max_cpu < 100)%Q ->
  py_or (JNum avg_cpu) (JNum 100) = JNum 100
  /\ exists d,
       Legacy.rule_verdict POLICY (JObj r) (JObj pol)
         (JNum avg_cpu) min_free_mem errs = Ok d
       /\ Legacy.approve d = false
       /\ exists rest,
            Legacy.reason d = JStr ("Denied: cpu_avg=" ++ fmt (JNum 100) ++ rest).
Proof.
  intros Hz Hmax Hlt.
  assert (Hor : py_or (JNum avg_cpu) (JNum 100) = JNum 100).
  { unfold py_or. simpl. apply Qeq_bool_iff in Hz. now rewrite Hz. }
  split; [exact Hor |].
  unfold Legacy.rule_verdict. rewrite Hor. simpl res_bind. rewrite Hmax.
  assert (Hle : py_le (JNum 100) (JNum max_cpu) = Ok false).
  { unfold py_le. simpl. f_equal. now apply Qle_bool_false. }
  rewrite Hle. simpl.
  destruct (truthy (default JNull (r !! "target_ver")));
    simpl; eexists; (split; [reflexivity |]); (split; [reflexivity |]);
    simpl; eexists; reflexivity.
Qed.

End Claims.

(** C2.  The idle device: with the policy of the scenarios (CPU at most
    75, free memory at least 25, no critical error) and a snapshot
    cpu_avg = 0, mem_free_min = 60, critical_errors = 0, all four
    conditions of the claim hold, yet [rule_decision] denies; the engine's
    [evaluate_upgrade_rules] approves the same snapshot. *)
Theorem rule_decision_denies_idle_device :
  (0 <= 75 /\ 25 <= 60 /\ 0 <= 0)%Q
  /\ (d <- Legacy.rule_verdict (H := plain) (legacy_policy false) (JObj R1) (JObj ∅)
             (JNum 0) (JNum 60) (JNum 0) ;;
      Ok (Legacy.approve d)) = Ok false
  /\ (d <- Mcp.evaluate_upgrade_rules (H := plain) (engine_policy 75 25 false) (JObj R1) (JObj ∅)
             (summary_with (metrics_of (JNum 0) (JNum 60) (JNum 0))) ;;
      Ok (Mcp.approve d)) = Ok (JBool true).
Proof.
  split; [repeat split; discriminate |].
  split; reflexivity.
Qed.

Lemma rule_decision_zero_cpu_denied_witness :
  exists d,
    Legacy.rule_verdict (H := plain) (legacy_policy false) (JObj R1) (JObj ∅)
      (JNum 0) (JNum 60) (JNum 0) = Ok d
    /\ Legacy.approve d = false.
Proof.
  destruct (rule_decision_zero_cpu_denied (H := plain) (legacy_policy false) R1 ∅ 0 75
              (JNum 60) (JNum 0)) as [_ (d & Hd & Ha & _)].
  - reflexivity.
  - reflexivity.
  - reflexivity.
  - exists d. split; [exact Hd | exact Ha].
Defined.

End RuleClaims.

Module AbsentClaims.
Import Samples RuleFacts.

(** C6, as stated, fails on the engine: with a CPU limit of 100, a
    snapshot whose cpu_avg is [None] is denied although the same snapshot
    with cpu_avg = 100 is approved; and with a memory floor of 0, a
    snapshot whose mem_free_min is [None] is denied although the same
    snapshot with mem_free_min = 0 is approved. *)
Lemma engine_none_is_not_least_favourable_value :
  ((d <- Mcp.evaluate_upgrade_rules (H := plain) (engine_policy 100 25 false) (JObj R1) (JObj ∅)
            (summary_with (metrics_of JNull (JNum 60) (JNum 0))) ;;
    Ok (Mcp.approve d)) = Ok (JBool false)
   /\ (d <- Mcp.evaluate_upgrade_rules (H := plain) (engine_policy 100 25 false) (JObj R1) (JObj ∅)
            (summary_with (metrics_of (JNum 100) (JNum 60) (JNum 0))) ;;
       Ok (Mcp.approve d)) = Ok (JBool true))
  /\ ((d <- Mcp.evaluate_upgrade_rules (H := plain) (engine_policy 75 0 false) (JObj R1) (JObj ∅)
            (summary_with (metrics_of (JNum 45) JNull (JNum 0))) ;;
       Ok (Mcp.approve d)) = Ok (JBool false)
      /\ (d <- Mcp.evaluate_upgrade_rules (H := plain) (engine_policy 75 0 false) (JObj R1) (JObj ∅)
            (summary_with (metrics_of (JNum 45) (JNum 0) (JNum 0))) ;;
          Ok (Mcp.approve d)) = Ok (JBool true)).
Proof. repeat split; reflexivity. Qed.

Section Claims.
Context `{Format}.

Lemma engine_none_cpu_denied (POLICY : Mcp.PolicyFile)
    (router_info policy : jval) (ms : gmap string jval) :
  match Mcp.evaluate_upgrade_rules POLICY router_info policy
          (summary_with (<[ "cpu_avg" := JNull ]> ms)) with
  | Ok d => Mcp.approve d = JBool false
  | Raise _ => True
  end.
Proof.
  unfold Mcp.evaluate_upgrade_rules. rewrite summary_metrics. simpl res_bind.
  destruct (py_get policy "max_cpu_percent" _) as [max_cpu |]; simpl; [| exact I].
  destruct (py_get policy "min_free_mem_percent" _) as [min_mem |]; simpl; [| exact I].
  rewrite lookup_insert_eq. simpl.
  destruct (Mcp.mem_condition _ _) as [mem_ok |]; simpl; [| exact I].
  destruct (py_le _ _) as [errors_ok |]; simpl; [| exact I].
  destruct (py_get router_info "target_ver" JNull) as [tv |]; simpl; [| exact I].
  destruct (truthy tv); simpl; [reflexivity |].
  destruct (py_get router_info "current_ver" JNull); simpl; [reflexivity | exact I].
Qed.

Lemma engine_none_mem_denied (POLICY : Mcp.PolicyFile)
    (router_info policy : jval) (ms : gmap string jval) :
  match Mcp.evaluate_upgrade_rules POLICY router_info policy
          (summary_with (<[ "mem_free_min" := JNull ]> ms)) with
  | Ok d => Mcp.approve d = JBool false
  | Raise _ => True
  end.
Proof.
  unfold Mcp.evaluate_upgrade_rules. rewrite summary_metrics. simpl res_bind.
  destruct (py_get policy "max_cpu_percent" _) as [max_cpu |]; simpl; [| exact I].
  destruct (py_get policy "min_free_mem_percent" _) as [min_mem |]; simpl; [| exact I].
  rewrite lookup_insert_eq. simpl.
  destruct (Mcp.cpu_condition _ _) as [cpu_ok |]; simpl; [| exact I].
  destruct (py_le _ _) as [errors_ok |]; simpl; [| exact I].
  destruct (py_get router_info "target_ver" JNull) as [tv |]; simpl; [| exact I].
  rewrite andb_false_r.
  destruct (truthy tv); simpl; [reflexivity |].
  destruct (py_get router_info "current_ver" JNull); simpl; [reflexivity | exact I].
Qed.

(** C6, amended.  An absent cpu_avg is evaluated as 100 and an absent
    mem_free_min as 0 by [rule_decision], and by [evaluate_upgrade_rules]
    when the key is missing from the metrics.  When the key is present
    with the value [None], [evaluate_upgrade_rules] fails the condition
    outright, for every limit, and the verdict is a denial; for a CPU limit
    below 100 and a memory floor above 0 that is what 100 and 0 give. *)
Theorem absent_metric_is_never_unconstrained
    (LP : Legacy.PolicyFile) (EP : Mcp.PolicyFile)
    (r pol cpu mem errs limit : jval) (ms : gmap string jval) (q : Q) :
  (Legacy.rule_verdict LP r pol JNull mem errs
     = Legacy.rule_verdict LP r pol (JNum 100) mem errs
   /\ Legacy.rule_verdict LP r pol cpu JNull errs
     = Legacy.rule_verdict LP r pol cpu (JNum 0) errs)
  /\ (Mcp.evaluate_upgrade_rules EP r pol (summary_with (delete "cpu_avg" ms))
        = Mcp.evaluate_upgrade_rules EP r pol
            (summary_with (<[ "cpu_avg" := JNum 100 ]> ms))
      /\ Mcp.evaluate_upgrade_rules EP r pol (summary_with (delete "mem_free_min" ms))
        = Mcp.evaluate_upgrade_rules EP r pol
            (summary_with (<[ "mem_free_min" := JNum 0 ]> ms)))
  /\ (Mcp.cpu_condition JNull limit = Ok false
      /\ Mcp.cpu_condition (JNum 100) (JNum q) = Ok (Qle_bool 100 q)
      /\ Mcp.mem_condition JNull limit = Ok false
      /\ Mcp.mem_condition (JNum 0) (JNum q) = Ok (Qle_bool q 0))
  /\ (match Mcp.evaluate_upgrade_rules EP r pol
              (summary_with (<[ "cpu_avg" := JNull ]> ms)) with
      | Ok d => Mcp.approve d = JBool false
      | Raise _ => True
      end
      /\ match Mcp.evaluate_upgrade_rules EP r pol
                 (summary_with (<[ "mem_free_min" := JNull ]> ms)) with
         | Ok d => Mcp.approve d = JBool false
         | Raise _ => True
         end).
Proof.
  split; [split; reflexivity |].
  split.
  { unfold Mcp.evaluate_upgrade_rules. rewrite !summary_metrics. simpl res_bind.
    split.
    - rewrite lookup_delete_eq, lookup_insert_eq.
      rewrite !lookup_delete_ne, !lookup_insert_ne by done. reflexivity.
    - rewrite lookup_delete_eq, lookup_insert_eq.
      rewrite !lookup_delete_ne, !lookup_insert_ne by done. reflexivity. }
  split; [repeat split; reflexivity |].
  split; [apply engine_none_cpu_denied | apply engine_none_mem_denied].
Qed.

End Claims.
End AbsentClaims.

(** ** SafetyGate *)

Module GateFacts.
Import Samples GateFailure.

Section Facts.
Context `{Format} {W : Type}.

Lemma legacy_error_denies
    (handle : forall c : Legacy.call, W -> res (Legacy.reply c) * W)
    (POLICY : Legacy.PolicyFile) (d : Legacy.Decision) (router : jval)
    (w : W) (e : exn) :
  Legacy.llm_gate_enabled POLICY = true ->
  legacy_error handle POLICY d router w e ->
  fst (run handle (Legacy.llm_gate POLICY d router) w)
  = Ok {| Legacy.approve := false;
          Legacy.reason := JStr ("LLM gate error: " ++ exn_str e);
          Legacy.target_ver := Legacy.target_ver d |}.
Proof.
  intros Hen Herr. unfold Legacy.llm_gate. rewrite Hen. simpl.
  unfold legacy_error in Herr.
  destruct (handle _ w) as [[content | e'] w']; simpl in *.
  - rewrite Herr. reflexivity.
  - subst e'. reflexivity.
Qed.

Lemma mcp_error_denies
    (handle : forall c : Mcp.call, W -> res (Mcp.reply c) * W)
    (POLICY : Mcp.PolicyFile) (router_info policy health_summary : jval)
    (rule : Mcp.UpgradeDecision) (w : W) (e : exn) :
  Mcp.gate_enabled POLICY = true ->
  mcp_error handle POLICY router_info policy health_summary rule w e ->
  fst (run handle
         (Mcp.llm_gate_decision POLICY router_info policy health_summary rule) w)
  = Ok {| Mcp.approve := JBool false;
          Mcp.reason := JStr ("LLM gate failed: " ++ exn_str e);
          Mcp.target_ver := Mcp.target_ver rule;
          Mcp.confidence := JNum 0;
          Mcp.metrics_summary := Mcp.metrics_summary rule;
          Mcp.additional_checks := Mcp.NoChecks |}.
Proof.
  intros Hen Herr. unfold Mcp.llm_gate_decision. rewrite Hen. simpl.
  unfold mcp_error in Herr.
  destruct (handle _ w) as [[blocks | e'] w']; simpl in *.
  - destruct blocks as [| [t | ty] rest]; simpl.
    + subst e. reflexivity.
    + rewrite Herr. reflexivity.
    + contradiction.
  - subst e'. reflexivity.
Qed.
End Facts.

Section Malformed.
Context `{Format}.

Lemma py_index_missing (d : gmap string jval) (k : string) :
  d !! k = None -> py_index (JObj d) k = Raise (KeyError k).
Proof. intros Hk. simpl. now rewrite Hk. Qed.

Lemma legacy_malformed_raises (d : Legacy.Decision) (t : text) :
  malformed ["approve"; "reason"] t ->
  exists e, Legacy.gate_opinion d t = Raise e.
Proof.
  unfold malformed, Legacy.gate_opinion, json_loads.
  destruct (loads t) as [v |]; simpl; [| eauto].
  destruct v as [| b | q | s | m | c]; simpl; eauto.
  intros (k & Hin & Hk).
  destruct (m !! "approve") as [a |] eqn:Ea; simpl; [| eauto].
  destruct (m !! "reason") as [r |] eqn:Er; simpl; [| eauto].
  exfalso.
  repeat (apply elem_of_cons in Hin as [-> | Hin]; [congruence |]).
  now apply elem_of_nil in Hin.
Qed.

Lemma mcp_malformed_raises (rule : Mcp.UpgradeDecision) (t : text) :
  malformed ["approve"; "reason"; "confidence"] t ->
  exists e, Mcp.gate_opinion rule t = Raise e.
Proof.
  unfold malformed, Mcp.gate_opinion, json_loads.
  destruct (loads t) as [v |]; simpl; [| eauto].
  destruct v as [| b | q | s | m | c]; simpl; eauto.
  intros (k & Hin & Hk).
  destruct (m !! "approve") as [a |] eqn:Ea; simpl; [| eauto].
  destruct (m !! "reason") as [r |] eqn:Er; simpl; [| eauto].
  destruct (m !! "confidence") as [cf |] eqn:Ec; simpl; [| eauto].
  exfalso.
  repeat (apply elem_of_cons in Hin as [-> | Hin]; [congruence |]).
  now apply elem_of_nil in Hin.
Qed.
End Malformed.

(** The other way out of [llm_gate_decision]: a reply whose first content
    block is not a text block raises nothing, and the function falls through
    to its last line, which returns the rule verdict as it is. *)
Remark non_text_block_returns_rule_verdict :
  fst (run (McpWorld.handle (H := plain)
              (env_with always_delivered (JNum 45) (JNum 60) (JNum 0) 0
                 (Ok [Mcp.OtherBlock "tool_use"])))
         (Mcp.llm_gate_decision (H := plain) (engine_policy 75 25 true)
            (JObj R1) JNull JNull engine_approved) world0)
  = Ok engine_approved.
Proof. reflexivity. Qed.

End GateFacts.

Module GateClaims.
Import Samples GateFailure GateFacts.

(** C1.  With the gate enabled, whenever an error is raised while the
    gate's opinion is obtained (the call raises, or the decision cannot be
    read from the reply), the gate returns a verdict with approve = false
    whose reason names the gate failure and carries the error; the rule
    verdict's own approve plays no part.  This holds for [llm_gate] and for
    [llm_gate_decision], against any collaborators. *)
Theorem gate_fails_closed `{Format} {WL WM : Type}
    (handle_l : forall c : Legacy.call, WL -> res (Legacy.reply c) * WL)
    (handle_m : forall c : Mcp.call, WM -> res (Mcp.reply c) * WM)
    (LP : Legacy.PolicyFile) (EP : Mcp.PolicyFile)
    (d : Legacy.Decision) (router : jval)
    (router_info policy health_summary : jval) (rule : Mcp.UpgradeDecision)
    (wl : WL) (wm : WM) (el em : exn) :
  Legacy.llm_gate_enabled LP = true ->
  Mcp.gate_enabled EP = true ->
  legacy_error handle_l LP d router wl el ->
  mcp_error handle_m EP router_info policy health_summary rule wm em ->
  fst (run handle_l (Legacy.llm_gate LP d router) wl)
  = Ok {| Legacy.approve := false;
          Legacy.reason := JStr ("LLM gate error: " ++ exn_str el);
          Legacy.target_ver := Legacy.target_ver d |}
  /\ fst (run handle_m
            (Mcp.llm_gate_decision EP router_info policy health_summary rule) wm)
     = Ok {| Mcp.approve := JBool false;
             Mcp.reason := JStr ("LLM gate failed: " ++ exn_str em);
             Mcp.target_ver := Mcp.target_ver rule;
             Mcp.confidence := JNum 0;
             Mcp.metrics_summary := Mcp.metrics_summary rule;
             Mcp.additional_checks := Mcp.NoChecks |}.
Proof.
  intros Hl Hm Hel Hem. split.
  - now apply legacy_error_denies.
  - now apply mcp_error_denies.
Qed.

(** Scenario C of the specification: the rule verdict approves and the gate
    backend times out. *)
Lemma gate_fails_closed_witness :
  let timeout := Exception "APITimeoutError" "Request timed out." in
  fst (run (LegacyWorld.handle (H := plain)
              (env_with always_delivered (JNum 45) (JNum 60) (JNum 0) 0 (Raise timeout)))
         (Legacy.llm_gate (H := plain) (legacy_policy true) approved (JObj R1)) world0)
  = Ok {| Legacy.approve := false;
          Legacy.reason := JStr "LLM gate error: Request timed out.";
          Legacy.target_ver := JStr "17.3" |}
  /\ fst (run (McpWorld.handle (H := plain)
                 (env_with always_delivered (JNum 45) (JNum 60) (JNum 0) 0 (Raise timeout)))
            (Mcp.llm_gate_decision (H := plain) (engine_policy 75 25 true)
               (JObj R1) JNull JNull engine_approved) world0)
     = Ok {| Mcp.approve := JBool false;
             Mcp.reason := JStr "LLM gate failed: Request timed out.";
             Mcp.target_ver := JStr "17.3";
             Mcp.confidence := JNum 0;
             Mcp.metrics_summary := Some ∅;
             Mcp.additional_checks := Mcp.NoChecks |}.
Proof.
  intros timeout.
  apply (gate_fails_closed (H := plain)
           (LegacyWorld.handle (H := plain) _) (McpWorld.handle (H := plain) _)
           (legacy_policy true) (engine_policy 75 25 true)
           approved (JObj R1) (JObj R1) JNull JNull engine_approved
           world0 world0 timeout timeout);
    reflexivity.
Defined.

(** C7, as stated, fails on [llm_gate]: a reply that carries approve and
    reason but no confidence is not a gate failure there; the verdict it
    carries is returned, here an approval. *)
Lemma legacy_gate_accepts_reply_without_confidence :
  let fields : gmap string jval :=
    {[ "approve" := JBool true; "reason" := JStr "looks fine" ]} in
  let content := json_text (H := plain) (JObj fields) in
  fields !! "confidence" = None
  /\ fst (run (LegacyWorld.handle (H := plain)
                 (env_with always_delivered (JNum 45) (JNum 60) (JNum 0) 0 (Ok content)))
            (Legacy.llm_gate (H := plain) (legacy_policy true) approved (JObj R1)) world0)
     = Ok {| Legacy.approve := true;
             Legacy.reason := JStr "looks fine";
             Legacy.target_ver := JStr "17.3" |}.
Proof. split; reflexivity. Qed.

(** C7, amended.  With the gate enabled, a reply text that is not JSON, is
    not a JSON object, or lacks a field the gate reads (approve or reason for
    [llm_gate]; approve, reason or confidence for the first text block of
    [llm_gate_decision]) is a gate failure: the verdict has approve = false
    and a reason that names the gate failure, never the rule verdict's. *)
Theorem malformed_reply_fails_closed `{Format} {WL WM : Type}
    (handle_l : forall c : Legacy.call, WL -> res (Legacy.reply c) * WL)
    (handle_m : forall c : Mcp.call, WM -> res (Mcp.reply c) * WM)
    (LP : Legacy.PolicyFile) (EP : Mcp.PolicyFile)
    (d : Legacy.Decision) (router : jval)
    (router_info policy health_summary : jval) (rule : Mcp.UpgradeDecision)
    (wl : WL) (wm : WM) (content block_text : text) (rest : list Mcp.block) :
  Legacy.llm_gate_enabled LP = true ->
  Mcp.gate_enabled EP = true ->
  fst (handle_l (Legacy.chat_completions_create (Legacy.llm_gate_model LP)
                   (Legacy.gate_prompt LP d router)) wl) = Ok content ->
  malformed ["approve"; "reason"] content ->
  fst (handle_m (Mcp.messages_create (Mcp.gate_model EP)
                   (Mcp.gate_prompt router_info policy health_summary rule)) wm)
  = Ok (Mcp.TextBlock block_text :: rest) ->
  malformed ["approve"; "reason"; "confidence"] block_text ->
  (exists e,
     fst (run handle_l (Legacy.llm_gate LP d router) wl)
     = Ok {| Legacy.approve := false;
             Legacy.reason := JStr ("LLM gate error: " ++ exn_str e);
             Legacy.target_ver := Legacy.target_ver d |})
  /\ (exists e,
        fst (run handle_m
               (Mcp.llm_gate_decision EP router_info policy health_summary rule) wm)
        = Ok {| Mcp.approve := JBool false;
                Mcp.reason := JStr ("LLM gate failed: " ++ exn_str e);
                Mcp.target_ver := Mcp.target_ver rule;
                Mcp.confidence := JNum 0;
                Mcp.metrics_summary := Mcp.metrics_summary rule;
                Mcp.additional_checks := Mcp.NoChecks |}).
Proof.
  intros Hl Hm Hcl Hbad_l Hcm Hbad_m. split.
  - destruct (legacy_malformed_raises d content Hbad_l) as [e He].
    exists e. apply legacy_error_denies; [exact Hl |].
    unfold legacy_error. now rewrite Hcl.
  - destruct (mcp_malformed_raises rule block_text Hbad_m) as [e He].
    exists e. apply mcp_error_denies; [exact Hm |].
    unfold mcp_error. now rewrite Hcm.
Qed.

Lemma malformed_reply_fails_closed_witness :
  let no_reason := json_text (H := plain) (JObj {[ "approve" := JBool true ]}) in
  let no_confidence :=
    json_text (H := plain)
      (JObj {[ "approve" := JBool true; "reason" := JStr "looks fine" ]}) in
  (exists e,
     fst (run (LegacyWorld.handle (H := plain)
                 (env_with always_delivered (JNum 45) (JNum 60) (JNum 0) 0 (Ok no_reason)))
            (Legacy.llm_gate (H := plain) (legacy_policy true) approved (JObj R1)) world0)
     = Ok {| Legacy.approve := false;
             Legacy.reason := JStr ("LLM gate error: " ++ exn_str e);
             Legacy.target_ver := JStr "17.3" |})
  /\ (exists e,
        fst (run (McpWorld.handle (H := plain)
                    (env_with always_delivered (JNum 45) (JNum 60) (JNum 0) 0
                       (Ok [Mcp.TextBlock no_confidence])))
               (Mcp.llm_gate_decision (H := plain) (engine_policy 75 25 true)
                  (JObj R1) JNull JNull engine_approved) world0)
        = Ok {| Mcp.approve := JBool false;
                Mcp.reason := JStr ("LLM gate failed: " ++ exn_str e);
                Mcp.target_ver := JStr "17.3";
                Mcp.confidence := JNum 0;
                Mcp.metrics_summary := Some ∅;
                Mcp.additional_checks := Mcp.NoChecks |}).
Proof.
  intros no_reason no_confidence.
  apply (malformed_reply_fails_closed (H := plain)
           (LegacyWorld.handle (H := plain) _) (McpWorld.handle (H := plain) _)
           (legacy_policy true) (engine_policy 75 25 true)
           approved (JObj R1) (JObj R1) JNull JNull engine_approved
           world0 world0 no_reason no_confidence nil).
  - reflexivity.
  - reflexivity.
  - reflexivity.
  - exists "reason". split; [| reflexivity].
    apply elem_of_cons; right. apply elem_of_cons; left. reflexivity.
  - reflexivity.
  - exists "confidence". split; [| reflexivity].
    do 2 (apply elem_of_cons; right). apply elem_of_cons; left. reflexivity.
Defined.

End GateClaims.

(** ** Running programs *)

Section RunFacts.
Context {call : Type} {reply : call -> Type} {W : Type}
        (handle : forall c : call, W -> res (reply c) * W).

Lemma run_bind {A B} (p : Eff.prog call reply A) (f : A -> Eff.prog call reply B) (w : W) :
  run handle (bind p f) w
  = match run handle p w with
    | (Ok a, w1) => run handle (f a) w1
    | (Raise e, w1) => (Raise e, w1)
    end.
Proof.
  revert w. induction p as [a | e | c k IH]; intros w; simpl; try reflexivity.
  destruct (handle c w) as [o w1]. apply IH.
Qed.

Lemma run_try_except {A} (p : Eff.prog call reply A)
    (h : exn -> Eff.prog call reply A) (w : W) :
  run handle (try_except p h) w
  = match run handle p w with
    | (Ok a, w1) => (Ok a, w1)
    | (Raise e, w1) => run handle (h e) w1
    end.
Proof.
  revert w. induction p as [a | e | c k IH]; intros w; simpl; try reflexivity.
  destruct (handle c w) as [o w1]. apply IH.
Qed.

Lemma run_lift {A} (r : res A) (w : W) :
  run handle (lift (call := call) (reply := reply) r) w = (r, w).
Proof. destruct r; reflexivity. Qed.

Lemma run_perform (c : call) (w : W) :
  run handle (perform c) w = handle c w.
Proof. simpl. destruct (handle c w) as [[r | e] w1]; reflexivity. Qed.

(** A property of the world that every call allowed by [P] preserves is
    preserved by every program that only issues such calls. *)
Lemma run_preserves {A} (I : W -> Prop) (P : call -> Prop)
    (p : Eff.prog call reply A) (w : W) :
  (forall c w0, P c -> I w0 -> I (snd (handle c w0))) ->
  every_call P p -> I w -> I (snd (run handle p w)).
Proof.
  intros Hstep. revert w.
  induction p as [a | e | c k IH]; intros w Hp Hw; simpl; try exact Hw.
  destruct Hp as [Hc Hk]. specialize (Hstep c w Hc Hw).
  destruct (handle c w) as [o w1]. simpl in Hstep. now apply IH.
Qed.
End RunFacts.

(** ** The HTTP agent against its servers *)

Module LegacyRun.
Import World Legacy LegacyWorld.

Section Facts.
Context `{Format} (env : Env).

Lemma run_post (r : request) (w : world) :
  run (handle env) (post r) w
  = match network env (clock w) with
    | Unreachable =>
        (Raise (Exception "ConnectionError" "connection refused"), tick w)
    | Delivered =>
        (check_response r (fst (endpoint env r w)), tick (snd (endpoint env r w)))
    | ReplyLost =>
        (Raise (Exception "ReadTimeout" "read timed out"),
         tick (snd (endpoint env r w)))
    end.
Proof.
  unfold post. rewrite run_bind, run_perform. simpl.
  destruct (network env (clock w)); try reflexivity;
    destruct (endpoint env r w) as [resp w1]; simpl; try reflexivity.
  apply run_lift.
Qed.

Lemma check_response_ok (r : request) (v : jval) :
  check_response r (json_response 200 v) = Ok v.
Proof. reflexivity. Qed.

Lemma check_response_error (r : request) (code : nat) (b : text) :
  (400 <=? code)%nat && (code <? 600)%nat = true ->
  exists e, check_response r {| status_code := code; body := b |} = Raise e.
Proof. intros Hc. unfold check_response. simpl status_code. rewrite Hc. eauto. Qed.

Lemma as_int_inject (id : Z) : as_int (JNum (inject_Z id)) = Some id.
Proof.
  unfold as_int. rewrite Qfloor_Z.
  assert (E : Qeq_bool (inject_Z id) (inject_Z id) = true)
    by (apply Qeq_bool_iff; reflexivity).
  now rewrite E.
Qed.

Lemma as_opt_dict_info1 (k : string) (v : jval) :
  as_opt_dict (info1 k v) = Some (JObj {[ k := v ]}).
Proof.
  unfold as_opt_dict, info1, py_or. simpl truthy.
  now rewrite map_to_list_singleton.
Qed.

Lemma as_opt_dict_obj (d : gmap string jval) :
  exists details, as_opt_dict (Some (JObj d)) = Some details.
Proof. simpl. eauto. Qed.

(** What a status update does, whatever the transport does to it. *)
Lemma run_post_update (id : Z) (status : string) (info : option jval) (w : world) :
  run (handle env) (post (update_upgrade_status (JNum (inject_Z id)) status info)) w
  = match network env (clock w), as_opt_dict info with
    | Unreachable, _ =>
        (Raise (Exception "ConnectionError" "connection refused"), tick w)
    | Delivered, Some details =>
        (Ok (JObj {[ "ok" := JBool true ]}),
         tick (with_db (Db.update_status id status details (db w)) w))
    | Delivered, None =>
        (check_response (update_upgrade_status (JNum (inject_Z id)) status info)
           unprocessable, tick w)
    | ReplyLost, Some details =>
        (Raise (Exception "ReadTimeout" "read timed out"),
         tick (with_db (Db.update_status id status details (db w)) w))
    | ReplyLost, None =>
        (Raise (Exception "ReadTimeout" "read timed out"), tick w)
    end.
Proof.
  rewrite run_post. unfold endpoint. rewrite as_int_inject.
  destruct (network env (clock w)), (as_opt_dict info); reflexivity.
Qed.

End Facts.
End LegacyRun.

Module AttemptFacts.
Import World Attempt.

Lemma last_snoc_status (h : list string) (status : string) :
  default Db.default_status (last (h ++ [status])) = status.
Proof. now rewrite last_snoc. Qed.

Lemma insert_upgrade_cases (router_id by_whom decision : string)
    (reason target_ver : jval) (t : Db.tables) :
  match Db.insert_upgrade router_id by_whom decision reason target_ver t with
  | (Some id, t') =>
      Db.upgrades t !! id = None
      /\ Db.upgrades t' =
           <[ id := {| Db.u_router_id := router_id; Db.u_requested_by := by_whom;
                       Db.u_decision := decision; Db.u_reason := reason;
                       Db.u_status := Db.default_status;
                       Db.u_target_ver := target_ver; Db.u_history := nil |} ]>
             (Db.upgrades t)
      /\ Db.audit_events t' = Db.audit_events t
  | (None, t') =>
      Db.upgrades t' = Db.upgrades t /\ Db.audit_events t' = Db.audit_events t
  end.
Proof.
  unfold Db.insert_upgrade.
  destruct (bool_decide (is_Some (Db.routers t !! router_id))); simpl;
    [| split; reflexivity].
  destruct (String.eqb decision "approve" || String.eqb decision "deny"); simpl;
    [| split; reflexivity].
  destruct (bool_decide (Db.upgrades t !! Db.upgrades_id_seq t = None)) eqn:E; simpl;
    [| split; reflexivity].
  apply bool_decide_eq_true in E. repeat split; [exact E].
Qed.

Lemma precheck_seen_sound_aux (h : list string) (seen : bool) :
  precheck_seen_before_running seen h = true ->
  forall before after : list string,
    h = (before ++ "running" :: after)%list -> seen = true \/ "precheck" ∈ before.
Proof.
  revert seen. induction h as [| s rest IH]; intros seen Hc before after Heq.
  - destruct before; discriminate.
  - destruct before as [| b before]; simpl in Heq; injection Heq as Hs Hrest.
    + subst s. simpl in Hc. apply andb_true_iff in Hc as [Hseen _]. now left.
    + subst b. simpl in Hc.
      destruct (String.eqb s "running") eqn:Er.
      * apply andb_true_iff in Hc as [Hseen _]. now left.
      * destruct (IH _ Hc before after Hrest) as [Hs | Hin].
        -- apply orb_true_iff in Hs as [Hs | Hs]; [now left |].
           apply String.eqb_eq in Hs. subst s. right. apply elem_of_cons. now left.
        -- right. apply elem_of_cons. now right.
Qed.

Lemma precheck_seen_sound (h : list string) :
  precheck_seen_before_running false h = true -> running_after_precheck h.
Proof.
  intros Hc before after Heq.
  destruct (precheck_seen_sound_aux h false Hc before after Heq) as [Hf | Hin];
    [discriminate | exact Hin].
Qed.


Lemma attempt_update (w0 w : world) (id : Z) (router_id : string)
    (h : list string) (evs : list Db.audit_event)
    (runs : list (string * jval * bool)) (n : nat)
    (status : string) (details : jval) :
  attempt w0 id router_id h evs runs n w ->
  attempt w0 id router_id (h ++ [status])
    (evs ++ [status_event router_id status details]) runs (S n)
    (tick (with_db (Db.update_status id status details (db w)) w)).
Proof.
  intros (Hfresh & (row & Hrow & Hrid & Hh & Hst) & Hothers & Hev & Hruns & Hclk).
  unfold Db.update_status. rewrite Hrow. unfold attempt. simpl.
  split; [exact Hfresh |]. split.
  { exists (Db.set_status status row). rewrite lookup_insert_eq.
    repeat split; simpl; try congruence.
    now rewrite last_snoc_status. }
  split.
  { intros id' Hne. rewrite lookup_insert_ne by congruence. now apply Hothers. }
  split.
  { rewrite Hev, <- app_assoc. unfold status_event. now rewrite Hrid. }
  split; [exact Hruns | lia].
Qed.

Lemma attempt_tick (w0 w : world) (id : Z) (router_id : string)
    (h : list string) (evs : list Db.audit_event)
    (runs : list (string * jval * bool)) (n : nat) :
  attempt w0 id router_id h evs runs n w ->
  attempt w0 id router_id h evs runs (S n) (tick w).
Proof.
  intros (Hfresh & Hrow & Hothers & Hev & Hruns & Hclk).
  unfold attempt. simpl. repeat split; try assumption. lia.
Qed.

Lemma attempt_run (w0 w : world) (id : Z) (router_id : string)
    (h : list string) (evs : list Db.audit_event)
    (runs : list (string * jval * bool)) (n : nat) (r : string * jval * bool) :
  attempt w0 id router_id h evs runs n w ->
  attempt w0 id router_id h evs (runs ++ [r]) (S n) (tick (with_run r w)).
Proof.
  intros (Hfresh & Hrow & Hothers & Hev & Hruns & Hclk).
  unfold attempt. simpl. repeat split; try assumption.
  - now rewrite Hruns, <- app_assoc.
  - lia.
Qed.


Lemma attempt_runs (w0 w : world) id rid h evs runs n :
  attempt w0 id rid h evs runs n w -> playbook_runs w = (playbook_runs w0 ++ runs)%list.
Proof. intros Ha. apply Ha. Qed.

Lemma untouched_runs (w0 w : world) n :
  untouched w0 n w -> playbook_runs w = playbook_runs w0.
Proof. intros Hu. apply Hu. Qed.

Lemma attempt_rows (w0 w : world) id rid h evs runs n :
  attempt w0 id rid h evs runs n w ->
  forall id' row',
    Db.upgrades (db w) !! id' = Some row' ->
    Db.upgrades (db w0) !! id' = Some row'
    \/ (Db.upgrades (db w0) !! id' = None /\ Db.u_history row' = h).
Proof.
  intros (Hfresh & (row & Hrow & _ & Hh & _) & Hothers & _) id' row' Hl.
  destruct (decide (id' = id)) as [-> | Hne].
  - right. split; [exact Hfresh |]. congruence.
  - left. rewrite <- Hothers by exact Hne. exact Hl.
Qed.

End AttemptFacts.

Module LegacyCalls.
Import World Legacy LegacyWorld Attempt AttemptFacts LegacyRun.

Section Calls.
Context `{Format} (env : Env).

(** A status update of the attempt: it is answered and applied; or it
    raises and nothing was applied; or it raises although it was applied,
    the reply being lost. *)
Lemma update_cases (w0 w : world) (id : Z) (router_id : string)
    (h : list string) (evs : list Db.audit_event)
    (runs : list (string * jval * bool)) (n : nat)
    (status : string) (info : option jval) :
  attempt w0 id router_id h evs runs n w ->
  match run (handle env)
          (post (update_upgrade_status (JNum (inject_Z id)) status info)) w with
  | (Ok _, w1) =>
      network env (clock w0 + n) = Delivered
      /\ exists details,
           as_opt_dict info = Some details
           /\ attempt w0 id router_id (h ++ [status])
                (evs ++ [status_event router_id status details]) runs (S n) w1
  | (Raise _, w1) =>
      attempt w0 id router_id h evs runs (S n) w1
      \/ (network env (clock w0 + n) = ReplyLost
          /\ exists details,
               as_opt_dict info = Some details
               /\ attempt w0 id router_id (h ++ [status])
                    (evs ++ [status_event router_id status details]) runs (S n) w1)
  end.
Proof.
  intros Ha. rewrite run_post_update.
  assert (Hclk : clock w = (clock w0 + n)%nat) by apply Ha.
  rewrite Hclk.
  destruct (network env (clock w0 + n)) eqn:Hn, (as_opt_dict info) as [details |] eqn:Hi.
  - split; [reflexivity |]. exists details. split; [reflexivity |].
    now apply attempt_update.
  - destruct (check_response_error
                (update_upgrade_status (JNum (inject_Z id)) status info) 422
                (json_text (JObj {[ "detail" := JStr "validation error" ]}))
                eq_refl) as [e He].
    unfold unprocessable, http_exception, json_response. rewrite He.
    left. now apply attempt_tick.
  - left. now apply attempt_tick.
  - left. now apply attempt_tick.
  - right. split; [reflexivity |]. exists details. split; [reflexivity |].
    now apply attempt_update.
  - left. now apply attempt_tick.
Qed.

(** A call to the automation backend during the attempt: it is answered,
    the playbook having run and exited with 0; or it raises, the playbook
    having run or not. *)
Lemma upgrade_cases (w0 w : world) (id : Z) (router_id rid : string)
    (h : list string) (evs : list Db.audit_event)
    (runs : list (string * jval * bool)) (n : nat)
    (target_ver : jval) (check : bool) :
  attempt w0 id router_id h evs runs n w ->
  match run (handle env) (post (upgrade rid target_ver check)) w with
  | (Ok res, w1) =>
      network env (clock w0 + n) = Delivered
      /\ (exists stdout stderr,
            ansible_playbook env (clock w0 + n) rid target_ver check
            = Ok (0%Z, stdout, stderr))
      /\ (exists d, res = JObj d)
      /\ attempt w0 id router_id h evs (runs ++ [(rid, target_ver, check)]) (S n) w1
  | (Raise _, w1) =>
      attempt w0 id router_id h evs runs (S n) w1
      \/ attempt w0 id router_id h evs (runs ++ [(rid, target_ver, check)]) (S n) w1
  end.
Proof.
  intros Ha. rewrite run_post.
  assert (Hclk : clock w = (clock w0 + n)%nat) by apply Ha.
  unfold endpoint. rewrite Hclk.
  destruct (network env (clock w0 + n)) eqn:Hn.
  - destruct target_ver as [| b | q | ver | d | c]; simpl;
      try (left; now apply attempt_tick).
    destruct (ansible_playbook env (clock w0 + n) rid (JStr ver) check)
      as [[[rc out] err] | e] eqn:Hp; simpl.
    + destruct (rc =? 0)%Z eqn:Hrc; simpl.
      * apply Z.eqb_eq in Hrc. subst rc.
        split; [reflexivity |]. split; [eauto |]. split; [eauto |].
        now apply attempt_run.
      * right. now apply attempt_run.
    + right. now apply attempt_run.
  - left. now apply attempt_tick.
  - destruct target_ver as [| b | q | ver | d | c]; simpl;
      try (left; now apply attempt_tick).
    destruct (ansible_playbook env (clock w0 + n) rid (JStr ver) check)
      as [[[rc out] err] | e]; simpl.
    + destruct (negb (rc =? 0)%Z); right; now apply attempt_run.
    + right. now apply attempt_run.
Qed.

Lemma py_index_singleton (k : string) (v : jval) :
  py_index (JObj {[ k := v ]}) k = Ok v.
Proof. simpl. now rewrite lookup_singleton_eq. Qed.

Lemma record_cases (w : world) (router_id decision : string) (reason target_ver : jval) :
  match run (handle env) (post (record_decision router_id decision reason target_ver)) w with
  | (Ok rec, w1) =>
      network env (clock w) = Delivered
      /\ exists id,
           rec = JObj {[ "upgrade_id" := JNum (inject_Z id) ]}
           /\ attempt w id router_id nil nil nil 1 w1
  | (Raise _, w1) =>
      untouched w 1 w1
      \/ (network env (clock w) = ReplyLost
          /\ exists id, attempt w id router_id nil nil nil 1 w1)
  end.
Proof.
  rewrite run_post.
  assert (Hun : untouched w 1 (tick w)).
  { unfold untouched. simpl. repeat split. lia. }
  assert (Hins : forall reason' tv',
    match Db.insert_upgrade router_id "agentx" decision reason' tv' (db w) with
    | (Some id, t) => attempt w id router_id nil nil nil 1 (tick (with_db t w))
    | (None, t) => untouched w 1 (tick (with_db t w))
    end).
  { intros reason' tv'.
    pose proof (insert_upgrade_cases router_id "agentx" decision reason' tv' (db w)) as Hc.
    destruct (Db.insert_upgrade _ _ _ _ _ _) as [[id |] t].
    - destruct Hc as (Hfresh & Hup & Hev). unfold attempt. simpl.
      split; [exact Hfresh |]. rewrite Hup. split.
      { eexists. rewrite lookup_insert_eq. repeat split. }
      split; [intros id' Hne; now rewrite lookup_insert_ne by congruence |].
      rewrite Hev, !app_nil_r. repeat split. lia.
    - destruct Hc as (Hup & Hev). unfold untouched. simpl. repeat split; try assumption. lia. }
  unfold endpoint.
  destruct (network env (clock w)) eqn:Hn.
  - destruct (as_str reason) as [rs |]; [| left; exact Hun].
    destruct (as_opt_str target_ver) as [tv |]; [| left; exact Hun].
    destruct (negb _); [left; exact Hun |].
    specialize (Hins (JStr rs) tv).
    destruct (Db.insert_upgrade _ _ _ _ _ _) as [[id |] t]; simpl.
    + split; [reflexivity |]. exists id. split; [reflexivity | exact Hins].
    + left. exact Hins.
  - left. exact Hun.
  - destruct (as_str reason) as [rs |]; [| left; exact Hun].
    destruct (as_opt_str target_ver) as [tv |]; [| left; exact Hun].
    destruct (negb _); [left; exact Hun |].
    specialize (Hins (JStr rs) tv).
    destruct (Db.insert_upgrade _ _ _ _ _ _) as [[id |] t]; simpl.
    + right. split; [reflexivity |]. exists id. exact Hins.
    + left. exact Hins.
Qed.
End Calls.
End LegacyCalls.

Module LegacyAct.
Import World Legacy LegacyWorld Attempt AttemptFacts LegacyRun LegacyCalls.

Ltac next_update env :=
  match goal with
  | Ha : attempt _ _ _ _ _ _ _ ?w
    |- context [run ?hd (post (update_upgrade_status ?uid ?stat ?inf)) ?w] =>
      let Hc := fresh "Hc" in
      pose proof (update_cases env _ _ _ _ _ _ _ _ stat inf Ha) as Hc;
      destruct (run hd (post (update_upgrade_status uid stat inf)) w)
        as [[? | ?] ?];
      [ destruct Hc as (? & ? & ? & ?) | destruct Hc as [? | (? & ? & ? & ?)] ];
      clear Ha; cbv beta iota
  end.

Ltac next_upgrade env :=
  match goal with
  | Ha : attempt _ _ _ _ _ _ _ ?w
    |- context [run ?h (post (upgrade ?rid ?tv ?c)) ?w] =>
      let Hc := fresh "Hc" in
      pose proof (upgrade_cases env _ _ _ _ rid _ _ _ _ tv c Ha) as Hc;
      destruct (run h (post (upgrade rid tv c)) w) as [[? | ?] ?];
      [ destruct Hc as (? & ? & ? & ?) | destruct Hc as [? | ?] ];
      clear Ha; cbv beta iota
  end.

Ltac unwind :=
  repeat first [ rewrite run_bind | rewrite run_try_except | rewrite run_lift
               | progress cbn [run] | progress cbv beta iota ].

(** The reply lost is that to the last request but one. *)
Ltac lost_final :=
  split;
  [ match goal with
    | Ha : attempt ?w0 _ _ _ _ _ ?n ?wk |- network _ (clock ?wk - 2) = ReplyLost =>
        let Hclk := fresh "Hclk" in
        assert (Hclk : clock wk = (clock w0 + n)%nat) by apply Ha;
        rewrite Hclk;
        match goal with
        | Hl : network _ ?k = ReplyLost |- network _ ?k' = ReplyLost =>
            replace k' with k by lia; exact Hl
        end
    end
  | reflexivity ].

Section Histories.
Context `{Format} (env : Env).

Ltac leaf :=
  simpl;
  first
    [ left; match goal with Hu : untouched _ _ _ |- _ => exact (proj1 Hu) end
    | right; do 5 eexists;
      split; [eassumption |];
      split; [apply precheck_seen_sound; reflexivity |];
      first [ left; unfold at_most_one_terminal; simpl; lia
            | right; lost_final ] ].

Lemma act_history (w : world) (router_id : string) (dry_run : bool) (d : Decision) :
  let w' := snd (run (handle env) (act router_id dry_run d) w) in
  Db.upgrades (db w') = Db.upgrades (db w)
  \/ exists id h evs runs n,
       attempt w id router_id h evs runs n w' /\ sound_history env w' h.
Proof.
  unfold act. unwind.
  pose proof (record_cases env w router_id
                (if approve d then "approve" else "deny") (reason d) (target_ver d)) as Hrec.
  destruct (run _ (post (record_decision _ _ _ _)) w) as [[rec | e] w1]; cbv beta iota.
  2: { destruct Hrec as [Hun | (Hl & id & Ha)]; leaf. }
  destruct Hrec as (Hn & id & -> & Ha).
  unwind. rewrite py_index_singleton. cbv beta iota.
  destruct (approve d); cbn [negb]; unwind.
  - (* approved *)
    next_upgrade env; unwind.
    + next_update env; unwind.
      * destruct dry_run; unwind; [leaf |].
        next_update env; unwind.
        -- next_upgrade env; unwind.
           ++ next_update env; unwind; [leaf | | ];
                next_update env; unwind; leaf.
           ++ next_update env; unwind; leaf.
           ++ next_update env; unwind; leaf.
        -- next_update env; unwind; leaf.
        -- next_update env; unwind; leaf.
      * next_update env; unwind; leaf.
      * next_update env; unwind; leaf.
    + next_update env; unwind; leaf.
    + next_update env; unwind; leaf.
  - (* denied *)
    next_update env; unwind; leaf.
Qed.
(** What [act] does with a denial. *)
Lemma act_denied (w : world) (router_id : string) (dry_run : bool) (d : Decision) :
  approve d = false ->
  match run (handle env) (act router_id dry_run d) w with
  | (Ok out, w') =>
      exists id,
        out = {| o_upgrade_id := JNum (inject_Z id); o_status := "denied";
                 o_reason := Some (reason d); o_error := None |}
        /\ attempt w id router_id ["denied"]
             [status_event router_id "denied" (JObj {[ "reason" := reason d ]})]
             nil 2 w'
  | (Raise _, w') => playbook_runs w' = playbook_runs w
  end.
Proof.
  intros Hd. unfold act. rewrite Hd. cbn [negb]. unwind.
  pose proof (record_cases env w router_id "deny" (reason d) (target_ver d)) as Hrec.
  destruct (run _ (post (record_decision _ _ _ _)) w) as [[rec | e] w1]; unwind.
  2: { destruct Hrec as [Hun | (Hl & id & Ha)].
       - now apply untouched_runs in Hun.
       - apply attempt_runs in Ha. now rewrite app_nil_r in Ha. }
  destruct Hrec as (Hn & id & -> & Ha).
  rewrite py_index_singleton. unwind.
  next_update env; unwind.
  - exists id. split; [reflexivity |].
    match goal with
    | Hi : as_opt_dict (info1 _ _) = Some _ |- _ =>
        rewrite as_opt_dict_info1 in Hi; injection Hi as <-
    end.
    assumption.
  - match goal with Ha' : attempt _ _ _ _ _ _ _ _ |- _ =>
      apply attempt_runs in Ha'; now rewrite app_nil_r in Ha' end.
  - match goal with Ha' : attempt _ _ _ _ _ _ _ _ |- _ =>
      apply attempt_runs in Ha'; now rewrite app_nil_r in Ha' end.
Qed.

(** What [act] does when the dry-run precheck does not succeed. *)
Lemma act_precheck_failure (w : world) (router_id : string) (dry_run : bool)
    (d : Decision) (rec : jval) :
  approve d = true ->
  fst (run (handle env)
         (post (record_decision router_id "approve" (reason d) (target_ver d))) w)
  = Ok rec ->
  precheck_fails env (S (clock w)) router_id (target_ver d) ->
  exists id runs,
    (runs = nil \/ runs = [(router_id, target_ver d, true)])
    /\ match run (handle env) (act router_id dry_run d) w with
       | (Ok out, w') =>
           network env (clock w + 2) = Delivered
           /\ exists detail,
                out = {| o_upgrade_id := JNum (inject_Z id);
                         o_status := "precheck-failed";
                         o_reason := None; o_error := Some detail |}
                /\ attempt w id router_id ["precheck-failed"]
                     [status_event router_id "precheck-failed"
                        (JObj {[ "error" := JStr detail ]})]
                     runs 3 w'
       | (Raise _, w') =>
           network env (clock w + 2) <> Delivered
           /\ (attempt w id router_id nil nil runs 3 w'
               \/ exists detail,
                    attempt w id router_id ["precheck-failed"]
                      [status_event router_id "precheck-failed"
                         (JObj {[ "error" := JStr detail ]})]
                      runs 3 w')
       end.
Proof.
  intros Hd Hrec Hfail. unfold act. rewrite Hd in *. cbn [negb]. unwind.
  pose proof (record_cases env w router_id "approve" (reason d) (target_ver d)) as Hc.
  destruct (run _ (post (record_decision _ _ _ _)) w) as [[rec' | e] w1];
    [| discriminate Hrec].
  destruct Hc as (Hn & id & -> & Ha). unwind.
  rewrite py_index_singleton. unwind.
  exists id.
  assert (Hstore : forall runs e w2,
    attempt w id router_id nil nil runs 2 w2 ->
    match run (handle env)
            (post (update_upgrade_status (JNum (inject_Z id)) "precheck-failed"
                     (info1 "error" (JStr (exn_str e))))) w2 with
    | (Ok _, w') =>
        network env (clock w + 2) = Delivered
        /\ attempt w id router_id ["precheck-failed"]
             [status_event router_id "precheck-failed"
                (JObj {[ "error" := JStr (exn_str e) ]})] runs 3 w'
    | (Raise _, w') =>
        network env (clock w + 2) <> Delivered
        /\ (attempt w id router_id nil nil runs 3 w'
            \/ attempt w id router_id ["precheck-failed"]
                 [status_event router_id "precheck-failed"
                    (JObj {[ "error" := JStr (exn_str e) ]})] runs 3 w')
    end).
  { intros runs e w2 Ha2. rewrite run_post_update, as_opt_dict_info1.
    assert (Hclk : clock w2 = (clock w + 2)%nat) by apply Ha2. rewrite Hclk.
    destruct (network env (clock w + 2)) eqn:Hn2.
    - split; [reflexivity |].
      now apply (attempt_update w w2 id router_id nil nil runs 2).
    - split; [discriminate |]. left. now apply attempt_tick.
    - split; [discriminate |]. right.
      now apply (attempt_update w w2 id router_id nil nil runs 2). }
  next_upgrade env; unwind.
  - (* the precheck was answered: it did not fail *)
    exfalso. rewrite Nat.add_1_r in *.
    destruct Hfail as [Hnet | Hplay]; [congruence |].
    match goal with
    | Hp : exists _ _, ansible_playbook _ _ _ _ _ = _ |- _ =>
        destruct Hp as (out & err & Hp); rewrite Hp in Hplay
    end.
    now apply Hplay.
  - exists nil. split; [now left |].
    match goal with Ha' : attempt _ _ _ _ _ _ _ ?w2 |- _ =>
      specialize (Hstore nil e w2 Ha') end.
    destruct (run _ (post (update_upgrade_status _ _ _)) _) as [[v | e'] w3]; unwind.
    + split; [apply Hstore |]. exists (exn_str e). split; [reflexivity | apply Hstore].
    + destruct Hstore as (Hne & [Hs | Hs]); (split; [exact Hne |]); [now left | right; eauto].
  - exists [(router_id, target_ver d, true)]. split; [now right |].
    match goal with Ha' : attempt _ _ _ _ _ _ _ ?w2 |- _ =>
      specialize (Hstore _ e w2 Ha') end.
    destruct (run _ (post (update_upgrade_status _ _ _)) _) as [[v | e'] w3]; unwind.
    + split; [apply Hstore |]. exists (exn_str e). split; [reflexivity | apply Hstore].
    + destruct Hstore as (Hne & [Hs | Hs]); (split; [exact Hne |]); [now left | right; eauto].
Qed.

(** When [act] raises on a denial: the decision could not be recorded, or
    the store did not answer the status update; the record, if there is one,
    is as the store last wrote it. *)
Lemma act_denied_failure (w : world) (router_id : string) (dry_run : bool)
    (d : Decision) :
  approve d = false ->
  match run (handle env) (act router_id dry_run d) w with
  | (Ok _, _) =>
      network env (clock w + 1) = Delivered
  | (Raise _, w') =>
      ((exists e,
          fst (run (handle env)
                 (post (record_decision router_id "deny" (reason d) (target_ver d))) w)
          = Raise e)
       \/ network env (clock w + 1) <> Delivered)
      /\ (Db.upgrades (db w') = Db.upgrades (db w)
          \/ exists id h evs n,
               attempt w id router_id h evs nil n w'
               /\ (h = nil \/ h = ["denied"]))
  end.
Proof.
  intros Hd. unfold act. rewrite Hd. cbn [negb]. unwind.
  pose proof (record_cases env w router_id "deny" (reason d) (target_ver d)) as Hrec.
  destruct (run _ (post (record_decision _ _ _ _)) w) as [[rec | e] w1]; unwind.
  2: { split; [left; eexists; reflexivity |].
       destruct Hrec as [Hun | (Hl & id & Ha)]; [left; apply Hun | right].
       exists id, nil, nil, 1%nat. split; [exact Ha | now left]. }
  destruct Hrec as (Hn & id & -> & Ha).
  rewrite py_index_singleton. unwind.
  rewrite run_post_update, as_opt_dict_info1.
  assert (Hclk : clock w1 = (clock w + 1)%nat) by apply Ha. rewrite Hclk.
  destruct (network env (clock w + 1)) eqn:Hn1; unwind.
  - reflexivity.
  - split; [right; discriminate | right].
    exists id, nil, nil, 2%nat. split; [now apply attempt_tick | now left].
  - split; [right; discriminate | right].
    exists id, ["denied"],
      [status_event router_id "denied" (JObj {[ "reason" := reason d ]})], 2%nat.
    split; [| now right].
    now apply (attempt_update w w1 id router_id nil nil nil 1).
Qed.
End Histories.
End LegacyAct.

(** ** The MCP agent against its servers *)

Module McpCalls.
Import World Mcp McpWorld Attempt AttemptFacts.

Section Calls.
Context `{Format} (env : Env).

Lemma run_call_mcp_tool (t : tool_call) (w : world) :
  run (handle env) (call_mcp_tool t) w
  = match network env (clock w) with
    | Unreachable =>
        (Raise (Exception "ConnectionError" "connection closed"), tick w)
    | Delivered =>
        (match fst (serve env t w) with
         | TextContent c =>
             match loads c with
             | Some v => Ok v
             | None => Ok (JObj {[ "raw" := JStr (raw c) ]})
             end
         | OtherContent => Raise (AttributeError "object has no attribute 'text'")
         | NoContent => Ok (PyObject "CallToolResult")
         end, tick (snd (serve env t w)))
    | ReplyLost =>
        (Raise (Exception "TimeoutError" "timed out"), tick (snd (serve env t w)))
    end.
Proof.
  unfold call_mcp_tool. rewrite run_bind, run_perform. simpl.
  destruct (network env (clock w)); try reflexivity;
    destruct (serve env t w) as [result w1]; simpl; try reflexivity.
  destruct result as [| c |]; simpl; try reflexivity.
  destruct (loads c); reflexivity.
Qed.

Lemma row_id_inject (id : Z) : row_id (JNum (inject_Z id)) = Some id.
Proof.
  unfold row_id. rewrite Qfloor_Z.
  assert (E : Qeq_bool (inject_Z id) (inject_Z id) = true)
    by (apply Qeq_bool_iff; reflexivity).
  now rewrite E.
Qed.

(** A status update of the attempt by the MCP agent: answered, applied or
    refused; or raised, applied or not. *)
Lemma tool_update_cases (w0 w : world) (id : Z) (router_id : string)
    (h : list string) (evs : list Db.audit_event)
    (runs : list (string * jval * bool)) (n : nat)
    (status : string) (info : option jval) :
  attempt w0 id router_id h evs runs n w ->
  match run (handle env)
          (call_mcp_tool (pg_update_upgrade_status (JNum (inject_Z id)) status info)) w with
  | (Ok _, w1) =>
      attempt w0 id router_id h evs runs (S n) w1
      \/ attempt w0 id router_id (h ++ [status])
           (evs ++ [status_event router_id status (default (JObj ∅) info)])
           runs (S n) w1
  | (Raise _, w1) =>
      attempt w0 id router_id h evs runs (S n) w1
      \/ (network env (clock w0 + n) = ReplyLost
          /\ attempt w0 id router_id (h ++ [status])
               (evs ++ [status_event router_id status (default (JObj ∅) info)])
               runs (S n) w1)
  end.
Proof.
  intros Ha. rewrite run_call_mcp_tool.
  assert (Hclk : clock w = (clock w0 + n)%nat) by apply Ha.
  rewrite Hclk. unfold serve. rewrite row_id_inject.
  destruct (network env (clock w0 + n)) eqn:Hn;
    destruct (negb (truthy (JNum (inject_Z id))) || String.eqb status ""); simpl;
    try (left; now apply attempt_tick).
  - right. now apply attempt_update.
  - right. split; [reflexivity |]. now apply attempt_update.
Qed.

(** A call to the automation backend by the MCP agent. *)
Lemma tool_upgrade_cases (w0 w : world) (id : Z) (router_id rid : string)
    (h : list string) (evs : list Db.audit_event)
    (runs : list (string * jval * bool)) (n : nat)
    (target_ver : jval) (check : bool) :
  attempt w0 id router_id h evs runs n w ->
  let w1 := snd (run (handle env)
                   (call_mcp_tool (ansible_upgrade rid target_ver check)) w) in
  attempt w0 id router_id h evs runs (S n) w1
  \/ attempt w0 id router_id h evs (runs ++ [(rid, target_ver, check)]) (S n) w1.
Proof.
  intros Ha. rewrite run_call_mcp_tool. unfold serve.
  destruct (network env (clock w)); simpl;
    try (left; now apply attempt_tick);
    destruct (String.eqb rid "" || negb (truthy target_ver)); simpl;
    try (left; now apply attempt_tick);
    destruct (ansible_playbook env (clock w) rid target_ver check)
      as [[[rc out] err] | e]; simpl; right; now apply attempt_run.
Qed.

Lemma tool_record_cases (w : world) (router_id decision : string) (reason target_ver : jval) :
  match run (handle env)
          (call_mcp_tool (pg_record_decision router_id decision reason target_ver)) w with
  | (Ok rec, w1) =>
      (py_get rec "upgrade_id" JNull = Ok JNull /\ untouched w 1 w1)
      \/ exists id,
           rec = JObj {[ "upgrade_id" := JNum (inject_Z id) ]}
           /\ attempt w id router_id nil nil nil 1 w1
  | (Raise _, w1) =>
      untouched w 1 w1
      \/ (network env (clock w) = ReplyLost
          /\ exists id, attempt w id router_id nil nil nil 1 w1)
  end.
Proof.
  rewrite run_call_mcp_tool.
  assert (Hun : untouched w 1 (tick w)).
  { unfold untouched. simpl. repeat split. lia. }
  assert (Hins :
    match Db.insert_upgrade router_id "mcp-agent" decision reason target_ver (db w) with
    | (Some id, t) => attempt w id router_id nil nil nil 1 (tick (with_db t w))
    | (None, t) => untouched w 1 (tick (with_db t w))
    end).
  { pose proof (insert_upgrade_cases router_id "mcp-agent" decision reason
                  target_ver (db w)) as Hc.
    destruct (Db.insert_upgrade _ _ _ _ _ _) as [[id |] t].
    - destruct Hc as (Hfresh & Hup & Hev). unfold attempt. simpl.
      split; [exact Hfresh |]. rewrite Hup. split.
      { eexists. rewrite lookup_insert_eq. repeat split. }
      split; [intros id' Hne; now rewrite lookup_insert_ne by congruence |].
      rewrite Hev, !app_nil_r. repeat split. lia.
    - destruct Hc as (Hup & Hev). unfold untouched. simpl.
      repeat split; try assumption. lia. }
  unfold serve.
  destruct (network env (clock w)) eqn:Hn.
  - destruct (negb _); simpl; [left; split; [reflexivity | exact Hun] |].
    destruct (negb _); simpl; [left; split; [reflexivity | exact Hun] |].
    destruct (Db.insert_upgrade _ _ _ _ _ _) as [[id |] t]; simpl.
    + right. exists id. split; [reflexivity | exact Hins].
    + left. split; [reflexivity | exact Hins].
  - left. exact Hun.
  - destruct (negb _); simpl; [left; exact Hun |].
    destruct (negb _); simpl; [left; exact Hun |].
    destruct (Db.insert_upgrade _ _ _ _ _ _) as [[id |] t]; simpl.
    + right. split; [reflexivity |]. exists id. exact Hins.
    + left. exact Hins.
Qed.
End Calls.
End McpCalls.

Module McpAct.
Import World Mcp McpWorld Attempt AttemptFacts McpCalls.

Ltac unwind_tool :=
  repeat first [ rewrite run_bind | rewrite run_try_except | rewrite run_lift
               | progress cbn [run] | progress cbv beta iota ].

Ltac next_tool_update env :=
  match goal with
  | Ha : attempt _ _ _ _ _ _ _ ?w
    |- context [run ?hd (call_mcp_tool (pg_update_upgrade_status ?uid ?stat ?inf)) ?w] =>
      let Hc := fresh "Hc" in
      pose proof (tool_update_cases env _ _ _ _ _ _ _ _ stat inf Ha) as Hc;
      destruct (run hd (call_mcp_tool (pg_update_upgrade_status uid stat inf)) w)
        as [[? | ?] ?];
      [ destruct Hc as [? | ?] | destruct Hc as [? | (? & ?)] ];
      clear Ha; cbv beta iota
  end.

Ltac next_tool_upgrade env :=
  match goal with
  | Ha : attempt _ _ _ _ _ _ _ ?w
    |- context [run ?hd (call_mcp_tool (ansible_upgrade ?rid ?tv ?c)) ?w] =>
      let Hc := fresh "Hc" in
      pose proof (tool_upgrade_cases env _ _ _ _ rid _ _ _ _ tv c Ha) as Hc;
      cbv zeta in Hc;
      destruct (run hd (call_mcp_tool (ansible_upgrade rid tv c)) w) as [[? | ?] ?];
      cbn [snd] in Hc; destruct Hc as [? | ?];
      clear Ha; cbv beta iota
  end.

Section Rows.
Context `{Format} (env : Env).

Lemma call_mcp_tool_calls (P : call -> Prop) (t : tool_call) :
  P (session_call_tool t) -> every_call P (call_mcp_tool t).
Proof.
  intros Ht. unfold call_mcp_tool. apply every_call_bind.
  - simpl. split; [exact Ht | intros [r | e]; exact I].
  - intros [| c |]; simpl; try exact I. destruct (loads c); exact I.
Qed.

Lemma no_row_change_rows (c : call) (w : world) :
  no_row_change c ->
  Db.upgrades (db (snd (handle env c w))) = Db.upgrades (db w).
Proof.
  destruct c as [t | m p]; simpl; [| reflexivity].
  intros Hc.
  assert (Hs : Db.upgrades (db (snd (serve env t w))) = Db.upgrades (db w)).
  { destruct t as [rid | rid | rid win | rid dec rs tv | uid st inf | rid tv chk];
      simpl in *; try contradiction.
    - destruct (String.eqb rid ""); [reflexivity |].
      destruct (Db.routers (db w) !! rid); reflexivity.
    - destruct (String.eqb rid ""); [reflexivity |].
      destruct (Db.select_policy rid (db w)); reflexivity.
    - destruct (get_health_summary env rid win w); reflexivity.
    - rewrite Hc. reflexivity.
    - destruct (String.eqb rid "" || negb (truthy tv)); [reflexivity |].
      destruct (ansible_playbook env (clock w) rid tv chk)
        as [[[rc out] err] |]; reflexivity. }
  destruct (network env (clock w)); simpl; try reflexivity;
    destruct (serve env t w) as [result w1]; exact Hs.
Qed.
End Rows.

Ltac not_in_list :=
  let Hin := fresh "Hin" in
  simpl; intros Hin;
  repeat (apply elem_of_cons in Hin as [Hin | Hin]; [discriminate Hin |]);
  now apply elem_of_nil in Hin.

Section Histories.
Context `{Format} (env : Env).

Lemma py_get_singleton (k : string) (v dflt : jval) :
  py_get (JObj {[ k := v ]}) k dflt = Ok v.
Proof. simpl. now rewrite lookup_singleton_eq. Qed.

Ltac tool_leaf :=
  simpl;
  first
    [ left; match goal with Hu : untouched _ _ _ |- _ => exact (proj1 Hu) end
    | right; do 5 eexists;
      split; [eassumption |];
      split; [not_in_list |];
      first [ left; unfold at_most_one_terminal; simpl; lia
            | right; LegacyAct.lost_final ] ].

Lemma carry_out_history (w : world) (router_id : string) (dry_run : bool)
    (d : UpgradeDecision) :
  let w' := snd (run (handle env) (carry_out router_id dry_run d) w) in
  Db.upgrades (db w') = Db.upgrades (db w)
  \/ exists id h evs runs n,
       attempt w id router_id h evs runs n w' /\ direct_history env w' h.
Proof.
  unfold carry_out. destruct (negb (truthy (approve d))); [now left |].
  unwind_tool.
  pose proof (tool_record_cases env w router_id "approve" (reason d) (target_ver d)) as Hrec.
  destruct (run _ (call_mcp_tool (pg_record_decision _ _ _ _)) w) as [[rec | e] w1];
    cbv beta iota.
  2: { destruct Hrec as [Hun | (Hl & id & Ha)]; tool_leaf. }
  destruct Hrec as [(Hid & Hun) | (id & -> & Ha)].
  - (* no id came back: no row is touched from here on *)
    rewrite run_bind, run_lift, Hid. cbv beta iota. left.
    destruct Hun as (Hrows & _). rewrite <- Hrows.
    apply (run_preserves (handle env)
             (fun x => Db.upgrades (db x) = Db.upgrades (db w1)) no_row_change);
      [| | reflexivity].
    + intros c x Hc Hx. now rewrite (no_row_change_rows env c x Hc).
    + apply every_call_try_except.
      * apply every_call_bind; [now apply call_mcp_tool_calls |]. intros _.
        apply every_call_bind; [now apply call_mcp_tool_calls |]. intros res.
        apply every_call_bind; [apply every_call_lift |]. intros ok.
        apply every_call_bind; [now apply call_mcp_tool_calls |]. intros _.
        exact I.
      * intros e. simpl truthy. cbv iota. simpl. exact I.
  - unwind_tool. rewrite py_get_singleton. unwind_tool.
    destruct (truthy (JNum (inject_Z id))) eqn:Ht.
    + next_tool_update env; unwind_tool.
      * next_tool_upgrade env; unwind_tool.
        all: try (destruct (py_get _ "success" JNull) as [ok |];
                  [destruct (truthy ok) |]; unwind_tool).
        all: try (next_tool_update env; unwind_tool).
        all: try (next_tool_update env; unwind_tool).
        all: tool_leaf.
      * next_tool_upgrade env; unwind_tool.
        all: try (destruct (py_get _ "success" JNull) as [ok |];
                  [destruct (truthy ok) |]; unwind_tool).
        all: try (next_tool_update env; unwind_tool).
        all: try (next_tool_update env; unwind_tool).
        all: tool_leaf.
      * next_tool_update env; unwind_tool; tool_leaf.
      * next_tool_update env; unwind_tool; tool_leaf.
    + next_tool_update env; unwind_tool.
      * next_tool_upgrade env; unwind_tool.
        all: try (destruct (py_get _ "success" JNull) as [ok |];
                  [destruct (truthy ok) |]; unwind_tool).
        all: try (next_tool_update env; unwind_tool).
        all: tool_leaf.
      * next_tool_upgrade env; unwind_tool.
        all: try (destruct (py_get _ "success" JNull) as [ok |];
                  [destruct (truthy ok) |]; unwind_tool).
        all: try (next_tool_update env; unwind_tool).
        all: tool_leaf.
      * tool_leaf.
      * tool_leaf.
Qed.
End Histories.
End McpAct.

Module RowsFacts.
Import World Attempt AttemptFacts.

Lemma rows_since_refl (w : world) (P : list string -> Prop) : rows_since w w P.
Proof. split; intros id row Hl; [exact Hl | now left]. Qed.

Lemma rows_since_same (w0 w : world) (P : list string -> Prop) :
  Db.upgrades (db w) = Db.upgrades (db w0) -> rows_since w0 w P.
Proof. intros E. unfold rows_since. rewrite E. apply rows_since_refl. Qed.

Lemma rows_since_attempt (w0 w : world) id rid h evs runs n (P : list string -> Prop) :
  attempt w0 id rid h evs runs n w -> P h -> rows_since w0 w P.
Proof.
  intros Ha Hp. split.
  - intros id' row Hl. destruct Ha as (Hfresh & _ & Hothers & _).
    rewrite Hothers; [exact Hl |]. intros ->. congruence.
  - intros id' row Hl.
    destruct (attempt_rows _ _ _ _ _ _ _ _ Ha id' row Hl) as [Hs | (Hn & Hh)];
      [now left | right]. split; [exact Hn | now rewrite Hh].
Qed.

Lemma rows_since_trans (w0 w1 w2 : world) (P : list string -> Prop) :
  rows_since w0 w1 P -> rows_since w1 w2 P -> rows_since w0 w2 P.
Proof.
  intros (Hk1 & Hn1) (Hk2 & Hn2). split.
  - intros id row Hl. apply Hk2, Hk1, Hl.
  - intros id row Hl. destruct (Hn2 id row Hl) as [Hs | (Hnone & Hp)].
    + apply Hn1, Hs.
    + right. split; [| exact Hp].
      destruct (Db.upgrades (db w0) !! id) as [row0 |] eqn:E; [| reflexivity].
      apply Hk1 in E. congruence.
Qed.

Lemma rows_since_weaken (w0 w : world) (P Q : list string -> Prop) :
  (forall h, P h -> Q h) -> rows_since w0 w P -> rows_since w0 w Q.
Proof.
  intros Hpq (Hk & Hn). split; [exact Hk |].
  intros id row Hl. destruct (Hn id row Hl) as [Hs | (Hnone & Hp)]; [now left |].
  right. split; [exact Hnone | now apply Hpq].
Qed.

End RowsFacts.

Module LegacyRows.
Import World Attempt AttemptFacts RowsFacts.
Import Legacy LegacyWorld LegacyRun LegacyCalls LegacyAct.

Section Rows.
Context `{Format} (env : Env) (POLICY : PolicyFile).

Lemma read_only_db (c : call) (w : world) :
  read_only c -> db (snd (handle env c w)) = db w.
Proof.
  destruct c as [r | m p]; simpl; [| reflexivity].
  intros Hc.
  assert (Hs : db (snd (endpoint env r w)) = db w).
  { destruct r as [rid | rid | rid win | rid win | rid win | | |];
      simpl in *; try contradiction.
    - destruct (Db.routers (db w) !! rid); reflexivity.
    - destruct (Db.select_policy rid (db w)); reflexivity.
    - destruct (influx_query env (clock w) "cpu" rid win); reflexivity.
    - destruct (influx_query env (clock w) "mem" rid win); reflexivity.
    - destruct (influx_query env (clock w) "errors" rid win); reflexivity. }
  destruct (network env (clock w)); simpl; try reflexivity;
    destruct (endpoint env r w) as [resp w1]; exact Hs.
Qed.

Lemma rule_decision_read_only (router_id : string) :
  every_call read_only (rule_decision POLICY router_id).
Proof.
  unfold rule_decision.
  apply every_call_bind; [apply LegacyFacts.post_calls; exact I | intros r].
  apply every_call_bind; [apply LegacyFacts.post_calls; exact I | intros pol].
  apply every_call_bind; [apply LegacyFacts.post_calls; exact I | intros cpu_r].
  apply every_call_bind; [apply every_call_lift | intros cpu].
  apply every_call_bind; [apply LegacyFacts.post_calls; exact I | intros mem_r].
  apply every_call_bind; [apply every_call_lift | intros mem].
  apply every_call_bind; [apply LegacyFacts.post_calls; exact I | intros err_r].
  apply every_call_bind; [apply every_call_lift | intros errs].
  apply every_call_lift.
Qed.

Lemma llm_gate_read_only (d : Decision) (router : jval) :
  every_call read_only (llm_gate POLICY d router).
Proof.
  unfold llm_gate. destruct (negb (llm_gate_enabled POLICY)); [exact I |].
  apply every_call_try_except; [| intros e; exact I].
  apply every_call_bind; [| intros c; apply every_call_lift].
  simpl. split; [exact I | intros [r | e]; exact I].
Qed.

Lemma decide_and_act_rows (w : world) (router_id : string) (dry_run : bool) :
  rows_since w
    (snd (run (handle env) (decide_and_act POLICY router_id dry_run) w))
    (sound_history env
       (snd (run (handle env) (decide_and_act POLICY router_id dry_run) w))).
Proof.
  unfold decide_and_act.
  assert (Hpre : forall A (p : prog A),
             every_call read_only p -> db (snd (run (handle env) p w)) = db w).
  { intros A p Hp.
    apply (run_preserves (handle env) (fun x => db x = db w) read_only);
      [| exact Hp | reflexivity].
    intros c x Hc Hx. now rewrite read_only_db. }
  set (prefix := (router <~ post (get_router router_id) ;;
                  d <~ rule_decision POLICY router_id ;;
                  d' <~ llm_gate POLICY d router ;; Ret d')%prog).
  assert (Hprefix : every_call read_only prefix).
  { unfold prefix. apply every_call_bind; [apply LegacyFacts.post_calls; exact I |].
    intros router. apply every_call_bind; [apply rule_decision_read_only |].
    intros d. apply every_call_bind; [apply llm_gate_read_only |]. intros d'. exact I. }
  assert (Heq : run (handle env)
                  (router <~ post (get_router router_id) ;;
                   d <~ rule_decision POLICY router_id ;;
                   d <~ llm_gate POLICY d router ;; act router_id dry_run d)%prog w
                = match run (handle env) prefix w with
                  | (Ok d, w1) => run (handle env) (act router_id dry_run d) w1
                  | (Raise e, w1) => (Raise e, w1)
                  end).
  { unfold prefix. rewrite !run_bind.
    destruct (run (handle env) (post (get_router router_id)) w) as [[router | e] w1];
      [| reflexivity].
    rewrite !run_bind.
    destruct (run (handle env) (rule_decision POLICY router_id) w1) as [[d | e] w2];
      [| reflexivity].
    rewrite !run_bind.
    destruct (run (handle env) (llm_gate POLICY d router) w2) as [[d' | e] w3];
      reflexivity. }
  rewrite Heq. specialize (Hpre _ prefix Hprefix).
  destruct (run (handle env) prefix w) as [[d | e] w1]; simpl in Hpre.
  - apply rows_since_trans with (w1 := w1);
      [apply rows_since_same; now rewrite Hpre |].
    destruct (act_history env w1 router_id dry_run d)
      as [Hsame | (id & h & evs & runs & n & Ha & Hs)].
    + now apply rows_since_same.
    + now apply (rows_since_attempt w1 _ id router_id h evs runs n).
  - apply rows_since_same. simpl. now rewrite Hpre.
Qed.
End Rows.
End LegacyRows.

Module McpRows.
Import World Attempt AttemptFacts RowsFacts.
Import Mcp McpWorld McpCalls McpAct.

Section Rows.
Context `{Format} (env : Env) (POLICY : PolicyFile).

Lemma no_status_update_rows (c : call) (w0 w : world) :
  no_status_update c ->
  rows_since w0 w (fun h => h = nil) ->
  rows_since w0 (snd (handle env c w)) (fun h => h = nil).
Proof.
  intros Hc Hw.
  apply rows_since_trans with (w1 := w); [exact Hw |].
  destruct c as [t | m p]; simpl; [| now apply rows_since_same].
  assert (Hs : rows_since w (snd (serve env t w)) (fun h => h = nil)).
  { destruct t as [rid | rid | rid win | rid dec rs tv | uid st inf | rid tv chk];
      simpl in *; try contradiction.
    - destruct (String.eqb rid ""); [apply rows_since_refl |].
      destruct (Db.routers (db w) !! rid); apply rows_since_refl.
    - destruct (String.eqb rid ""); [apply rows_since_refl |].
      destruct (Db.select_policy rid (db w)); apply rows_since_refl.
    - destruct (get_health_summary env rid win w); apply rows_since_refl.
    - destruct (negb _); [apply rows_since_refl |].
      destruct (negb _); [apply rows_since_refl |].
      pose proof (insert_upgrade_cases rid "mcp-agent" dec rs tv (db w)) as Hi.
      destruct (Db.insert_upgrade _ _ _ _ _ _) as [[id |] t]; simpl.
      + destruct Hi as (Hfresh & Hup & _). split; simpl; rewrite Hup.
        * intros id' row Hl. rewrite lookup_insert_ne; [exact Hl |].
          intros ->. congruence.
        * intros id' row Hl. destruct (decide (id' = id)) as [-> | Hne].
          -- rewrite lookup_insert_eq in Hl. injection Hl as <-.
             right. split; [exact Hfresh | reflexivity].
          -- rewrite lookup_insert_ne in Hl by congruence. now left.
      + apply rows_since_same. simpl. apply Hi.
    - destruct (String.eqb rid "" || negb (truthy tv)); [apply rows_since_refl |].
      destruct (ansible_playbook env (clock w) rid tv chk)
        as [[[rc out] err] |]; apply rows_since_same; reflexivity. }
  destruct (network env (clock w)); simpl; try (now apply rows_since_same);
    destruct (serve env t w) as [result w1]; exact Hs.
Qed.

Lemma llm_gate_decision_calls (P : call -> Prop)
    (router_info policy health_summary : jval) (rule : UpgradeDecision) :
  (forall m p, P (messages_create m p)) ->
  every_call P (llm_gate_decision POLICY router_info policy health_summary rule).
Proof.
  intros Hp. unfold llm_gate_decision.
  destruct (negb (gate_enabled POLICY)); [exact I |].
  apply every_call_bind; [| intros [d |]; exact I].
  apply every_call_try_except; [| intros e; exact I].
  apply every_call_bind.
  - simpl. split; [apply Hp | intros [r | e]; exact I].
  - intros [| [t | ty] rest]; try exact I.
    apply every_call_bind; [apply every_call_lift | intros d; exact I].
Qed.

Lemma analyze_no_status_update (router_id : string) :
  every_call no_status_update (analyze_upgrade_readiness POLICY router_id).
Proof.
  unfold analyze_upgrade_readiness.
  apply every_call_try_except; [| intros e; exact I].
  apply every_call_bind; [now apply call_mcp_tool_calls | intros router_info].
  apply every_call_bind; [now apply call_mcp_tool_calls | intros policy].
  apply every_call_bind; [now apply call_mcp_tool_calls | intros hs].
  apply every_call_bind; [apply every_call_lift | intros rule].
  apply every_call_bind; [apply llm_gate_decision_calls; intros; exact I | intros final].
  apply every_call_bind; [now apply call_mcp_tool_calls | intros _]. exact I.
Qed.

Lemma execute_upgrade_rows (w : world) (router_id : string) (dry_run : bool) :
  rows_since w
    (snd (run (handle env) (execute_upgrade POLICY router_id dry_run) w))
    (direct_history env
       (snd (run (handle env) (execute_upgrade POLICY router_id dry_run) w))).
Proof.
  unfold execute_upgrade. rewrite run_try_except, run_bind.
  assert (Han : rows_since w
                  (snd (run (handle env) (analyze_upgrade_readiness POLICY router_id) w))
                  (fun h => h = nil)).
  { apply (run_preserves (handle env)
             (fun x => rows_since w x (fun h => h = nil)) no_status_update).
    - intros c x Hc Hx. now apply no_status_update_rows.
    - apply analyze_no_status_update.
    - apply rows_since_refl. }
  assert (Hnil : forall (w' : world) (h : list string),
            h = nil -> direct_history env w' h).
  { intros w' h ->. split; [apply not_elem_of_nil |].
    left. unfold at_most_one_terminal. simpl. lia. }
  destruct (run (handle env) (analyze_upgrade_readiness POLICY router_id) w)
    as [[decision | e] w1]; simpl in Han.
  - pose proof (carry_out_history env w1 router_id dry_run decision) as Hc.
    cbv zeta in Hc.
    assert (Hrows : rows_since w
               (snd (run (handle env) (carry_out router_id dry_run decision) w1))
               (direct_history env
                  (snd (run (handle env) (carry_out router_id dry_run decision) w1)))).
    { apply rows_since_trans with (w1 := w1);
        [apply (rows_since_weaken w w1 (fun h => h = nil)); [apply Hnil | exact Han] |].
      destruct Hc as [Hsame | (id & h & evs & runs & n & Ha & Hs)].
      - now apply rows_since_same.
      - now apply (rows_since_attempt w1 _ id router_id h evs runs n). }
    destruct (run (handle env) (carry_out router_id dry_run decision) w1)
      as [[out | e] w2]; exact Hrows.
  - simpl. apply (rows_since_weaken w w1 (fun h => h = nil)); [apply Hnil | exact Han].
Qed.
End Rows.
End McpRows.

Module Outcomes.
Import World Attempt AttemptFacts RowsFacts Samples.

Ltac in_list :=
  simpl; repeat first [ apply list_elem_of_here | apply list_elem_of_further ].

Section Statuses.
Context `{Format}.

Lemma act_statuses (router_id : string) (dry_run : bool) (d : Legacy.Decision) :
  every_return
    (fun out => Legacy.o_status out
                ∈ ["denied"; "precheck-failed"; "precheck-ok"; "success"; "failed"])
    (Legacy.act router_id dry_run d).
Proof.
  unfold Legacy.act.
  apply every_return_bind with (Q' := fun _ => True); [apply every_return_true |].
  intros rec _.
  apply every_return_bind with (Q' := fun _ => True); [apply every_return_true |].
  intros id _.
  destruct (negb (Legacy.approve d)).
  - apply every_return_bind with (Q' := fun _ => True); [apply every_return_true |].
    intros _ _. in_list.
  - apply every_return_bind
      with (Q' := fun early => match early with
                               | Some out => Legacy.o_status out = "precheck-failed"
                               | None => True
                               end).
    + apply every_return_try_except.
      * apply every_return_bind with (Q' := fun _ => True); [apply every_return_true |].
        intros res _.
        apply every_return_bind with (Q' := fun _ => True); [apply every_return_true |].
        intros _ _. exact I.
      * intros e.
        apply every_return_bind with (Q' := fun _ => True); [apply every_return_true |].
        intros _ _. reflexivity.
    + intros [out |] Hout.
      * simpl. rewrite Hout. in_list.
      * destruct dry_run; [in_list |].
        apply every_return_try_except.
        -- apply every_return_bind with (Q' := fun _ => True); [apply every_return_true |].
           intros _ _.
           apply every_return_bind with (Q' := fun _ => True); [apply every_return_true |].
           intros res _.
           apply every_return_bind with (Q' := fun _ => True); [apply every_return_true |].
           intros _ _. in_list.
        -- intros e.
           apply every_return_bind with (Q' := fun _ => True); [apply every_return_true |].
           intros _ _. in_list.
Qed.

Lemma decide_and_act_statuses (POLICY : Legacy.PolicyFile)
    (router_id : string) (dry_run : bool) :
  every_return
    (fun out => Legacy.o_status out
                ∈ ["denied"; "precheck-failed"; "precheck-ok"; "success"; "failed"])
    (Legacy.decide_and_act POLICY router_id dry_run).
Proof.
  unfold Legacy.decide_and_act.
  apply every_return_bind with (Q' := fun _ => True); [apply every_return_true |].
  intros router _.
  apply every_return_bind with (Q' := fun _ => True); [apply every_return_true |].
  intros d _.
  apply every_return_bind with (Q' := fun _ => True); [apply every_return_true |].
  intros d' _. apply act_statuses.
Qed.

Lemma execute_upgrade_statuses (POLICY : Mcp.PolicyFile)
    (router_id : string) (dry_run : bool) :
  every_return
    (fun out => Mcp.o_status out ∈ ["denied"; "success"; "failed"; "error"])
    (Mcp.execute_upgrade POLICY router_id dry_run).
Proof.
  unfold Mcp.execute_upgrade.
  apply every_return_try_except; [| intros e; in_list].
  apply every_return_bind with (Q' := fun _ => True); [apply every_return_true |].
  intros decision _. unfold Mcp.carry_out.
  destruct (negb (truthy (Mcp.approve decision))); [in_list |].
  apply every_return_bind with (Q' := fun _ => True); [apply every_return_true |].
  intros rec _.
  apply every_return_bind with (Q' := fun _ => True); [apply every_return_true |].
  intros id _.
  apply every_return_try_except.
  - apply every_return_bind with (Q' := fun _ => True); [apply every_return_true |].
    intros _ _.
    apply every_return_bind with (Q' := fun _ => True); [apply every_return_true |].
    intros res _.
    apply every_return_bind with (Q' := fun _ => True); [apply every_return_true |].
    intros ok _.
    apply every_return_bind with (Q' := fun _ => True); [apply every_return_true |].
    intros _ _. simpl. destruct (truthy ok); in_list.
  - intros e.
    apply every_return_bind with (Q' := fun _ => True); [apply every_return_true |].
    intros _ _. in_list.
Qed.
End Statuses.

(** Two requests for router R1, interleaved so that the second starts when
    the first has recorded [running]: both attempts are at [running] at
    once, and when both are run to the end both return [success]. *)
Lemma two_requests_both_running :
  let env : LegacyWorld.Env :=
    env_with always_delivered (JNum 45) (JNum 60) (JNum 0) 0
      (Raise (Exception "unused" "")) in
  let request :=
    Legacy.decide_and_act (H := plain) (legacy_policy false) "R1" false in
  let midway :=
    interleave (LegacyWorld.handle (H := plain) env)
      (replicate 10 true ++ replicate 10 false) request request world0 in
  let finished :=
    interleave (LegacyWorld.handle (H := plain) env)
      (replicate 12 true ++ replicate 12 false) request request world0 in
  (exists row1 row2,
     Db.upgrades (db (snd midway)) !! 1%Z = Some row1
     /\ Db.upgrades (db (snd midway)) !! 2%Z = Some row2
     /\ Db.u_router_id row1 = "R1" /\ Db.u_router_id row2 = "R1"
     /\ Db.u_status row1 = "running" /\ Db.u_status row2 = "running")
  /\ (exists out1 out2,
        fst finished = (Ret out1, Ret out2)
        /\ Legacy.o_status out1 = "success" /\ Legacy.o_status out2 = "success").
Proof.
  intros env request midway finished. split.
  - eexists _, _. split; [vm_compute; reflexivity |].
    split; [vm_compute; reflexivity |]. repeat split.
  - eexists _, _. split; [vm_compute; reflexivity |]. split; reflexivity.
Qed.

End Outcomes.

(** ** UpgradeOrchestrator *)

Module OrchestratorClaims.
Import World Attempt AttemptFacts RowsFacts Samples Outcomes.

(** C3, as stated, fails in both of its parts.  On [execute_upgrade]: when
    the gate approves the upgrade of router R1, the record the agent writes
    for the attempt goes straight to [running] and then [success]; no
    [precheck] status is ever recorded.  On [decide_and_act]: when the reply
    to the status update that writes [success] (the twelfth request) is
    lost, the agent sees an exception and writes [failed] on the record the
    store has already taken to [success]: two terminal statuses. *)
Lemma records_skip_precheck_and_end_twice :
  (let env : McpWorld.Env :=
     env_with always_delivered (JNum 45) (JNum 60) (JNum 0) 0
       (Ok [Mcp.TextBlock
              (json_text (H := plain)
                 (JObj {[ "approve" := JBool true; "reason" := JStr "ok";
                          "confidence" := JNum (9 # 10) ]}))]) in
   let w' :=
     snd (run (McpWorld.handle (H := plain) env)
            (Mcp.execute_upgrade (H := plain) (engine_policy 75 25 true) "R1" false)
            world0) in
   exists row,
     Db.upgrades (db w') !! 2%Z = Some row
     /\ Db.u_history row = ["running"; "success"]
     /\ ~ running_after_precheck (Db.u_history row))
  /\ (let env : LegacyWorld.Env :=
        env_with (fun n => if (n =? 11)%nat then ReplyLost else Delivered)
          (JNum 45) (JNum 60) (JNum 0) 0 (Raise (Exception "unused" "")) in
      let w' :=
        snd (run (LegacyWorld.handle (H := plain) env)
               (Legacy.decide_and_act (H := plain) (legacy_policy false) "R1" false)
               world0) in
      exists row,
        Db.upgrades (db w') !! 1%Z = Some row
        /\ Db.u_history row = ["precheck"; "running"; "success"; "failed"]
        /\ ~ at_most_one_terminal (Db.u_history row)).
Proof.
  split.
  - intros env w'. eexists. split; [vm_compute; reflexivity |].
    split; [reflexivity |]. simpl. intros Hr.
    specialize (Hr nil ["success"] eq_refl). now apply elem_of_nil in Hr.
  - intros env w'. eexists. split; [vm_compute; reflexivity |].
    split; [reflexivity |]. unfold at_most_one_terminal. simpl. lia.
Qed.

(** C3, amended.  Whatever the collaborators do, every record a run of
    [decide_and_act] adds has a history in which [running] only comes after
    [precheck], and every record a run of [execute_upgrade] adds has a
    history without [precheck] (that agent has no precheck stage: it records
    [running] directly).  In both, a record added has at most one terminal
    status, with one exception: the store applied the run's final status
    update, the transport lost the reply to it (the run's last request but
    one), and the agent, seeing an exception, wrote [failed] on top with its
    last request.  No run changes or removes a record that was there
    before. *)
Theorem attempt_histories `{Format}
    (env_l : LegacyWorld.Env) (env_m : McpWorld.Env)
    (LP : Legacy.PolicyFile) (EP : Mcp.PolicyFile)
    (w : world) (router_id : string) (dry_run : bool) :
  let w_l := snd (run (LegacyWorld.handle env_l)
                    (Legacy.decide_and_act LP router_id dry_run) w) in
  let w_m := snd (run (McpWorld.handle env_m)
                    (Mcp.execute_upgrade EP router_id dry_run) w) in
  rows_since w w_l
    (fun h => running_after_precheck h
              /\ (at_most_one_terminal h
                  \/ (network env_l (clock w_l - 2) = ReplyLost
                      /\ failed_on_top h = true)))
  /\ rows_since w w_m
       (fun h => ("precheck" ∉ h)
                 /\ (at_most_one_terminal h
                     \/ (network env_m (clock w_m - 2) = ReplyLost
                         /\ failed_on_top h = true))).
Proof.
  split.
  - apply LegacyRows.decide_and_act_rows.
  - apply McpRows.execute_upgrade_rows.
Qed.

(** C4, as stated, fails: the handler of a failed precheck writes
    [precheck-failed] with a request of its own, and when the store does not
    answer that request nothing is persisted and nothing is returned.  Here
    the verdict for router R1 approves, the precheck playbook exits with
    status 1, and the store is unreachable for the status update (the ninth
    request): [decide_and_act] raises, the record keeps its initial status
    and no audit event is written. *)
Lemma precheck_failure_goes_unrecorded :
  let env : LegacyWorld.Env :=
    env_with (fun n => if (n =? 8)%nat then Unreachable else Delivered)
      (JNum 45) (JNum 60) (JNum 0) 1 (Raise (Exception "unused" "")) in
  let result :=
    run (LegacyWorld.handle (H := plain) env)
      (Legacy.decide_and_act (H := plain) (legacy_policy false) "R1" false)
      world0 in
  (exists e, fst result = Raise e)
  /\ (exists row,
        Db.upgrades (db (snd result)) !! 1%Z = Some row
        /\ Db.u_decision row = "approve"
        /\ Db.u_status row = "pending"
        /\ Db.u_history row = nil)
  /\ Db.audit_events (db (snd result)) = nil
  /\ playbook_runs (snd result) = [("R1", JStr "17.3", true)].
Proof.
  intros env result. split; [| split; [| split]].
  - eexists. vm_compute. reflexivity.
  - eexists. split; [vm_compute; reflexivity |]. repeat split.
  - vm_compute. reflexivity.
  - vm_compute. reflexivity.
Qed.

(** C4, amended.  For an approved verdict whose attempt has been recorded,
    if the dry-run precheck call does not succeed (the transport fails it,
    or the playbook cannot be run or exits with a status other than 0), then
    real execution is never reached: the attempt's record never gets a
    status other than [precheck-failed], and the playbook is never run
    outside check mode.  When the store answers the status update that
    follows, [act] returns the status [precheck-failed] with the failure
    detail, which is then the record's status and the detail of the last
    audit event; when the store does not answer it, [act] raises instead of
    returning. *)
Theorem precheck_failure_ends_attempt `{Format} (env : LegacyWorld.Env)
    (w : world) (router_id : string) (dry_run : bool)
    (d : Legacy.Decision) (rec : jval) :
  Legacy.approve d = true ->
  fst (run (LegacyWorld.handle env)
         (Legacy.post (Legacy.record_decision router_id "approve"
                         (Legacy.reason d) (Legacy.target_ver d))) w) = Ok rec ->
  precheck_fails env (S (clock w)) router_id (Legacy.target_ver d) ->
  let result := run (LegacyWorld.handle env) (Legacy.act router_id dry_run d) w in
  rows_since w (snd result) (fun h => h = nil \/ h = ["precheck-failed"])
  /\ (exists runs,
        playbook_runs (snd result) = (playbook_runs w ++ runs)%list
        /\ Forall (fun r => snd r = true) runs)
  /\ match fst result with
     | Ok out =>
         network env (clock w + 2) = Delivered
         /\ Legacy.o_status out = "precheck-failed"
         /\ exists id detail row,
              Legacy.o_upgrade_id out = JNum (inject_Z id)
              /\ Legacy.o_error out = Some detail
              /\ Db.upgrades (db (snd result)) !! id = Some row
              /\ Db.u_status row = "precheck-failed"
              /\ last (Db.audit_events (db (snd result)))
                 = Some (status_event router_id "precheck-failed"
                           (JObj {[ "error" := JStr detail ]}))
     | Raise _ => network env (clock w + 2) <> Delivered
     end.
Proof.
  intros Hd Hrec Hfail result.
  destruct (LegacyAct.act_precheck_failure env w router_id dry_run d rec Hd Hrec Hfail)
    as (id & runs & Hruns & Hres).
  fold result in Hres.
  assert (Hcheck : Forall (fun r : string * jval * bool => snd r = true) runs).
  { destruct Hruns as [-> | ->]; [constructor |]. repeat constructor. }
  destruct result as [[out | e] w']; simpl.
  - destruct Hres as (Hnet & detail & -> & Ha). split; [| split].
    + apply (rows_since_attempt w w' id router_id _ _ _ _ _ Ha). now right.
    + exists runs. split; [apply Ha | exact Hcheck].
    + split; [exact Hnet |]. split; [reflexivity |]. exists id, detail.
      destruct Ha as (_ & (row & Hrow & _ & _ & Hst) & _ & Hev & _).
      exists row. repeat split; try assumption.
      rewrite Hev. apply last_snoc.
  - destruct Hres as (Hnet & [Ha | (detail & Ha)]); (split; [| split]);
      try exact Hnet.
    + apply (rows_since_attempt w w' id router_id _ _ _ _ _ Ha). now left.
    + exists runs. split; [apply Ha | exact Hcheck].
    + apply (rows_since_attempt w w' id router_id _ _ _ _ _ Ha). now right.
    + exists runs. split; [apply Ha | exact Hcheck].
Qed.

(** Scenario D of the specification: the verdict approves, the precheck
    playbook exits with status 1, and the store answers. *)
Lemma precheck_failure_ends_attempt_witness :
  let env : LegacyWorld.Env :=
    env_with always_delivered (JNum 45) (JNum 60) (JNum 0) 1
      (Raise (Exception "unused" "")) in
  let result :=
    run (LegacyWorld.handle (H := plain) env)
      (Legacy.act (H := plain) "R1" false approved) world0 in
  rows_since world0 (snd result) (fun h => h = nil \/ h = ["precheck-failed"])
  /\ (exists runs,
        playbook_runs (snd result) = (playbook_runs world0 ++ runs)%list
        /\ Forall (fun r => snd r = true) runs)
  /\ match fst result with
     | Ok out =>
         network env (clock world0 + 2) = Delivered
         /\ Legacy.o_status out = "precheck-failed"
         /\ exists id detail row,
              Legacy.o_upgrade_id out = JNum (inject_Z id)
              /\ Legacy.o_error out = Some detail
              /\ Db.upgrades (db (snd result)) !! id = Some row
              /\ Db.u_status row = "precheck-failed"
              /\ last (Db.audit_events (db (snd result)))
                 = Some (status_event "R1" "precheck-failed"
                           (JObj {[ "error" := JStr detail ]}))
     | Raise _ => network env (clock world0 + 2) <> Delivered
     end.
Proof.
  intros env.
  apply (precheck_failure_ends_attempt (H := plain) env world0 "R1" false approved
           (JObj {[ "upgrade_id" := JNum 1 ]})).
  - reflexivity.
  - vm_compute. reflexivity.
  - right. vm_compute. discriminate.
Defined.

(** C5, as stated, fails in its persistence part on both agents.  On
    [execute_upgrade]: for a denied verdict (the health summary tool answers
    with an error, and the rules deny a snapshot without metrics) it returns
    the status [denied], but the attempt's record keeps its initial status
    and no status event is written; only the decision was recorded.  On
    [decide_and_act]: for a denied verdict (CPU at 90 against a limit of 75),
    when the store is unreachable for the status update (the eighth
    request), it raises instead of returning, and the record keeps its
    initial status. *)
Lemma denial_is_not_always_persisted :
  (let env : McpWorld.Env :=
     env_with always_delivered (JNum 90) (JNum 60) (JNum 0) 0
       (Raise (Exception "unused" "")) in
   let result :=
     run (McpWorld.handle (H := plain) env)
       (Mcp.execute_upgrade (H := plain) (engine_policy 75 25 false) "R1" false)
       world0 in
   (exists out, fst result = Ok out /\ Mcp.o_status out = "denied")
   /\ (exists row,
         Db.upgrades (db (snd result)) !! 1%Z = Some row
         /\ Db.u_decision row = "deny"
         /\ Db.u_status row = "pending"
         /\ Db.u_history row = nil)
   /\ Db.upgrades (db (snd result)) !! 2%Z = None
   /\ Db.audit_events (db (snd result)) = nil)
  /\ (let env : LegacyWorld.Env :=
        env_with (fun n => if (n =? 7)%nat then Unreachable else Delivered)
          (JNum 90) (JNum 60) (JNum 0) 0 (Raise (Exception "unused" "")) in
      let result :=
        run (LegacyWorld.handle (H := plain) env)
          (Legacy.decide_and_act (H := plain) (legacy_policy false) "R1" false)
          world0 in
      (exists e, fst result = Raise e)
      /\ (exists row,
            Db.upgrades (db (snd result)) !! 1%Z = Some row
            /\ Db.u_decision row = "deny"
            /\ Db.u_status row = "pending"
            /\ Db.u_history row = nil)
      /\ Db.audit_events (db (snd result)) = nil).
Proof.
  split.
  - intros env result. split; [| split; [| split]].
    + eexists. split; [vm_compute; reflexivity | reflexivity].
    + eexists. split; [vm_compute; reflexivity |]. repeat split.
    + vm_compute. reflexivity.
    + vm_compute. reflexivity.
  - intros env result. split; [| split].
    + eexists. vm_compute. reflexivity.
    + eexists. split; [vm_compute; reflexivity |]. repeat split.
    + vm_compute. reflexivity.
Qed.

(** C5, amended.  For a final verdict with approve = false, [act] (the HTTP
    agent) makes no call to the automation backend whatever the
    collaborators answer, never runs the playbook, and gives the attempt's
    record no status other than [denied].  When the store answers its two
    requests, [act] returns the status [denied] with the attempt's record at
    [denied] and the reason in the audit event; it raises instead only when
    the decision could not be recorded or the store did not answer the
    status update.  [carry_out] (the MCP agent) returns the status [denied]
    at once, without any call: none to the automation backend, and no status
    update either. *)
Theorem denial_makes_no_backend_call `{Format} (env : LegacyWorld.Env)
    (w : world) (router_id : string) (dry_run : bool)
    (d : Legacy.Decision) (dm : Mcp.UpgradeDecision) :
  Legacy.approve d = false ->
  truthy (Mcp.approve dm) = false ->
  let recorded :=
    run (LegacyWorld.handle env)
      (Legacy.post (Legacy.record_decision router_id "deny"
                      (Legacy.reason d) (Legacy.target_ver d))) w in
  let result := run (LegacyWorld.handle env) (Legacy.act router_id dry_run d) w in
  every_call (fun c => ~ Legacy.is_automation c) (Legacy.act router_id dry_run d)
  /\ playbook_runs (snd result) = playbook_runs w
  /\ rows_since w (snd result) (fun h => h = nil \/ h = ["denied"])
  /\ match fst result with
     | Ok out =>
         network env (clock w + 1) = Delivered
         /\ Legacy.o_status out = "denied"
         /\ exists id row,
              Legacy.o_upgrade_id out = JNum (inject_Z id)
              /\ Db.upgrades (db w) !! id = None
              /\ Db.upgrades (db (snd result)) !! id = Some row
              /\ Db.u_status row = "denied"
              /\ Db.u_history row = ["denied"]
              /\ last (Db.audit_events (db (snd result)))
                 = Some (status_event router_id "denied"
                           (JObj {[ "reason" := Legacy.reason d ]}))
     | Raise _ =>
         (exists e, fst recorded = Raise e)
         \/ network env (clock w + 1) <> Delivered
     end
  /\ Mcp.carry_out router_id dry_run dm
     = Ret {| Mcp.o_status := "denied"; Mcp.o_router_id := router_id;
              Mcp.o_reason := Some (Mcp.reason dm); Mcp.o_upgrade_id := None;
              Mcp.o_target_version := None; Mcp.o_execution_details := None;
              Mcp.o_error := None |}.
Proof.
  intros Hd Hdm recorded result.
  split; [now apply LegacyFacts.act_denied_no_automation |].
  pose proof (LegacyAct.act_denied env w router_id dry_run d Hd) as Hres.
  pose proof (LegacyAct.act_denied_failure env w router_id dry_run d Hd) as Hfail.
  fold result in Hres, Hfail. fold recorded in Hfail.
  assert (Hm : Mcp.carry_out router_id dry_run dm
               = Ret {| Mcp.o_status := "denied"; Mcp.o_router_id := router_id;
                        Mcp.o_reason := Some (Mcp.reason dm); Mcp.o_upgrade_id := None;
                        Mcp.o_target_version := None; Mcp.o_execution_details := None;
                        Mcp.o_error := None |}).
  { unfold Mcp.carry_out. now rewrite Hdm. }
  destruct result as [[out | e] w']; simpl.
  - destruct Hres as (id & -> & Ha). split; [| split; [| split; [| exact Hm]]].
    + apply attempt_runs in Ha. now rewrite app_nil_r in Ha.
    + apply (rows_since_attempt w w' id router_id _ _ _ _ _ Ha). now right.
    + split; [exact Hfail |]. split; [reflexivity |].
      destruct Ha as (Hfresh & (row & Hrow & _ & Hh & Hst) & _ & Hev & _).
      exists id, row. split; [reflexivity |]. split; [exact Hfresh |].
      split; [exact Hrow |]. split; [now rewrite Hst |].
      split; [exact Hh |]. rewrite Hev. apply last_snoc.
  - destruct Hfail as (Hwhy & Hrows).
    split; [exact Hres |]. split; [| split; [exact Hwhy | exact Hm]].
    destruct Hrows as [Hsame | (id & h & evs & n & Ha & Hh)].
    + now apply rows_since_same.
    + now apply (rows_since_attempt w w' id router_id h evs nil n).
Qed.

Lemma denial_makes_no_backend_call_witness :
  let env : LegacyWorld.Env :=
    env_with always_delivered (JNum 90) (JNum 60) (JNum 0) 0
      (Raise (Exception "unused" "")) in
  let recorded :=
    run (LegacyWorld.handle (H := plain) env)
      (Legacy.post (H := plain)
         (Legacy.record_decision "R1" "deny"
            (Legacy.reason denied) (Legacy.target_ver denied))) world0 in
  let result :=
    run (LegacyWorld.handle (H := plain) env)
      (Legacy.act (H := plain) "R1" false denied) world0 in
  every_call (fun c => ~ Legacy.is_automation c)
    (Legacy.act (H := plain) "R1" false denied)
  /\ playbook_runs (snd result) = playbook_runs world0
  /\ rows_since world0 (snd result) (fun h => h = nil \/ h = ["denied"])
  /\ match fst result with
     | Ok out =>
         network env (clock world0 + 1) = Delivered
         /\ Legacy.o_status out = "denied"
         /\ exists id row,
              Legacy.o_upgrade_id out = JNum (inject_Z id)
              /\ Db.upgrades (db world0) !! id = None
              /\ Db.upgrades (db (snd result)) !! id = Some row
              /\ Db.u_status row = "denied"
              /\ Db.u_history row = ["denied"]
              /\ last (Db.audit_events (db (snd result)))
                 = Some (status_event "R1" "denied"
                           (JObj {[ "reason" := Legacy.reason denied ]}))
     | Raise _ =>
         (exists e, fst recorded = Raise e)
         \/ network env (clock world0 + 1) <> Delivered
     end
  /\ Mcp.carry_out "R1" false engine_denied
     = Ret {| Mcp.o_status := "denied"; Mcp.o_router_id := "R1";
              Mcp.o_reason := Some (Mcp.reason engine_denied);
              Mcp.o_upgrade_id := None;
              Mcp.o_target_version := None; Mcp.o_execution_details := None;
              Mcp.o_error := None |}.
Proof.
  intros env.
  apply (denial_makes_no_backend_call (H := plain) env world0 "R1" false
           denied engine_denied); reflexivity.
Defined.

(** C9, as stated, fails: the agents have no per-device exclusion.  Two
    requests for router R1 interleaved as in [two_requests_both_running]
    leave two attempts in flight at once. *)
Lemma no_exclusion_per_device :
  ~ exclusive_per_device (H := plain) (legacy_policy false).
Proof.
  intros Hex.
  destruct two_requests_both_running
    as ((row1 & row2 & H1 & H2 & Hr1 & Hr2 & Hs1 & Hs2) & _).
  specialize (Hex (env_with always_delivered (JNum 45) (JNum 60) (JNum 0) 0
                     (Raise (Exception "unused" "")))
                world0 "R1" (replicate 10 true ++ replicate 10 false)%list).
  assert (Hnone : forall id row,
            Db.upgrades (db world0) !! id = Some row -> in_flight row = false).
  { intros id row Hl. simpl in Hl. now rewrite lookup_empty in Hl. }
  specialize (Hex Hnone 1%Z 2%Z row1 row2 H1 H2 Hr1 Hr2).
  assert (Hneq : 1%Z = 2%Z); [| discriminate Hneq].
  apply Hex; unfold in_flight; [rewrite Hs1 | rewrite Hs2]; reflexivity.
Qed.

(** C9, amended.  No request is ever rejected because an attempt is in
    flight: whatever the collaborators answer and whatever the database
    holds, a run of [decide_and_act] that returns, returns one of the
    statuses denied, precheck-failed, precheck-ok, success, failed, and a run
    of [execute_upgrade] one of denied, success, failed, error; and two
    simultaneous requests for the same device can both proceed, their two
    attempts being at [running] at once and both ending in [success]. *)
Theorem requests_are_never_rejected `{Format}
    (LP : Legacy.PolicyFile) (EP : Mcp.PolicyFile)
    (router_id : string) (dry_run : bool) :
  every_return
    (fun out => Legacy.o_status out
                ∈ ["denied"; "precheck-failed"; "precheck-ok"; "success"; "failed"])
    (Legacy.decide_and_act LP router_id dry_run)
  /\ every_return
       (fun out => Mcp.o_status out ∈ ["denied"; "success"; "failed"; "error"])
       (Mcp.execute_upgrade EP router_id dry_run)
  /\ (let env : LegacyWorld.Env :=
        env_with always_delivered (JNum 45) (JNum 60) (JNum 0) 0
          (Raise (Exception "unused" "")) in
      let request :=
        Legacy.decide_and_act (H := plain) (legacy_policy false) "R1" false in
      let midway :=
        interleave (LegacyWorld.handle (H := plain) env)
          (replicate 10 true ++ replicate 10 false) request request world0 in
      let finished :=
        interleave (LegacyWorld.handle (H := plain) env)
          (replicate 12 true ++ replicate 12 false) request request world0 in
      (exists row1 row2,
         Db.upgrades (db (snd midway)) !! 1%Z = Some row1
         /\ Db.upgrades (db (snd midway)) !! 2%Z = Some row2
         /\ Db.u_router_id row1 = "R1" /\ Db.u_router_id row2 = "R1"
         /\ Db.u_status row1 = "running" /\ Db.u_status row2 = "running")
      /\ (exists out1 out2,
            fst finished = (Ret out1, Ret out2)
            /\ Legacy.o_status out1 = "success"
            /\ Legacy.o_status out2 = "success")).
Proof.
  split; [apply decide_and_act_statuses |].
  split; [apply execute_upgrade_statuses |].
  exact two_requests_both_running.
Qed.

End OrchestratorClaims.

(** * Further properties of the code *)

(** ** The engine's risk score, maintenance window and pre-checks *)

Module EngineFacts.
Import Samples RuleFacts RiskPoints.

Lemma py_gt_num (x y : Q) : py_gt (JNum x) (JNum y) = Ok (negb (Qle_bool x y)).
Proof. reflexivity. Qed.

Lemma py_lt_num (x y : Q) : py_lt (JNum x) (JNum y) = Ok (negb (Qle_bool y x)).
Proof. reflexivity. Qed.

Ltac order_facts :=
  repeat match goal with
         | H : Qle_bool _ _ = true |- _ => apply Qle_bool_iff in H
         | H : Qle_bool _ _ = false |- _ => apply Qle_bool_false in H
         end.

(** The score of a snapshot of three numbers is the sum of the points of
    its metrics: the cap of 100 is never reached from above. *)
Lemma risk_score_points (router_info : jval) (cpu mem errors : Q) :
  Engine.calculate_risk_score router_info
    (summary_with (metrics_of (JNum cpu) (JNum mem) (JNum errors)))
  = Ok (cpu_points cpu + mem_points mem + error_points errors)%Z.
Proof.
  unfold Engine.calculate_risk_score.
  rewrite summary_metrics. simpl res_bind.
  rewrite metrics_of_cpu, metrics_of_mem, metrics_of_errors. simpl default.
  rewrite !py_gt_num, !py_lt_num. unfold cpu_points, mem_points, error_points.
  simpl res_bind.
  destruct (Qle_bool cpu 60) eqn:C1, (Qle_bool cpu 75) eqn:C2, (Qle_bool cpu 85) eqn:C3;
  destruct (Qle_bool 40 mem) eqn:M1, (Qle_bool 30 mem) eqn:M2, (Qle_bool 20 mem) eqn:M3;
  destruct (Qle_bool errors 0) eqn:E1, (Qle_bool errors 2) eqn:E2, (Qle_bool errors 5) eqn:E3;
  simpl; try reflexivity; order_facts; exfalso; lra.
Qed.

Lemma cpu_points_mono (x y : Q) : (x <= y)%Q -> (cpu_points x <= cpu_points y)%Z.
Proof.
  intros Hxy. unfold cpu_points.
  destruct (Qle_bool x 60) eqn:A1, (Qle_bool x 75) eqn:A2, (Qle_bool x 85) eqn:A3,
    (Qle_bool y 60) eqn:B1, (Qle_bool y 75) eqn:B2, (Qle_bool y 85) eqn:B3;
    try lia; order_facts; exfalso; lra.
Qed.

Lemma mem_points_antimono (x y : Q) : (y <= x)%Q -> (mem_points x <= mem_points y)%Z.
Proof.
  intros Hxy. unfold mem_points.
  destruct (Qle_bool 40 x) eqn:A1, (Qle_bool 30 x) eqn:A2, (Qle_bool 20 x) eqn:A3,
    (Qle_bool 40 y) eqn:B1, (Qle_bool 30 y) eqn:B2, (Qle_bool 20 y) eqn:B3;
    try lia; order_facts; exfalso; lra.
Qed.

Lemma error_points_mono (x y : Q) : (x <= y)%Q -> (error_points x <= error_points y)%Z.
Proof.
  intros Hxy. unfold error_points.
  destruct (Qle_bool x 0) eqn:A1, (Qle_bool x 2) eqn:A2, (Qle_bool x 5) eqn:A3,
    (Qle_bool y 0) eqn:B1, (Qle_bool y 2) eqn:B2, (Qle_bool y 5) eqn:B3;
    try lia; order_facts; exfalso; lra.
Qed.

Lemma contains_empty (s : string) : Engine.contains "" s = true.
Proof. destruct s; reflexivity. Qed.

End EngineFacts.

Module EngineProps.
Import Samples RuleFacts RiskPoints EngineFacts.

(** X1.  Whatever the health summary holds, a risk score that
    [calculate_risk_score] returns lies between 0 and 100. *)
Theorem risk_score_within_bounds (router_info health_summary : jval) (s : Z) :
  Engine.calculate_risk_score router_info health_summary = Ok s ->
  (0 <= s <= 100)%Z.
Proof.
  unfold Engine.calculate_risk_score.
  destruct (py_get health_summary "metrics" (JObj ∅)) as [metrics |]; [| discriminate].
  simpl res_bind.
  destruct (py_get metrics "cpu_avg" (JNum 0)) as [cpu |]; [| discriminate].
  destruct (py_get metrics "mem_free_min" (JNum 100)) as [mem |]; [| discriminate].
  destruct (py_get metrics "critical_errors" (JNum 0)) as [errors |]; [| discriminate].
  simpl res_bind.
  repeat match goal with
         | |- context [py_gt ?a ?b] =>
             destruct (py_gt a b) as [[] |]; simpl res_bind; try discriminate
         | |- context [py_lt ?a ?b] =>
             destruct (py_lt a b) as [[] |]; simpl res_bind; try discriminate
         end;
  intros [= <-]; simpl; lia.
Qed.

Lemma risk_score_within_bounds_witness : (0 <= 70 <= 100)%Z.
Proof.
  apply (risk_score_within_bounds JNull
           (summary_with (metrics_of (JNum 90) (JNum 25) (JNum 1))) 70).
  reflexivity.
Defined.

(** X2.  For a snapshot of three numbers the risk score is 0 exactly when
    CPU is at most 60, free memory at least 40 and there is no critical
    error. *)
Theorem risk_score_zero_iff (router_info : jval) (cpu mem errors : Q) :
  Engine.calculate_risk_score router_info
    (summary_with (metrics_of (JNum cpu) (JNum mem) (JNum errors))) = Ok 0%Z
  <-> (cpu <= 60 /\ 40 <= mem /\ errors <= 0)%Q.
Proof.
  rewrite risk_score_points. unfold cpu_points, mem_points, error_points.
  destruct (Qle_bool cpu 60) eqn:C1, (Qle_bool cpu 75) eqn:C2, (Qle_bool cpu 85) eqn:C3;
  destruct (Qle_bool 40 mem) eqn:M1, (Qle_bool 30 mem) eqn:M2, (Qle_bool 20 mem) eqn:M3;
  destruct (Qle_bool errors 0) eqn:E1, (Qle_bool errors 2) eqn:E2, (Qle_bool errors 5) eqn:E3;
  order_facts;
  (split; [intros Hs; first [discriminate Hs | repeat split; assumption]
          | intros (? & ? & ?); first [reflexivity | exfalso; lra]]).
Qed.

(** X3.  The risk score is monotone: more CPU load, less free memory and
    more critical errors never lower it. *)
Theorem risk_score_monotone (router_info router_info' : jval)
    (cpu cpu' mem mem' errors errors' : Q) :
  (cpu <= cpu')%Q -> (mem' <= mem)%Q -> (errors <= errors')%Q ->
  exists s s',
    Engine.calculate_risk_score router_info
      (summary_with (metrics_of (JNum cpu) (JNum mem) (JNum errors))) = Ok s
    /\ Engine.calculate_risk_score router_info'
         (summary_with (metrics_of (JNum cpu') (JNum mem') (JNum errors'))) = Ok s'
    /\ (s <= s')%Z.
Proof.
  intros Hc Hm He. rewrite !risk_score_points.
  do 2 eexists. split; [reflexivity |]. split; [reflexivity |].
  pose proof (cpu_points_mono _ _ Hc). pose proof (mem_points_antimono _ _ Hm).
  pose proof (error_points_mono _ _ He). lia.
Qed.

Lemma risk_score_monotone_witness :
  exists s s',
    Engine.calculate_risk_score JNull
      (summary_with (metrics_of (JNum 50) (JNum 60) (JNum 0))) = Ok s
    /\ Engine.calculate_risk_score JNull
         (summary_with (metrics_of (JNum 90) (JNum 25) (JNum 1))) = Ok s'
    /\ (s <= s')%Z.
Proof.
  apply (risk_score_monotone JNull JNull 50 90 60 25 0 1); discriminate.
Defined.

(** X4.  The health status of [calculate_health_status] and the risk
    score of [calculate_risk_score] agree on a snapshot of three numbers:
    a healthy device scores at most 20, one under caution between 10 and
    45, one under warning at least 25 and a critical one at least 10. *)
Theorem health_status_bounds_risk (router_info : jval) (cpu mem errors : Q) :
  exists status score,
    Influx.calculate_health_status (JNum cpu) (JNum mem) (JNum errors) = Ok status
    /\ Engine.calculate_risk_score router_info
         (summary_with (metrics_of (JNum cpu) (JNum mem) (JNum errors))) = Ok score
    /\ (status = "healthy" -> score <= 20)%Z
    /\ (status = "caution" -> 10 <= score <= 45)%Z
    /\ (status = "warning" -> 25 <= score)%Z
    /\ (status = "critical" -> 10 <= score)%Z.
Proof.
  rewrite risk_score_points.
  unfold Influx.calculate_health_status. simpl is_none. cbn [orb].
  rewrite !py_gt_num, !py_lt_num. simpl res_bind.
  unfold cpu_points, mem_points, error_points.
  destruct (Qle_bool errors 0) eqn:E1; simpl.
  2: { do 2 eexists. split; [reflexivity |]. split; [reflexivity |].
       refine (conj _ (conj _ (conj _ _))); intros Hst; try discriminate Hst;
       destruct (Qle_bool cpu 60), (Qle_bool cpu 75), (Qle_bool cpu 85),
         (Qle_bool 40 mem), (Qle_bool 30 mem), (Qle_bool 20 mem),
         (Qle_bool errors 2), (Qle_bool errors 5); lia. }
  destruct (Qle_bool cpu 80) eqn:C80, (Qle_bool 20 mem) eqn:M20; simpl;
    try destruct (Qle_bool cpu 70) eqn:C70; simpl;
    try destruct (Qle_bool 30 mem) eqn:M30; simpl;
    (do 2 eexists; split; [reflexivity |]; split; [reflexivity |]);
    refine (conj _ (conj _ (conj _ _))); intros Hst; try discriminate Hst;
    destruct (Qle_bool cpu 60) eqn:C1, (Qle_bool cpu 75) eqn:C2, (Qle_bool cpu 85) eqn:C3,
      (Qle_bool 40 mem) eqn:M1, (Qle_bool 30 mem) eqn:M2;
    try lia; order_facts; exfalso; lra.
Qed.

(** X5.  A health summary without metrics (such as the error reply of the
    telemetry tool) has risk score 0, the lowest, and yet
    [evaluate_upgrade_rules] denies it as soon as the CPU limit is below 100
    or the memory floor above 0: the two methods default a missing metric in
    opposite directions. *)
Theorem missing_metrics_score_zero_yet_denied `{Format} (POLICY : Mcp.PolicyFile)
    (router_info policy summary : gmap string jval) (max_cpu min_mem : Q) :
  summary !! "metrics" = None ->
  default (JNum (Mcp.defaults_max_cpu_percent POLICY))
          (policy !! "max_cpu_percent") = JNum max_cpu ->
  default (JNum (Mcp.defaults_min_free_mem_percent POLICY))
          (policy !! "min_free_mem_percent") = JNum min_mem ->
  (max_cpu < 100 \/ 0 < min_mem)%Q ->
  Engine.calculate_risk_score (JObj router_info) (JObj summary) = Ok 0%Z
  /\ exists d,
       Mcp.evaluate_upgrade_rules POLICY (JObj router_info) (JObj policy)
         (JObj summary) = Ok d
       /\ Mcp.approve d = JBool false.
Proof.
  intros Hm Hcpu Hmem Hlim. split.
  - unfold Engine.calculate_risk_score. simpl. rewrite Hm. reflexivity.
  - unfold Mcp.evaluate_upgrade_rules. simpl py_get. rewrite Hm, Hcpu, Hmem.
    simpl.
    destruct (truthy (default JNull (router_info !! "target_ver"))); simpl;
      (eexists; split; [reflexivity |]); simpl;
      destruct (Qle_bool 100 max_cpu) eqn:C, (Qle_bool min_mem 0) eqn:M;
      simpl; try reflexivity; order_facts; exfalso; destruct Hlim; lra.
Qed.

Lemma missing_metrics_score_zero_yet_denied_witness :
  Engine.calculate_risk_score (JObj R1) (JObj {[ "error" := JStr "InfluxDB query failed" ]})
  = Ok 0%Z
  /\ exists d,
       Mcp.evaluate_upgrade_rules (H := plain) (engine_policy 75 25 false) (JObj R1) (JObj ∅)
         (JObj {[ "error" := JStr "InfluxDB query failed" ]}) = Ok d
       /\ Mcp.approve d = JBool false.
Proof.
  apply (missing_metrics_score_zero_yet_denied (H := plain) (engine_policy 75 25 false)
           R1 ∅ {[ "error" := JStr "InfluxDB query failed" ]} 75 25).
  - reflexivity.
  - reflexivity.
  - reflexivity.
  - left. reflexivity.
Defined.

Section Window.
Context `{Engine.Unicode} (POLICY : Engine.PolicyFile).

(** X6.  A maintenance window whose end hour is below its start hour
    (one that crosses midnight) admits no time at all:
    [check_maintenance_window] never returns [True] for it. *)
Theorem window_across_midnight_never_opens (now : Engine.datetime)
    (router_info : jval) (start_hour end_hour : Q) :
  Engine.policy_upgrade_window POLICY !! "start_hour"
    = Some (Engine.YScalar (JNum start_hour)) ->
  Engine.policy_upgrade_window POLICY !! "end_hour"
    = Some (Engine.YScalar (JNum end_hour)) ->
  (end_hour < start_hour)%Q ->
  Engine.check_maintenance_window POLICY now router_info <> Ok true.
Proof.
  intros Hs He Hlt. unfold Engine.check_maintenance_window. cbv zeta.
  rewrite Hs, He. simpl default.
  destruct (bool_decide _) eqn:Hempty.
  { apply bool_decide_eq_true in Hempty. rewrite Hempty in Hs.
    rewrite lookup_empty in Hs. discriminate. }
  destruct (Engine.py_iter _) as [days |]; [| discriminate]. simpl res_bind.
  destruct (Engine.lower_all _) as [allowed |]; [| discriminate].
  simpl.
  destruct (Qle_bool start_hour _) eqn:A; simpl; [| discriminate].
  destruct (Qle_bool _ end_hour) eqn:B; simpl; [| discriminate].
  order_facts. exfalso. lra.
Qed.

(** X7.  A router record without a model matches every model key: for a
    known vendor [get_vendor_requirements] returns the configuration of the
    vendor's first model. *)
Theorem router_without_model_gets_first_model_config
    (router_info : gmap string jval) (vendor model_key : string)
    (vps : gmap string (list (string * jval))) (cfg : jval)
    (rest : list (string * jval)) :
  Engine.str_lower "" = "" ->
  router_info !! "vendor" = Some (JStr vendor) ->
  router_info !! "model" = None ->
  Engine.vendor_policies POLICY = Some vps ->
  vps !! Engine.str_lower vendor = Some ((model_key, cfg) :: rest) ->
  Engine.get_vendor_requirements POLICY (JObj router_info) = Ok cfg.
Proof.
  intros Hl Hv Hm Hp Hk. unfold Engine.get_vendor_requirements.
  simpl py_get. rewrite Hv, Hm. simpl. rewrite Hp. simpl. rewrite Hk.
  simpl. rewrite !Hl, contains_empty, orb_true_r. reflexivity.
Qed.

(** X8.  [generate_pre_checks] returns every base check of the policy
    and, beyond them, at most the three vendor checks; without vendor
    policies it returns exactly the base checks. *)
Theorem pre_checks_extend_base_checks (router_info : jval) (cs : gset string) :
  Engine.generate_pre_checks POLICY router_info = Ok cs ->
  (forall c, c ∈ Engine.policy_pre_checks POLICY -> c ∈ cs)
  /\ (forall c, c ∈ cs ->
        c ∈ Engine.policy_pre_checks POLICY
        \/ c ∈ ["firmware_compatibility_check"; "memory_requirements_check";
                "bootflash_space_check"])
  /\ (Engine.vendor_policies POLICY = None ->
      cs = list_to_set (Engine.policy_pre_checks POLICY)).
Proof.
  unfold Engine.generate_pre_checks. cbv zeta.
  destruct (Engine.get_vendor_requirements POLICY router_info) as [vr |] eqn:Hvr;
    [| discriminate]. simpl res_bind.
  destruct (py_get vr "compatibility_check" JNull) as [c1 |] eqn:H1; [| discriminate].
  simpl res_bind.
  destruct (py_get vr "minimum_memory_mb" JNull) as [c2 |] eqn:H2; [| discriminate].
  simpl res_bind.
  destruct (py_get vr "bootflash_requirement_mb" JNull) as [c3 |] eqn:H3; [| discriminate].
  simpl res_bind. intros [= <-].
  split; [| split].
  - intros c Hc. apply elem_of_list_to_set.
    destruct (truthy c1), (truthy c2), (truthy c3);
      rewrite ?elem_of_app; tauto.
  - intros c Hc. apply elem_of_list_to_set in Hc.
    rewrite !elem_of_cons.
    destruct (truthy c1), (truthy c2), (truthy c3);
      repeat rewrite elem_of_app in Hc;
      repeat rewrite elem_of_cons in Hc; tauto.
  - intros Hnone. unfold Engine.get_vendor_requirements in Hvr.
    rewrite Hnone in Hvr. simpl in Hvr.
    destruct (py_get router_info "vendor" (JStr "")) as [v |]; [| discriminate].
    simpl in Hvr. destruct (Engine.py_lower v) as [vendor |]; [| discriminate].
    simpl in Hvr. destruct (py_get router_info "model" (JStr "")) as [m |]; [| discriminate].
    simpl in Hvr. destruct (Engine.py_lower m) as [model |]; [| discriminate].
    simpl in Hvr. rewrite lookup_empty in Hvr. injection Hvr as <-.
    simpl in H1, H2, H3. rewrite lookup_empty in H1, H2, H3. simpl in *.
    injection H1 as <-. injection H2 as <-. injection H3 as <-. reflexivity.
Qed.
End Window.

Lemma window_across_midnight_never_opens_witness :
  Engine.check_maintenance_window (H := AsciiText.text) EngineSamples.night_policy
    EngineSamples.monday_23h JNull <> Ok true.
Proof.
  apply (window_across_midnight_never_opens (H := AsciiText.text)
           EngineSamples.night_policy EngineSamples.monday_23h JNull 22 6).
  - reflexivity.
  - reflexivity.
  - reflexivity.
Defined.

Lemma router_without_model_gets_first_model_config_witness :
  Engine.get_vendor_requirements (H := AsciiText.text) EngineSamples.night_policy
    (JObj {[ "vendor" := JStr "Cisco" ]})
  = Ok (JObj {[ "compatibility_check" := JBool true ]}).
Proof.
  apply (router_without_model_gets_first_model_config (H := AsciiText.text)
           EngineSamples.night_policy {[ "vendor" := JStr "Cisco" ]} "Cisco" "isr4331"
           {[ "cisco" :=
                [ ("isr4331", JObj {[ "compatibility_check" := JBool true ]});
                  ("asr1001", JObj {[ "minimum_memory_mb" := JNum 4096 ]}) ] ]}
           (JObj {[ "compatibility_check" := JBool true ]})
           [ ("asr1001", JObj {[ "minimum_memory_mb" := JNum 4096 ]}) ]).
  - reflexivity.
  - reflexivity.
  - reflexivity.
  - reflexivity.
  - reflexivity.
Defined.

Lemma pre_checks_extend_base_checks_witness :
  "backup_config" ∈ ({[ "backup_config"; "firmware_compatibility_check" ]} : gset string).
Proof.
  assert (Hrun : Engine.generate_pre_checks (H := AsciiText.text)
                   EngineSamples.night_policy (JObj R1)
                 = Ok {[ "backup_config"; "firmware_compatibility_check" ]}).
  { vm_compute. reflexivity. }
  destruct (pre_checks_extend_base_checks (H := AsciiText.text)
              EngineSamples.night_policy (JObj R1) _ Hrun) as (Hbase & _).
  apply Hbase. apply elem_of_cons. now left.
Defined.

End EngineProps.

(** ** The database behind the tool servers *)

Module StoreFacts.
Import World Store.

Lemma updated_refl (row : Db.upgrade_row) : updated row row.
Proof. unfold updated. repeat split; reflexivity. Qed.

Lemma updated_trans (r1 r2 r3 : Db.upgrade_row) :
  updated r1 r2 -> updated r2 r3 -> updated r1 r3.
Proof.
  unfold updated. intros (A1 & A2 & A3 & A4 & A5 & A6) (B1 & B2 & B3 & B4 & B5 & B6).
  repeat split; try congruence. now transitivity (Db.u_history r2).
Qed.

Lemma updated_set_status (status : string) (row : Db.upgrade_row) :
  updated row (Db.set_status status row).
Proof.
  unfold updated. simpl. repeat split. now apply prefix_app_r.
Qed.

Lemma continues_refl (t : Db.tables) : continues t t.
Proof.
  unfold continues. repeat split; try reflexivity.
  intros id row Hl. exists row. split; [exact Hl | apply updated_refl].
Qed.

Lemma continues_trans (t1 t2 t3 : Db.tables) :
  continues t1 t2 -> continues t2 t3 -> continues t1 t3.
Proof.
  intros (A1 & A2 & A3 & A4 & A5) (B1 & B2 & B3 & B4 & B5).
  unfold continues. repeat split; try congruence.
  - intros id row Hl. destruct (A3 id row Hl) as (row2 & H2 & U2).
    destruct (B3 id row2 H2) as (row3 & H3 & U3).
    exists row3. split; [exact H3 | now apply updated_trans with row2].
  - now transitivity (Db.audit_events t2).
  - lia.
Qed.

Lemma update_status_continues (id : Z) (status : string) (details : jval)
    (t : Db.tables) :
  continues t (Db.update_status id status details t).
Proof.
  unfold Db.update_status. destruct (Db.upgrades t !! id) as [row |] eqn:E;
    [| apply continues_refl].
  unfold continues. simpl. repeat split; try reflexivity.
  - intros id' row' Hl. destruct (decide (id' = id)) as [-> | Hne].
    + rewrite lookup_insert_eq. eexists. split; [reflexivity |].
      assert (row' = row) as -> by congruence. apply updated_set_status.
    + rewrite lookup_insert_ne by congruence. exists row'.
      split; [exact Hl | apply updated_refl].
  - now apply prefix_app_r.
Qed.

Lemma insert_upgrade_continues (router_id by_whom decision : string)
    (reason target_ver : jval) (t : Db.tables) :
  continues t (snd (Db.insert_upgrade router_id by_whom decision reason target_ver t)).
Proof.
  unfold Db.insert_upgrade.
  destruct (bool_decide (is_Some (Db.routers t !! router_id))); simpl.
  2: { unfold continues. simpl. repeat split; try reflexivity; [| lia].
       intros id row Hl. exists row. split; [exact Hl | apply updated_refl]. }
  destruct (String.eqb decision "approve" || String.eqb decision "deny"); simpl.
  2: { unfold continues. simpl. repeat split; try reflexivity; [| lia].
       intros id row Hl. exists row. split; [exact Hl | apply updated_refl]. }
  destruct (bool_decide (Db.upgrades t !! Db.upgrades_id_seq t = None)) eqn:E; simpl.
  2: { unfold continues. simpl. repeat split; try reflexivity; [| lia].
       intros id row Hl. exists row. split; [exact Hl | apply updated_refl]. }
  apply bool_decide_eq_true in E.
  unfold continues. simpl. repeat split; try reflexivity; [| lia].
  intros id row Hl. exists row. split; [| apply updated_refl].
  rewrite lookup_insert_ne; [exact Hl |]. intros <-. congruence.
Qed.

Lemma update_status_ids (id : Z) (status : string) (details : jval) (t : Db.tables) :
  ids_below_seq t -> ids_below_seq (Db.update_status id status details t).
Proof.
  intros Hi. unfold Db.update_status.
  destruct (Db.upgrades t !! id) as [row |] eqn:E; [| exact Hi].
  intros id' row'. simpl. destruct (decide (id' = id)) as [-> | Hne].
  - intros _. now apply (Hi id row).
  - rewrite lookup_insert_ne by congruence. apply Hi.
Qed.

Lemma insert_upgrade_ids (router_id by_whom decision : string)
    (reason target_ver : jval) (t : Db.tables) :
  ids_below_seq t ->
  ids_below_seq (snd (Db.insert_upgrade router_id by_whom decision reason target_ver t)).
Proof.
  intros Hi. unfold Db.insert_upgrade.
  assert (Hskip : ids_below_seq
            {| Db.routers := Db.routers t; Db.upgrade_policies := Db.upgrade_policies t;
               Db.upgrades := Db.upgrades t;
               Db.upgrades_id_seq := (Db.upgrades_id_seq t + 1)%Z;
               Db.audit_events := Db.audit_events t |}).
  { intros id row Hl. simpl in *. specialize (Hi id row Hl). lia. }
  destruct (_ && _); simpl; [| exact Hskip].
  intros id row. simpl. destruct (decide (id = Db.upgrades_id_seq t)) as [-> | Hne].
  - intros _. lia.
  - rewrite lookup_insert_ne by congruence. intros Hl. specialize (Hi id row Hl). lia.
Qed.

(** Under the invariant an INSERT with a known router and a valid decision
    is accepted, with the sequence's value as id. *)
Lemma insert_upgrade_accepted (router_id by_whom decision : string)
    (reason target_ver : jval) (t : Db.tables) :
  ids_below_seq t ->
  is_Some (Db.routers t !! router_id) ->
  decision = "approve" \/ decision = "deny" ->
  fst (Db.insert_upgrade router_id by_whom decision reason target_ver t)
  = Some (Db.upgrades_id_seq t).
Proof.
  intros Hi Hr Hd. unfold Db.insert_upgrade.
  rewrite (bool_decide_eq_true_2 _ Hr).
  assert (Hdec : String.eqb decision "approve" || String.eqb decision "deny" = true).
  { destruct Hd as [-> | ->]; reflexivity. }
  rewrite Hdec.
  assert (Hfresh : Db.upgrades t !! Db.upgrades_id_seq t = None).
  { destruct (Db.upgrades t !! Db.upgrades_id_seq t) as [row |] eqn:E; [| reflexivity].
    specialize (Hi _ _ E). lia. }
  rewrite (bool_decide_eq_true_2 _ Hfresh). reflexivity.
Qed.

End StoreFacts.

Module StoreSteps.
Import World Store StoreFacts.

Lemma every_call_true {call : Type} {reply : call -> Type} {A : Type}
    (p : Eff.prog call reply A) : every_call (fun _ => True) p.
Proof. induction p as [a | e | c k IH]; simpl; auto. Qed.

(** What a world keeps from an earlier one. *)
Lemma grown_refl (w : world) :
  continues (db w) (db w) /\ playbook_runs w `prefix_of` playbook_runs w.
Proof. split; [apply continues_refl | reflexivity]. Qed.

Section Servers.
Context `{Format}.

Lemma endpoint_grows (env : LegacyWorld.Env) (r : Legacy.request) (w : world) :
  continues (db w) (db (snd (LegacyWorld.endpoint env r w)))
  /\ playbook_runs w `prefix_of` playbook_runs (snd (LegacyWorld.endpoint env r w)).
Proof.
  destruct r as [rid | rid | rid win | rid win | rid win | rid dec rs tv
                | uid st inf | rid tv chk]; simpl.
  - destruct (Db.routers (db w) !! rid); apply grown_refl.
  - destruct (Db.select_policy rid (db w)); apply grown_refl.
  - destruct (influx_query env (clock w) "cpu" rid win); apply grown_refl.
  - destruct (influx_query env (clock w) "mem" rid win); apply grown_refl.
  - destruct (influx_query env (clock w) "errors" rid win); apply grown_refl.
  - destruct (LegacyWorld.as_str rs); [| apply grown_refl].
    destruct (LegacyWorld.as_opt_str tv); [| apply grown_refl].
    destruct (negb _); [apply grown_refl |].
    pose proof (insert_upgrade_continues rid "agentx" dec (JStr s) j (db w)) as Hc.
    destruct (Db.insert_upgrade _ _ _ _ _ _) as [[id |] t]; simpl in *;
      (split; [exact Hc | reflexivity]).
  - destruct (LegacyWorld.as_int uid); [| apply grown_refl].
    destruct (LegacyWorld.as_opt_dict inf); [| apply grown_refl].
    simpl. split; [apply update_status_continues | reflexivity].
  - destruct (LegacyWorld.as_str tv); [| apply grown_refl].
    destruct (ansible_playbook env (clock w) rid (JStr s) chk) as [[[rc out] err] |];
      [destruct (negb _) |]; simpl;
      (split; [apply continues_refl | now apply prefix_app_r]).
Qed.

Lemma legacy_handle_grows (env : LegacyWorld.Env) (c : Legacy.call) (w : world) :
  continues (db w) (db (snd (LegacyWorld.handle env c w)))
  /\ playbook_runs w `prefix_of` playbook_runs (snd (LegacyWorld.handle env c w)).
Proof.
  destruct c as [r | m p]; simpl; [| apply grown_refl].
  pose proof (endpoint_grows env r w) as Hs.
  destruct (network env (clock w)); simpl; try apply grown_refl;
    destruct (LegacyWorld.endpoint env r w) as [resp w1]; exact Hs.
Qed.

Lemma serve_grows (env : McpWorld.Env) (t : Mcp.tool_call) (w : world) :
  continues (db w) (db (snd (McpWorld.serve env t w)))
  /\ playbook_runs w `prefix_of` playbook_runs (snd (McpWorld.serve env t w)).
Proof.
  destruct t as [rid | rid | rid win | rid dec rs tv | uid st inf | rid tv chk]; simpl.
  - destruct (String.eqb rid ""); [apply grown_refl |].
    destruct (Db.routers (db w) !! rid); apply grown_refl.
  - destruct (String.eqb rid ""); [apply grown_refl |].
    destruct (Db.select_policy rid (db w)); apply grown_refl.
  - destruct (McpWorld.get_health_summary env rid win w); apply grown_refl.
  - destruct (negb _); [apply grown_refl |].
    destruct (negb _); [apply grown_refl |].
    pose proof (insert_upgrade_continues rid "mcp-agent" dec rs tv (db w)) as Hc.
    destruct (Db.insert_upgrade _ _ _ _ _ _) as [[id |] t]; simpl in *;
      (split; [exact Hc | reflexivity]).
  - destruct (_ || _); [apply grown_refl |].
    destruct (McpWorld.row_id uid); [| apply grown_refl].
    simpl. split; [apply update_status_continues | reflexivity].
  - destruct (_ || _); [apply grown_refl |].
    destruct (ansible_playbook env (clock w) rid tv chk) as [[[rc out] err] |];
      simpl; (split; [apply continues_refl | now apply prefix_app_r]).
Qed.

Lemma mcp_handle_grows (env : McpWorld.Env) (c : Mcp.call) (w : world) :
  continues (db w) (db (snd (McpWorld.handle env c w)))
  /\ playbook_runs w `prefix_of` playbook_runs (snd (McpWorld.handle env c w)).
Proof.
  destruct c as [t | m p]; simpl; [| apply grown_refl].
  pose proof (serve_grows env t w) as Hs.
  destruct (network env (clock w)); simpl; try apply grown_refl;
    destruct (McpWorld.serve env t w) as [resp w1]; exact Hs.
Qed.

Lemma endpoint_ids (env : LegacyWorld.Env) (r : Legacy.request) (w : world) :
  ids_below_seq (db w) -> ids_below_seq (db (snd (LegacyWorld.endpoint env r w))).
Proof.
  intros Hi.
  destruct r as [rid | rid | rid win | rid win | rid win | rid dec rs tv
                | uid st inf | rid tv chk]; simpl.
  - destruct (Db.routers (db w) !! rid); exact Hi.
  - destruct (Db.select_policy rid (db w)); exact Hi.
  - destruct (influx_query env (clock w) "cpu" rid win); exact Hi.
  - destruct (influx_query env (clock w) "mem" rid win); exact Hi.
  - destruct (influx_query env (clock w) "errors" rid win); exact Hi.
  - destruct (LegacyWorld.as_str rs); [| exact Hi].
    destruct (LegacyWorld.as_opt_str tv); [| exact Hi].
    destruct (negb _); [exact Hi |].
    pose proof (insert_upgrade_ids rid "agentx" dec (JStr s) j (db w) Hi) as Hc.
    destruct (Db.insert_upgrade _ _ _ _ _ _) as [[id |] t]; exact Hc.
  - destruct (LegacyWorld.as_int uid); [| exact Hi].
    destruct (LegacyWorld.as_opt_dict inf); [| exact Hi].
    simpl. now apply update_status_ids.
  - destruct (LegacyWorld.as_str tv); [| exact Hi].
    destruct (ansible_playbook env (clock w) rid (JStr s) chk) as [[[rc out] err] |];
      [destruct (negb _) |]; exact Hi.
Qed.

Lemma legacy_handle_ids (env : LegacyWorld.Env) (c : Legacy.call) (w : world) :
  ids_below_seq (db w) -> ids_below_seq (db (snd (LegacyWorld.handle env c w))).
Proof.
  intros Hi. destruct c as [r | m p]; simpl; [| exact Hi].
  pose proof (endpoint_ids env r w Hi) as Hs.
  destruct (network env (clock w)); simpl; try exact Hi;
    destruct (LegacyWorld.endpoint env r w) as [resp w1]; exact Hs.
Qed.

Lemma serve_ids (env : McpWorld.Env) (t : Mcp.tool_call) (w : world) :
  ids_below_seq (db w) -> ids_below_seq (db (snd (McpWorld.serve env t w))).
Proof.
  intros Hi.
  destruct t as [rid | rid | rid win | rid dec rs tv | uid st inf | rid tv chk]; simpl.
  - destruct (String.eqb rid ""); [exact Hi |].
    destruct (Db.routers (db w) !! rid); exact Hi.
  - destruct (String.eqb rid ""); [exact Hi |].
    destruct (Db.select_policy rid (db w)); exact Hi.
  - destruct (McpWorld.get_health_summary env rid win w); exact Hi.
  - destruct (negb _); [exact Hi |].
    destruct (negb _); [exact Hi |].
    pose proof (insert_upgrade_ids rid "mcp-agent" dec rs tv (db w) Hi) as Hc.
    destruct (Db.insert_upgrade _ _ _ _ _ _) as [[id |] t]; exact Hc.
  - destruct (_ || _); [exact Hi |].
    destruct (McpWorld.row_id uid); [| exact Hi].
    simpl. now apply update_status_ids.
  - destruct (_ || _); [exact Hi |].
    destruct (ansible_playbook env (clock w) rid tv chk) as [[[rc out] err] |];
      exact Hi.
Qed.

Lemma mcp_handle_ids (env : McpWorld.Env) (c : Mcp.call) (w : world) :
  ids_below_seq (db w) -> ids_below_seq (db (snd (McpWorld.handle env c w))).
Proof.
  intros Hi. destruct c as [t | m p]; simpl; [| exact Hi].
  pose proof (serve_ids env t w Hi) as Hs.
  destruct (network env (clock w)); simpl; try exact Hi;
    destruct (McpWorld.serve env t w) as [resp w1]; exact Hs.
Qed.

End Servers.
End StoreSteps.

Module StoreProps.
Import World Store StoreFacts StoreSteps Samples.

(** X9.  Whatever a client of the tool servers does, the database only
    grows: the inventory and the policies are never changed, no upgrade
    record is removed or changed but for its status, the audit trail and
    the list of playbook runs are only appended to. *)
Theorem store_only_grows `{Format} (envL : LegacyWorld.Env) (envM : McpWorld.Env)
    (A B : Type) (p : Legacy.prog A) (q : Mcp.prog B) (w : world) :
  (continues (db w) (db (snd (run (LegacyWorld.handle envL) p w)))
   /\ playbook_runs w `prefix_of`
        playbook_runs (snd (run (LegacyWorld.handle envL) p w)))
  /\ (continues (db w) (db (snd (run (McpWorld.handle envM) q w)))
      /\ playbook_runs w `prefix_of`
           playbook_runs (snd (run (McpWorld.handle envM) q w))).
Proof.
  split.
  - apply (run_preserves (LegacyWorld.handle envL)
             (fun x => continues (db w) (db x)
                       /\ playbook_runs w `prefix_of` playbook_runs x)
             (fun _ => True)).
    + intros c x _ (Hc & Hp). destruct (legacy_handle_grows envL c x) as (Hc' & Hp').
      split; [now apply continues_trans with (db x) | now transitivity (playbook_runs x)].
    + apply every_call_true.
    + apply grown_refl.
  - apply (run_preserves (McpWorld.handle envM)
             (fun x => continues (db w) (db x)
                       /\ playbook_runs w `prefix_of` playbook_runs x)
             (fun _ => True)).
    + intros c x _ (Hc & Hp). destruct (mcp_handle_grows envM c x) as (Hc' & Hp').
      split; [now apply continues_trans with (db x) | now transitivity (playbook_runs x)].
    + apply every_call_true.
    + apply grown_refl.
Qed.

(** X10.  When every upgrade id in use is below the id sequence, this
    stays so after any run against either set of servers: the id an INSERT
    draws is never taken. *)
Theorem upgrade_ids_stay_fresh `{Format} (envL : LegacyWorld.Env) (envM : McpWorld.Env)
    (A B : Type) (p : Legacy.prog A) (q : Mcp.prog B) (w : world) :
  ids_below_seq (db w) ->
  ids_below_seq (db (snd (run (LegacyWorld.handle envL) p w)))
  /\ ids_below_seq (db (snd (run (McpWorld.handle envM) q w))).
Proof.
  intros Hi. split.
  - apply (run_preserves (LegacyWorld.handle envL)
             (fun x => ids_below_seq (db x)) (fun _ => True));
      [| apply every_call_true | exact Hi].
    intros c x _ Hx. now apply legacy_handle_ids.
  - apply (run_preserves (McpWorld.handle envM)
             (fun x => ids_below_seq (db x)) (fun _ => True));
      [| apply every_call_true | exact Hi].
    intros c x _ Hx. now apply mcp_handle_ids.
Qed.

End StoreProps.

Module ServerProps.
Import World Store StoreFacts StoreSteps Samples Attempt.

Lemma insert_upgrade_result (router_id by_whom decision : string)
    (reason target_ver : jval) (t : Db.tables) :
  ids_below_seq t ->
  is_Some (Db.routers t !! router_id) ->
  decision = "approve" \/ decision = "deny" ->
  exists t',
    Db.insert_upgrade router_id by_whom decision reason target_ver t
    = (Some (Db.upgrades_id_seq t), t')
    /\ Db.upgrades t' =
         <[ Db.upgrades_id_seq t :=
              {| Db.u_router_id := router_id; Db.u_requested_by := by_whom;
                 Db.u_decision := decision; Db.u_reason := reason;
                 Db.u_status := Db.default_status;
                 Db.u_target_ver := target_ver; Db.u_history := nil |} ]>
           (Db.upgrades t)
    /\ Db.audit_events t' = Db.audit_events t.
Proof.
  intros Hi Hr Hd.
  pose proof (insert_upgrade_accepted router_id by_whom decision reason target_ver t
                Hi Hr Hd) as Hacc.
  pose proof (AttemptFacts.insert_upgrade_cases router_id by_whom decision reason
                target_ver t) as Hc.
  destruct (Db.insert_upgrade _ _ _ _ _ _) as [o t']. simpl in Hacc. subst o.
  exists t'. split; [reflexivity |]. destruct Hc as (_ & Hu & Ha). now split.
Qed.

Section Servers.
Context `{Format}.

(** X11.  Record, then update, then look up, on the HTTP servers: a
    decision recorded for a known router gets the next id of the sequence,
    and a status update with that id sets the status of exactly that record
    and appends exactly one audit event, for the record's router. *)
Theorem recorded_decision_takes_status_updates (env : LegacyWorld.Env) (w : world)
    (router_id decision reason status : string) (target_ver details : jval)
    (info : option jval) :
  ids_below_seq (db w) ->
  is_Some (Db.routers (db w) !! router_id) ->
  decision = "approve" \/ decision = "deny" ->
  LegacyWorld.as_opt_str target_ver = Some target_ver ->
  LegacyWorld.as_opt_dict info = Some details ->
  let id := Db.upgrades_id_seq (db w) in
  let recorded :=
    LegacyWorld.endpoint env
      (Legacy.record_decision router_id decision (JStr reason) target_ver) w in
  let updated :=
    LegacyWorld.endpoint env
      (Legacy.update_upgrade_status (JNum (inject_Z id)) status info) (snd recorded) in
  fst recorded
  = LegacyWorld.json_response 200 (JObj {[ "upgrade_id" := JNum (inject_Z id) ]})
  /\ fst updated = LegacyWorld.json_response 200 (JObj {[ "ok" := JBool true ]})
  /\ Db.upgrades (db (snd updated)) !! id
     = Some {| Db.u_router_id := router_id; Db.u_requested_by := "agentx";
               Db.u_decision := decision; Db.u_reason := JStr reason;
               Db.u_status := status; Db.u_target_ver := target_ver;
               Db.u_history := [status] |}
  /\ (forall id', id' <> id ->
        Db.upgrades (db (snd updated)) !! id' = Db.upgrades (db w) !! id')
  /\ Db.audit_events (db (snd updated))
     = (Db.audit_events (db w) ++ [status_event router_id status details])%list.
Proof.
  intros Hi Hr Hd Htv Hinfo id recorded updated.
  destruct (insert_upgrade_result router_id "agentx" decision (JStr reason) target_ver
              (db w) Hi Hr Hd) as (t' & Hins & Hup & Hev).
  assert (Hdec : negb (String.eqb decision "approve" || String.eqb decision "deny") = false).
  { destruct Hd as [-> | ->]; reflexivity. }
  assert (Hrec : recorded
                 = (LegacyWorld.json_response 200
                      (JObj {[ "upgrade_id" := JNum (inject_Z id) ]}), with_db t' w)).
  { unfold recorded. simpl. rewrite Htv, Hdec, Hins. reflexivity. }
  assert (Hupd : updated
                 = (LegacyWorld.json_response 200 (JObj {[ "ok" := JBool true ]}),
                    with_db (Db.update_status id status details t') (with_db t' w))).
  { unfold updated. rewrite Hrec. simpl snd. unfold LegacyWorld.endpoint.
    rewrite LegacyRun.as_int_inject, Hinfo. reflexivity. }
  rewrite Hrec, Hupd. simpl fst. simpl snd. simpl db.
  split; [reflexivity |]. split; [reflexivity |].
  unfold Db.update_status. rewrite Hup, lookup_insert_eq. simpl.
  rewrite lookup_insert_eq. split; [reflexivity |]. split.
  - intros id' Hne. unfold id in *. now rewrite !lookup_insert_ne by congruence.
  - now rewrite Hev.
Qed.

(** X12.  The same round trip on the MCP postgres server, which asks
    for more: a router id, a status and a reason that are not empty, and
    an id other than 0. *)
Theorem mcp_recorded_decision_takes_status_updates (env : McpWorld.Env) (w : world)
    (router_id decision status : string) (reason target_ver : jval)
    (info : option jval) :
  ids_below_seq (db w) ->
  is_Some (Db.routers (db w) !! router_id) ->
  decision = "approve" \/ decision = "deny" ->
  router_id <> "" -> status <> "" -> truthy reason = true ->
  McpWorld.adaptable reason = true -> McpWorld.adaptable target_ver = true ->
  Db.upgrades_id_seq (db w) <> 0%Z ->
  let id := Db.upgrades_id_seq (db w) in
  let recorded :=
    McpWorld.serve env (Mcp.pg_record_decision router_id decision reason target_ver) w in
  let updated :=
    McpWorld.serve env
      (Mcp.pg_update_upgrade_status (JNum (inject_Z id)) status info) (snd recorded) in
  fst recorded = McpWorld.respond (JObj {[ "upgrade_id" := JNum (inject_Z id) ]})
  /\ fst updated = McpWorld.respond (JObj {[ "success" := JBool true ]})
  /\ Db.upgrades (db (snd updated)) !! id
     = Some {| Db.u_router_id := router_id; Db.u_requested_by := "mcp-agent";
               Db.u_decision := decision; Db.u_reason := reason;
               Db.u_status := status; Db.u_target_ver := target_ver;
               Db.u_history := [status] |}
  /\ (forall id', id' <> id ->
        Db.upgrades (db (snd updated)) !! id' = Db.upgrades (db w) !! id')
  /\ Db.audit_events (db (snd updated))
     = (Db.audit_events (db w)
        ++ [status_event router_id status (default (JObj ∅) info)])%list.
Proof.
  intros Hi Hr Hd Hrid Hst Hreason Har Hat Hz id recorded updated.
  destruct (insert_upgrade_result router_id "mcp-agent" decision reason target_ver
              (db w) Hi Hr Hd) as (t' & Hins & Hup & Hev).
  assert (Erid : String.eqb router_id "" = false) by now apply String.eqb_neq.
  assert (Est : String.eqb status "" = false) by now apply String.eqb_neq.
  assert (Edec : String.eqb decision "" = false).
  { destruct Hd as [-> | ->]; reflexivity. }
  assert (Hrec : recorded
                 = (McpWorld.respond (JObj {[ "upgrade_id" := JNum (inject_Z id) ]}),
                    with_db t' w)).
  { unfold recorded. simpl. rewrite Erid, Edec, Hreason, Har, Hat. simpl.
    rewrite Hins. reflexivity. }
  assert (Hid : truthy (JNum (inject_Z id)) = true).
  { simpl. apply negb_true_iff. destruct (Qeq_bool (inject_Z id) 0) eqn:E; [| reflexivity].
    apply Qeq_bool_iff in E. unfold Qeq in E. simpl in E. exfalso. apply Hz.
    unfold id in E. lia. }
  assert (Hupd : updated
                 = (McpWorld.respond (JObj {[ "success" := JBool true ]}),
                    with_db (Db.update_status id status (default (JObj ∅) info) t')
                      (with_db t' w))).
  { unfold updated. rewrite Hrec. simpl snd. unfold McpWorld.serve.
    rewrite Hid, Est, McpCalls.row_id_inject. reflexivity. }
  rewrite Hrec, Hupd. simpl fst. simpl snd. simpl db.
  split; [reflexivity |]. split; [reflexivity |].
  unfold Db.update_status. rewrite Hup, lookup_insert_eq. simpl.
  rewrite lookup_insert_eq. split; [reflexivity |]. split.
  - intros id' Hne. unfold id in *. now rewrite !lookup_insert_ne by congruence.
  - now rewrite Hev.
Qed.

(** X13.  A status update for an id that no upgrade record has is
    answered as a success by both servers and changes nothing: no record,
    no audit event. *)
Theorem status_update_of_unknown_id_is_silent (envL : LegacyWorld.Env)
    (envM : McpWorld.Env) (w : world) (id : Z) (status : string)
    (info : option jval) :
  Db.upgrades (db w) !! id = None ->
  (forall details,
     LegacyWorld.as_opt_dict info = Some details ->
     let r := LegacyWorld.endpoint envL
                (Legacy.update_upgrade_status (JNum (inject_Z id)) status info) w in
     fst r = LegacyWorld.json_response 200 (JObj {[ "ok" := JBool true ]})
     /\ db (snd r) = db w /\ playbook_runs (snd r) = playbook_runs w)
  /\ (id <> 0%Z -> status <> "" ->
      let r := McpWorld.serve envM
                 (Mcp.pg_update_upgrade_status (JNum (inject_Z id)) status info) w in
      fst r = McpWorld.respond (JObj {[ "success" := JBool true ]})
      /\ db (snd r) = db w /\ playbook_runs (snd r) = playbook_runs w).
Proof.
  intros Hnone. split.
  - intros details Hinfo r. unfold r, LegacyWorld.endpoint.
    rewrite LegacyRun.as_int_inject, Hinfo. simpl.
    unfold Db.update_status. rewrite Hnone. repeat split.
  - intros Hz Hst r.
    assert (Est : String.eqb status "" = false) by now apply String.eqb_neq.
    assert (Hid : truthy (JNum (inject_Z id)) = true).
    { simpl. apply negb_true_iff.
      destruct (Qeq_bool (inject_Z id) 0) eqn:E; [| reflexivity].
      apply Qeq_bool_iff in E. unfold Qeq in E. simpl in E. exfalso. apply Hz. lia. }
    unfold r, McpWorld.serve. rewrite Hid, Est, McpCalls.row_id_inject. simpl.
    unfold Db.update_status. rewrite Hnone. repeat split.
Qed.

(** X14.  [get_policy] always answers 200: with a policy row for the
    router's vendor and model, or with [null], and with [null] only when the
    router is unknown or no policy row matches it. *)
Theorem get_policy_answers_with_a_matching_policy (env : LegacyWorld.Env) (w : world)
    (router_id : string) :
  exists v,
    LegacyWorld.endpoint env (Legacy.get_policy router_id) w
    = (LegacyWorld.json_response 200 v, w)
    /\ match v with
       | JNull =>
           forall r p,
             Db.routers (db w) !! router_id = Some r ->
             p ∈ Db.upgrade_policies (db w) -> ~ policy_for r p
       | JObj p =>
           exists r,
             Db.routers (db w) !! router_id = Some r
             /\ p ∈ Db.upgrade_policies (db w) /\ policy_for r p
       | _ => False
       end.
Proof.
  simpl. unfold Db.select_policy.
  destruct (Db.routers (db w) !! router_id) as [r |] eqn:Er.
  - destruct (head _) as [p |] eqn:Eh.
    + exists (JObj p). split; [reflexivity |]. exists r. split; [reflexivity |].
      apply head_Some_elem_of in Eh. apply list_elem_of_filter in Eh as [Hm Hin].
      split; [exact Hin |]. apply andb_true_iff in Hm. exact Hm.
    + exists JNull. split; [reflexivity |]. intros r' p [= <-] Hin (Hv & Hm).
      apply head_None in Eh.
      assert (Hp : p ∈ filter (fun p => Db.sql_eq (r !! "vendor") (p !! "vendor")
                                        && Db.sql_eq (r !! "model") (p !! "model") = true)
                          (Db.upgrade_policies (db w))).
      { apply list_elem_of_filter. split; [| exact Hin]. now rewrite Hv, Hm. }
      rewrite Eh in Hp. now apply elem_of_nil in Hp.
  - exists JNull. split; [reflexivity |]. intros r p Hr. discriminate.
Qed.

End Servers.

Lemma upgrade_ids_stay_fresh_witness :
  ids_below_seq
    (db (snd (run (LegacyWorld.handle (H := plain)
                     (env_with always_delivered (JNum 45) (JNum 60) (JNum 0) 0
                        (Raise (Exception "unused" ""))))
                (Legacy.decide_and_act (H := plain) (legacy_policy false) "R1" false)
                world0))).
Proof.
  apply (StoreProps.upgrade_ids_stay_fresh (H := plain)
           (env_with always_delivered (JNum 45) (JNum 60) (JNum 0) 0
              (Raise (Exception "unused" "")))
           (env_with always_delivered (JNum 45) (JNum 60) (JNum 0) 0 (Ok nil))
           Legacy.outcome unit
           (Legacy.decide_and_act (H := plain) (legacy_policy false) "R1" false)
           (Ret tt) world0).
  intros id row Hl. simpl in Hl. rewrite lookup_empty in Hl. discriminate.
Defined.

Lemma world0_ids : ids_below_seq (db world0).
Proof. intros id row Hl. simpl in Hl. rewrite lookup_empty in Hl. discriminate. Qed.

Lemma recorded_decision_takes_status_updates_witness :
  fst (LegacyWorld.endpoint (H := plain)
         (env_with always_delivered (JNum 45) (JNum 60) (JNum 0) 0
            (Raise (Exception "unused" "")))
         (Legacy.record_decision "R1" "approve" (JStr "ok") (JStr "17.3")) world0)
  = LegacyWorld.json_response (H := plain) 200 (JObj {[ "upgrade_id" := JNum 1 ]}).
Proof.
  apply (recorded_decision_takes_status_updates (H := plain)
           (env_with always_delivered (JNum 45) (JNum 60) (JNum 0) 0
              (Raise (Exception "unused" "")))
           world0 "R1" "approve" "ok" "running" (JStr "17.3") (JObj ∅) None).
  - exact world0_ids.
  - eexists. reflexivity.
  - now left.
  - reflexivity.
  - reflexivity.
Defined.

Lemma mcp_recorded_decision_takes_status_updates_witness :
  fst (McpWorld.serve (H := plain)
         (env_with always_delivered (JNum 45) (JNum 60) (JNum 0) 0 (Ok nil))
         (Mcp.pg_record_decision "R1" "approve" (JStr "ok") (JStr "17.3")) world0)
  = McpWorld.respond (H := plain) (JObj {[ "upgrade_id" := JNum 1 ]}).
Proof.
  apply (mcp_recorded_decision_takes_status_updates (H := plain)
           (env_with always_delivered (JNum 45) (JNum 60) (JNum 0) 0 (Ok nil))
           world0 "R1" "approve" "running" (JStr "ok") (JStr "17.3") None).
  - exact world0_ids.
  - eexists. reflexivity.
  - now left.
  - discriminate.
  - discriminate.
  - reflexivity.
  - reflexivity.
  - reflexivity.
  - discriminate.
Defined.

Lemma status_update_of_unknown_id_is_silent_witness :
  db (snd (LegacyWorld.endpoint (H := plain)
             (env_with always_delivered (JNum 45) (JNum 60) (JNum 0) 0
                (Raise (Exception "unused" "")))
             (Legacy.update_upgrade_status (JNum (inject_Z 7)) "running" None) world0))
  = db world0.
Proof.
  apply (proj1 (status_update_of_unknown_id_is_silent (H := plain)
           (env_with always_delivered (JNum 45) (JNum 60) (JNum 0) 0
              (Raise (Exception "unused" "")))
           (env_with always_delivered (JNum 45) (JNum 60) (JNum 0) 0 (Ok nil))
           world0 7 "running" None eq_refl) (JObj ∅) eq_refl).
Defined.

End ServerProps.


(** ** The agents: what they call, and what they never do *)

Section ProgPropFacts.
Context {call : Type} {reply : call -> Type}.
Import ProgProps.

Lemma never_raises_bind {A B} (p : Eff.prog call reply A) (f : A -> Eff.prog call reply B) :
  never_raises p -> (forall a, never_raises (f a)) -> never_raises (bind p f).
Proof.
  induction p as [a | e | c k IH]; simpl; intros Hp Hf; auto.
Qed.

Lemma never_raises_try_except {A} (p : Eff.prog call reply A)
    (h : exn -> Eff.prog call reply A) :
  (forall e, never_raises (h e)) -> never_raises (try_except p h).
Proof.
  induction p as [a | e | c k IH]; simpl; intros Hh; auto.
Qed.

Lemma never_raises_run {A W} (handle : forall c : call, W -> res (reply c) * W)
    (p : Eff.prog call reply A) (w : W) :
  never_raises p -> exists a, fst (run handle p w) = Ok a.
Proof.
  revert w. induction p as [a | e | c k IH]; simpl; intros w Hp.
  - eauto.
  - contradiction.
  - destruct (handle c w) as [o w']. apply IH, Hp.
Qed.

Lemma at_most_mono {A} (P : call -> bool) (n m : nat) (p : Eff.prog call reply A) :
  (n <= m)%nat -> at_most P n p -> at_most P m p.
Proof.
  revert n m. induction p as [a | e | c k IH]; simpl; intros n m Hnm Hp; auto.
  destruct (P c).
  - destruct n as [| n]; [contradiction |]. destruct m as [| m]; [lia |].
    intros o. apply (IH o n m); [lia | apply Hp].
  - intros o. apply (IH o n m); [lia | apply Hp].
Qed.

Lemma at_most_bind {A B} (P : call -> bool) (n m : nat)
    (p : Eff.prog call reply A) (f : A -> Eff.prog call reply B) :
  at_most P n p -> (forall a, at_most P m (f a)) -> at_most P (n + m) (bind p f).
Proof.
  revert n. induction p as [a | e | c k IH]; simpl; intros n Hp Hf; auto.
  - apply at_most_mono with m; [lia | apply Hf].
  - destruct (P c).
    + destruct n as [| n]; [contradiction |]. simpl. intros o. now apply IH.
    + intros o. now apply IH.
Qed.

Lemma at_most_try_except {A} (P : call -> bool) (n m : nat)
    (p : Eff.prog call reply A) (h : exn -> Eff.prog call reply A) :
  at_most P n p -> (forall e, at_most P m (h e)) ->
  at_most P (n + m) (try_except p h).
Proof.
  revert n. induction p as [a | e | c k IH]; simpl; intros n Hp Hh; auto.
  - apply at_most_mono with m; [lia | apply Hh].
  - destruct (P c).
    + destruct n as [| n]; [contradiction |]. simpl. intros o. now apply IH.
    + intros o. now apply IH.
Qed.

Lemma at_most_lift {A} (P : call -> bool) (n : nat) (r : res A) :
  at_most P n (lift (call := call) (reply := reply) r).
Proof. destruct r; exact I. Qed.

Lemma at_most_calls {A W} (P : call -> bool) (n : nat)
    (handle : forall c : call, W -> res (reply c) * W)
    (p : Eff.prog call reply A) (w : W) :
  at_most P n p -> (length (List.filter P (calls handle p w)) <= n)%nat.
Proof.
  revert n w. induction p as [a | e | c k IH]; simpl; intros n w Hp; try lia.
  destruct (handle c w) as [o w']. simpl. destruct (P c); simpl.
  - destruct n as [| n]; [contradiction |]. specialize (IH o n w' (Hp o)). lia.
  - apply IH, Hp.
Qed.

Lemma every_call_impl {A} (P Q : call -> Prop) (p : Eff.prog call reply A) :
  (forall c, P c -> Q c) -> every_call P p -> every_call Q p.
Proof.
  intros Hpq. induction p as [a | e | c k IH]; simpl; auto.
  intros [Hc Hk]. split; [now apply Hpq | intros o; now apply IH].
Qed.

End ProgPropFacts.

Module AgentCalls.
Import ProgProps Calls.

Section Legacy.
Import Legacy.
Context `{Format} (POLICY : PolicyFile).

Lemma post_at_most (P : call -> bool) (n : nat) (r : request) :
  P (requests_post r) = false -> at_most P n (post r).
Proof.
  intros Hr. unfold post. simpl. rewrite Hr. intros [resp | e]; simpl;
    [apply at_most_lift | exact I].
Qed.

Lemma post_at_most_one (P : call -> bool) (r : request) :
  at_most P 1 (post r).
Proof.
  unfold post. simpl. destruct (P (requests_post r));
    intros [resp | e]; simpl; try exact I; apply at_most_lift.
Qed.

Lemma read_only_at_most (P : call -> bool) {A} (p : prog A) :
  (forall c, read_only c -> P c = false) ->
  every_call read_only p -> at_most P 0 p.
Proof.
  intros Hro. induction p as [a | e | c k IH]; simpl; auto.
  intros [Hc Hk]. rewrite (Hro c Hc). intros o. now apply IH.
Qed.

Lemma act_dry (router_id : string) (d : Decision) :
  every_call legacy_dry (act router_id true d).
Proof.
  unfold act.
  apply every_call_bind; [apply LegacyFacts.post_calls; exact I | intros rec].
  apply every_call_bind; [apply every_call_lift | intros id].
  destruct (negb (approve d)).
  - apply every_call_bind; [apply LegacyFacts.post_calls; exact I | intros _; exact I].
  - apply every_call_bind.
    + apply every_call_try_except.
      * apply every_call_bind; [apply LegacyFacts.post_calls; reflexivity | intros res].
        apply every_call_bind; [apply LegacyFacts.post_calls; exact I | intros _; exact I].
      * intros e.
        apply every_call_bind; [apply LegacyFacts.post_calls; exact I | intros _; exact I].
    + intros [out |]; exact I.
Qed.

Lemma act_runs (router_id : string) (dry_run : bool) (d : Decision) :
  at_most real_run 1 (act router_id dry_run d)
  /\ at_most check_run 1 (act router_id dry_run d).
Proof.
  unfold act. split.
  - apply (at_most_bind real_run 0 1); [now apply post_at_most | intros rec].
    apply (at_most_bind real_run 0 1); [apply at_most_lift | intros id].
    destruct (negb (approve d)).
    + apply (at_most_bind real_run 0 1); [now apply post_at_most | intros _; exact I].
    + apply (at_most_bind real_run 0 1).
      * apply (at_most_try_except real_run 0 0).
        -- apply (at_most_bind real_run 0 0); [now apply post_at_most | intros res].
           apply (at_most_bind real_run 0 0); [now apply post_at_most | intros _; exact I].
        -- intros e.
           apply (at_most_bind real_run 0 0); [now apply post_at_most | intros _; exact I].
      * intros [out |]; [exact I |]. destruct dry_run; [exact I |].
        apply (at_most_try_except real_run 1 0).
        -- apply (at_most_bind real_run 0 1); [now apply post_at_most | intros _].
           apply (at_most_bind real_run 1 0); [apply post_at_most_one | intros res].
           apply (at_most_bind real_run 0 0); [now apply post_at_most | intros _; exact I].
        -- intros e.
           apply (at_most_bind real_run 0 0); [now apply post_at_most | intros _; exact I].
  - apply (at_most_bind check_run 0 1); [now apply post_at_most | intros rec].
    apply (at_most_bind check_run 0 1); [apply at_most_lift | intros id].
    destruct (negb (approve d)).
    + apply (at_most_bind check_run 0 1); [now apply post_at_most | intros _; exact I].
    + apply (at_most_bind check_run 1 0).
      * apply (at_most_try_except check_run 1 0).
        -- apply (at_most_bind check_run 1 0); [apply post_at_most_one | intros res].
           apply (at_most_bind check_run 0 0); [now apply post_at_most | intros _; exact I].
        -- intros e.
           apply (at_most_bind check_run 0 0); [now apply post_at_most | intros _; exact I].
      * intros [out |]; [exact I |]. destruct dry_run; [exact I |].
        apply (at_most_try_except check_run 0 0).
        -- apply (at_most_bind check_run 0 0); [now apply post_at_most | intros _].
           apply (at_most_bind check_run 0 0); [now apply post_at_most | intros res].
           apply (at_most_bind check_run 0 0); [now apply post_at_most | intros _; exact I].
        -- intros e.
           apply (at_most_bind check_run 0 0); [now apply post_at_most | intros _; exact I].
Qed.

Lemma decide_prefix_read_only (router_id : string) {A} (k : Decision -> prog A)
    (P : call -> Prop) :
  (forall c, read_only c -> P c) ->
  (forall d, every_call P (k d)) ->
  every_call P (router <~ post (get_router router_id) ;;
                d <~ rule_decision POLICY router_id ;;
                d <~ llm_gate POLICY d router ;; k d).
Proof.
  intros Hro Hk.
  apply every_call_bind; [apply LegacyFacts.post_calls; now apply Hro | intros router].
  apply every_call_bind;
    [apply (every_call_impl read_only); [exact Hro | apply LegacyRows.rule_decision_read_only]
    | intros d].
  apply every_call_bind;
    [apply (every_call_impl read_only); [exact Hro | apply LegacyRows.llm_gate_read_only]
    | intros d'].
  apply Hk.
Qed.

End Legacy.

Section Mcp.
Import Mcp.
Context `{Format} (POLICY : PolicyFile).

Lemma tool_at_most (P : call -> bool) (n : nat) (t : tool_call) :
  P (session_call_tool t) = false -> at_most P n (call_mcp_tool t).
Proof.
  intros Ht. unfold call_mcp_tool. simpl. rewrite Ht.
  intros [[| c |] | e]; simpl; try exact I. destruct (loads c); exact I.
Qed.

Lemma tool_at_most_one (P : call -> bool) (t : tool_call) :
  at_most P 1 (call_mcp_tool t).
Proof.
  unfold call_mcp_tool. simpl. destruct (P (session_call_tool t));
    intros [[| c |] | e]; simpl; try exact I; destruct (loads c); exact I.
Qed.

Lemma analyze_calls (P : call -> Prop) (router_id : string) :
  (forall c, ansible_call c = false -> P c) ->
  every_call P (analyze_upgrade_readiness POLICY router_id).
Proof.
  intros Hp. unfold analyze_upgrade_readiness.
  apply every_call_try_except; [| intros e; exact I].
  apply every_call_bind; [apply McpAct.call_mcp_tool_calls; now apply Hp | intros ri].
  apply every_call_bind; [apply McpAct.call_mcp_tool_calls; now apply Hp | intros pol].
  apply every_call_bind; [apply McpAct.call_mcp_tool_calls; now apply Hp | intros hs].
  apply every_call_bind; [apply every_call_lift | intros rule].
  apply every_call_bind;
    [apply McpRows.llm_gate_decision_calls; intros; now apply Hp | intros final].
  apply every_call_bind; [apply McpAct.call_mcp_tool_calls; now apply Hp | intros _].
  exact I.
Qed.

Lemma no_ansible_at_most {A} (p : prog A) :
  every_call (fun c => ansible_call c = false) p -> at_most ansible_call 0 p.
Proof.
  induction p as [a | e | c k IH]; simpl; auto.
  intros [Hc Hk]. rewrite Hc. intros o. now apply IH.
Qed.

Lemma carry_out_dry (router_id : string) (d : UpgradeDecision) :
  every_call mcp_dry (carry_out router_id true d).
Proof.
  unfold carry_out. destruct (negb (truthy (approve d))); [exact I |].
  apply every_call_bind; [apply McpAct.call_mcp_tool_calls; exact I | intros rec].
  apply every_call_bind; [apply every_call_lift | intros id].
  apply every_call_try_except.
  - apply every_call_bind; [apply McpAct.call_mcp_tool_calls; exact I | intros _].
    apply every_call_bind; [apply McpAct.call_mcp_tool_calls; reflexivity | intros res].
    apply every_call_bind; [apply every_call_lift | intros ok].
    apply every_call_bind; [apply McpAct.call_mcp_tool_calls; exact I | intros _].
    exact I.
  - intros e. apply every_call_bind; [| intros _; exact I].
    destruct (truthy id); [apply McpAct.call_mcp_tool_calls; exact I | exact I].
Qed.

Lemma carry_out_runs (router_id : string) (dry_run : bool) (d : UpgradeDecision) :
  at_most ansible_call 1 (carry_out router_id dry_run d).
Proof.
  unfold carry_out. destruct (negb (truthy (approve d))); [exact I |].
  apply (at_most_bind ansible_call 0 1); [now apply tool_at_most | intros rec].
  apply (at_most_bind ansible_call 0 1); [apply at_most_lift | intros id].
  apply (at_most_try_except ansible_call 1 0).
  - apply (at_most_bind ansible_call 0 1); [now apply tool_at_most | intros _].
    apply (at_most_bind ansible_call 1 0); [apply tool_at_most_one | intros res].
    apply (at_most_bind ansible_call 0 0); [apply at_most_lift | intros ok].
    apply (at_most_bind ansible_call 0 0); [now apply tool_at_most | intros _].
    exact I.
  - intros e. apply (at_most_bind ansible_call 0 0); [| intros _; exact I].
    destruct (truthy id); [now apply tool_at_most | exact I].
Qed.

End Mcp.
End AgentCalls.

Module AgentProps.
Import World ProgProps Calls AgentCalls Samples.

Section Props.
Context `{Format}.

(** X15.  A dry run never runs the playbook for real: with
    [dry_run = True] neither agent calls the automation backend other than
    in check mode, whatever the collaborators answer. *)
Theorem dry_run_never_runs_the_playbook_for_real (PL : Legacy.PolicyFile)
    (PM : Mcp.PolicyFile) (router_id : string) :
  every_call legacy_dry (Legacy.decide_and_act PL router_id true)
  /\ every_call mcp_dry (Mcp.execute_upgrade PM router_id true).
Proof.
  split.
  - unfold Legacy.decide_and_act. apply decide_prefix_read_only.
    + intros [[] | m p]; simpl; tauto.
    + intros d. apply act_dry.
  - unfold Mcp.execute_upgrade.
    apply every_call_try_except; [| intros e; exact I].
    apply every_call_bind; [| intros d; apply carry_out_dry].
    apply analyze_calls. intros [[] | m p]; simpl; try discriminate; tauto.
Qed.

(** X16.  One request runs the playbook at most once: [decide_and_act]
    makes at most one check-mode call and at most one call for real to the
    automation backend, and [execute_upgrade] at most one call at all,
    whatever the collaborators answer. *)
Theorem at_most_one_playbook_run_per_request (PL : Legacy.PolicyFile)
    (PM : Mcp.PolicyFile) (router_id : string) (dry_run : bool) :
  at_most real_run 1 (Legacy.decide_and_act PL router_id dry_run)
  /\ at_most check_run 1 (Legacy.decide_and_act PL router_id dry_run)
  /\ at_most ansible_call 1 (Mcp.execute_upgrade PM router_id dry_run).
Proof.
  assert (Hprefix : forall P : Legacy.call -> bool,
            (forall c, Legacy.read_only c -> P c = false) ->
            (forall d, at_most P 1 (Legacy.act router_id dry_run d)) ->
            at_most P 1 (Legacy.decide_and_act PL router_id dry_run)).
  { intros P Hro Hact. unfold Legacy.decide_and_act.
    apply (at_most_bind P 0 1);
      [apply post_at_most; now apply Hro | intros router].
    apply (at_most_bind P 0 1);
      [apply read_only_at_most; [exact Hro | apply LegacyRows.rule_decision_read_only]
      | intros d].
    apply (at_most_bind P 0 1);
      [apply read_only_at_most; [exact Hro | apply LegacyRows.llm_gate_read_only]
      | intros d'].
    apply Hact. }
  split; [| split].
  - apply Hprefix.
    + intros [[] | m p]; simpl; tauto.
    + intros d. apply act_runs.
  - apply Hprefix.
    + intros [[] | m p]; simpl; tauto.
    + intros d. apply act_runs.
  - unfold Mcp.execute_upgrade.
    apply (at_most_try_except ansible_call 1 0); [| intros e; exact I].
    apply (at_most_bind ansible_call 0 1); [| intros d; apply carry_out_runs].
    apply no_ansible_at_most. apply analyze_calls. auto.
Qed.

(** X17.  [analyze_upgrade_readiness] and [execute_upgrade] raise no
    exception, whatever the collaborators answer or raise: against any
    collaborators [execute_upgrade] returns its dict. *)
Theorem mcp_agent_never_raises (POLICY : Mcp.PolicyFile) (router_id : string)
    (dry_run : bool) :
  never_raises (Mcp.analyze_upgrade_readiness POLICY router_id)
  /\ never_raises (Mcp.execute_upgrade POLICY router_id dry_run)
  /\ forall (W : Type) (handle : forall c : Mcp.call, W -> res (Mcp.reply c) * W)
            (w : W),
       exists out,
         fst (run handle (Mcp.execute_upgrade POLICY router_id dry_run) w) = Ok out.
Proof.
  assert (Hex : never_raises (Mcp.execute_upgrade POLICY router_id dry_run)).
  { unfold Mcp.execute_upgrade. apply never_raises_try_except. intros e. exact I. }
  split; [| split; [exact Hex |]].
  - unfold Mcp.analyze_upgrade_readiness. apply never_raises_try_except.
    intros e. exact I.
  - intros W handle w. now apply never_raises_run.
Qed.

End Props.
End AgentProps.

(** ** Callers, the gate and the unknown router *)

Module CallerProps.
Import World ProgProps Calls AgentCalls Samples.

Section Props.
Context `{Format}.

Lemma read_only_world (env : LegacyWorld.Env) (c : Legacy.call) (w : world) :
  Legacy.read_only c ->
  db (snd (LegacyWorld.handle env c w)) = db w
  /\ playbook_runs (snd (LegacyWorld.handle env c w)) = playbook_runs w.
Proof.
  intros Hc. split; [now apply LegacyRows.read_only_db |].
  destruct c as [r | m p]; simpl; [| reflexivity].
  assert (Hs : playbook_runs (snd (LegacyWorld.endpoint env r w)) = playbook_runs w).
  { destruct r as [rid | rid | rid win | rid win | rid win | | |];
      simpl in *; try contradiction.
    - destruct (Db.routers (db w) !! rid); reflexivity.
    - destruct (Db.select_policy rid (db w)); reflexivity.
    - destruct (influx_query env (clock w) "cpu" rid win); reflexivity.
    - destruct (influx_query env (clock w) "mem" rid win); reflexivity.
    - destruct (influx_query env (clock w) "errors" rid win); reflexivity. }
  destruct (network env (clock w)); simpl; try reflexivity;
    destruct (LegacyWorld.endpoint env r w) as [resp w1]; exact Hs.
Qed.

(** X18.  The chat command [/status] only reads: it makes at most five
    requests, all of them read-only, leaves the database and the list of
    playbook runs as they were, and without an argument makes no request at
    all. *)
Theorem status_cmd_changes_nothing (env : LegacyWorld.Env)
    (POLICY : Legacy.PolicyFile) (args : list string) (w : world) :
  every_call Legacy.read_only (Telegram.status_cmd POLICY args)
  /\ at_most (fun _ => true) 5 (Telegram.status_cmd POLICY args)
  /\ db (snd (run (LegacyWorld.handle env) (Telegram.status_cmd POLICY args) w)) = db w
  /\ playbook_runs (snd (run (LegacyWorld.handle env) (Telegram.status_cmd POLICY args) w))
     = playbook_runs w
  /\ (args = nil ->
      run (LegacyWorld.handle env) (Telegram.status_cmd POLICY args) w
      = (Ok "Usage: /status R1", w)).
Proof.
  assert (Hro : every_call Legacy.read_only (Telegram.status_cmd POLICY args)).
  { unfold Telegram.status_cmd. destruct args as [| rid rest]; [exact I |].
    apply every_call_bind; [apply LegacyRows.rule_decision_read_only | intros d; exact I]. }
  split; [exact Hro |]. split.
  { unfold Telegram.status_cmd. destruct args as [| rid rest]; [exact I |].
    apply (at_most_bind _ 5 0); [| intros d; exact I].
    unfold Legacy.rule_decision.
    apply (at_most_bind _ 1 4); [apply post_at_most_one | intros r].
    apply (at_most_bind _ 1 3); [apply post_at_most_one | intros pol].
    apply (at_most_bind _ 1 2); [apply post_at_most_one | intros cpu_r].
    apply (at_most_bind _ 0 2); [apply at_most_lift | intros cpu].
    apply (at_most_bind _ 1 1); [apply post_at_most_one | intros mem_r].
    apply (at_most_bind _ 0 1); [apply at_most_lift | intros mem].
    apply (at_most_bind _ 1 0); [apply post_at_most_one | intros err_r].
    apply (at_most_bind _ 0 0); [apply at_most_lift | intros errs].
    apply at_most_lift. }
  assert (Hw : db (snd (run (LegacyWorld.handle env) (Telegram.status_cmd POLICY args) w))
               = db w
               /\ playbook_runs
                    (snd (run (LegacyWorld.handle env) (Telegram.status_cmd POLICY args) w))
                  = playbook_runs w).
  { apply (run_preserves (LegacyWorld.handle env)
             (fun x => db x = db w /\ playbook_runs x = playbook_runs w)
             Legacy.read_only); [| exact Hro | now split].
    intros c x Hc (Hd & Hp). destruct (read_only_world env c x Hc) as (Hd' & Hp').
    split; congruence. }
  destruct Hw as (Hd & Hp). split; [exact Hd |]. split; [exact Hp |].
  intros ->. reflexivity.
Qed.

(** X19.  For a router that is not in the inventory [decide_and_act]
    raises on its first request and nothing is recorded; when the request
    is delivered the exception is the [RuntimeError] of the 404 reply. *)
Theorem unknown_router_makes_decide_and_act_raise (env : LegacyWorld.Env)
    (POLICY : Legacy.PolicyFile) (w : world) (router_id : string) (dry_run : bool) :
  Db.routers (db w) !! router_id = None ->
  exists e,
    run (LegacyWorld.handle env) (Legacy.decide_and_act POLICY router_id dry_run) w
    = (Raise e, tick w)
    /\ (network env (clock w) = Delivered ->
        exists rest,
          e = Legacy.RuntimeError
                ("HTTP " ++ fmt (JNum (inject_Z 404)) ++ " from "
                 ++ Legacy.url (Legacy.get_router router_id) ++ ": " ++ rest)).
Proof.
  intros Hr. unfold Legacy.decide_and_act. rewrite run_bind, LegacyRun.run_post.
  unfold LegacyWorld.endpoint. rewrite Hr. simpl fst. simpl snd.
  destruct (network env (clock w)).
  - eexists. split; [reflexivity |]. intros _. eexists. reflexivity.
  - eexists. split; [reflexivity |]. discriminate.
  - eexists. split; [reflexivity |]. discriminate.
Qed.

(** X20.  A well-formed gate reply replaces the rule verdict, whatever
    that verdict was: [approve] and [reason] are the reply's (for [llm_gate]
    the truth value of the reply's [approve], so any truthy JSON value
    approves), and the target version is the rule decision's. *)
Theorem gate_reply_replaces_rule_verdict {WL WM : Type}
    (handleL : forall c : Legacy.call, WL -> res (Legacy.reply c) * WL)
    (handleM : forall c : Mcp.call, WM -> res (Mcp.reply c) * WM)
    (PL : Legacy.PolicyFile) (PM : Mcp.PolicyFile)
    (d : Legacy.Decision) (router : jval) (wl : WL)
    (rule : Mcp.UpgradeDecision) (router_info policy health_summary : jval) (wm : WM)
    (content : text) (rest : list Mcp.block) (data : gmap string jval)
    (a r c : jval) (m : gmap string Mcp.sval) :
  loads content = Some (JObj data) ->
  data !! "approve" = Some a -> data !! "reason" = Some r ->
  (Legacy.llm_gate_enabled PL = true ->
   fst (handleL (Legacy.chat_completions_create (Legacy.llm_gate_model PL)
                   (Legacy.gate_prompt PL d router)) wl) = Ok content ->
   fst (run handleL (Legacy.llm_gate PL d router) wl)
   = Ok {| Legacy.approve := truthy a; Legacy.reason := r;
           Legacy.target_ver := Legacy.target_ver d |})
  /\ (Mcp.gate_enabled PM = true ->
      data !! "confidence" = Some c ->
      Mcp.metrics_summary rule = Some m ->
      fst (handleM (Mcp.messages_create (Mcp.gate_model PM)
                      (Mcp.gate_prompt router_info policy health_summary rule)) wm)
      = Ok (Mcp.TextBlock content :: rest) ->
      exists final,
        fst (run handleM
               (Mcp.llm_gate_decision PM router_info policy health_summary rule) wm)
        = Ok final
        /\ Mcp.approve final = a /\ Mcp.reason final = r
        /\ Mcp.confidence final = c
        /\ Mcp.target_ver final = Mcp.target_ver rule
        /\ Mcp.metrics_summary final
           = Some (<[ "llm_analysis" := Mcp.SVal (JObj data) ]> m)
        /\ Mcp.decision_word final = (if truthy a then "approve" else "deny")).
Proof.
  intros Hload Ha Hr. split.
  - intros Hen Hcall. unfold Legacy.llm_gate. rewrite Hen. cbn [negb].
    rewrite run_try_except, run_bind, run_perform.
    destruct (handleL _ wl) as [o wl']. simpl in Hcall. subst o.
    rewrite run_lift. unfold Legacy.gate_opinion, json_loads. rewrite Hload.
    simpl. rewrite Ha, Hr. reflexivity.
  - intros Hen Hc Hm Hcall. unfold Mcp.llm_gate_decision. rewrite Hen. cbn [negb].
    rewrite run_bind, run_try_except, run_bind, run_perform.
    destruct (handleM _ wm) as [o wm']. simpl in Hcall. subst o.
    rewrite run_bind, run_lift.
    unfold Mcp.gate_opinion, json_loads. rewrite Hload. simpl.
    rewrite Ha, Hr, Hc, Hm. simpl.
    eexists. split; [reflexivity |]. repeat split.
Qed.

(** X21.  On a snapshot of three numbers [evaluate_upgrade_rules]
    approves exactly when CPU, memory and errors are within their limits;
    the reason starts with "All conditions met" or "Conditions failed"
    accordingly, the confidence is 0.8 and the target version is the
    router's [target_ver], or its [current_ver] when that is empty. *)
Theorem engine_verdict_of_numeric_snapshot (POLICY : Mcp.PolicyFile)
    (router_info policy : gmap string jval)
    (cpu_avg mem_free_min critical_errors max_cpu min_mem : Q) :
  default (JNum (Mcp.defaults_max_cpu_percent POLICY))
          (policy !! "max_cpu_percent") = JNum max_cpu ->
  default (JNum (Mcp.defaults_min_free_mem_percent POLICY))
          (policy !! "min_free_mem_percent") = JNum min_mem ->
  exists d why,
    Mcp.evaluate_upgrade_rules POLICY (JObj router_info) (JObj policy)
      (summary_with (metrics_of (JNum cpu_avg) (JNum mem_free_min)
                                (JNum critical_errors))) = Ok d
    /\ ((cpu_avg <= max_cpu /\ min_mem <= mem_free_min
         /\ critical_errors <= Mcp.defaults_max_critical_errors POLICY)%Q ->
        Mcp.approve d = JBool true
        /\ Mcp.reason d = JStr ("All conditions met: " ++ why))
    /\ (~ (cpu_avg <= max_cpu /\ min_mem <= mem_free_min
           /\ critical_errors <= Mcp.defaults_max_critical_errors POLICY)%Q ->
        Mcp.approve d = JBool false
        /\ Mcp.reason d = JStr ("Conditions failed: " ++ why))
    /\ Mcp.confidence d = JNum (8 # 10)
    /\ Mcp.target_ver d
       = (if truthy (default JNull (router_info !! "target_ver"))
          then default JNull (router_info !! "target_ver")
          else default JNull (router_info !! "current_ver")).
Proof.
  intros Hcpu Hmem. unfold Mcp.evaluate_upgrade_rules.
  rewrite RuleFacts.summary_metrics. simpl res_bind. rewrite Hcpu, Hmem.
  rewrite RuleFacts.metrics_of_cpu, RuleFacts.metrics_of_mem,
    RuleFacts.metrics_of_errors. simpl.
  destruct (Qle_bool cpu_avg max_cpu) eqn:C, (Qle_bool min_mem mem_free_min) eqn:M,
    (Qle_bool critical_errors (Mcp.defaults_max_critical_errors POLICY)) eqn:E;
    destruct (truthy (default JNull (router_info !! "target_ver"))); simpl;
    (eexists; eexists; split; [reflexivity |]); simpl;
    (split; [intros (Hc & Hm & He); apply Qle_bool_iff in Hc, Hm, He;
             first [congruence | split; reflexivity] |]);
    (split; [intros Hn;
             first [exfalso; apply Hn; rewrite <- !Qle_bool_iff; now repeat split
                   | split; reflexivity] |]);
    split; reflexivity.
Qed.

End Props.

Lemma unknown_router_makes_decide_and_act_raise_witness :
  exists e,
    run (LegacyWorld.handle (H := plain)
           (env_with always_delivered (JNum 45) (JNum 60) (JNum 0) 0
              (Raise (Exception "unused" ""))))
      (Legacy.decide_and_act (H := plain) (legacy_policy false) "R9" false) world0
    = (Raise e, tick world0).
Proof.
  destruct (unknown_router_makes_decide_and_act_raise (H := plain)
              (env_with always_delivered (JNum 45) (JNum 60) (JNum 0) 0
                 (Raise (Exception "unused" "")))
              (legacy_policy false) world0 "R9" false eq_refl) as (e & He & _).
  exists e. exact He.
Defined.

Lemma gate_reply_replaces_rule_verdict_witness :
  fst (run (LegacyWorld.handle (H := plain)
              (env_with always_delivered (JNum 45) (JNum 60) (JNum 0) 0
                 (Ok (json_text (H := plain)
                        (JObj {[ "approve" := JStr "no"; "reason" := JStr "fine";
                                 "confidence" := JNum 1 ]})))))
         (Legacy.llm_gate (H := plain) (legacy_policy true) denied (JObj R1)) world0)
  = Ok {| Legacy.approve := true; Legacy.reason := JStr "fine";
          Legacy.target_ver := JStr "17.3" |}.
Proof.
  assert (Ha : ({[ "approve" := JStr "no"; "reason" := JStr "fine";
                   "confidence" := JNum 1 ]} : gmap string jval) !! "approve"
               = Some (JStr "no")) by (vm_compute; reflexivity).
  assert (Hr : ({[ "approve" := JStr "no"; "reason" := JStr "fine";
                   "confidence" := JNum 1 ]} : gmap string jval) !! "reason"
               = Some (JStr "fine")) by (vm_compute; reflexivity).
  apply (proj1 (gate_reply_replaces_rule_verdict (H := plain)
                  (LegacyWorld.handle (H := plain)
                     (env_with always_delivered (JNum 45) (JNum 60) (JNum 0) 0
                        (Ok (json_text (H := plain)
                               (JObj {[ "approve" := JStr "no"; "reason" := JStr "fine";
                                        "confidence" := JNum 1 ]})))))
                  (McpWorld.handle (H := plain)
                     (env_with always_delivered (JNum 45) (JNum 60) (JNum 0) 0 (Ok nil)))
                  (legacy_policy true) (engine_policy 75 25 true)
                  denied (JObj R1) world0
                  engine_denied (JObj R1) JNull JNull world0
                  (json_text (H := plain)
                     (JObj {[ "approve" := JStr "no"; "reason" := JStr "fine";
                              "confidence" := JNum 1 ]}))
                  nil
                  {[ "approve" := JStr "no"; "reason" := JStr "fine";
                     "confidence" := JNum 1 ]}
                  (JStr "no") (JStr "fine") (JNum 1) ∅
                  eq_refl Ha Hr)).
  - reflexivity.
  - reflexivity.
Defined.

Lemma engine_verdict_of_numeric_snapshot_witness :
  exists d,
    Mcp.evaluate_upgrade_rules (H := plain) (engine_policy 75 25 false) (JObj R1) (JObj ∅)
      (summary_with (metrics_of (JNum 45) (JNum 60) (JNum 0))) = Ok d
    /\ Mcp.confidence d = JNum (8 # 10).
Proof.
  destruct (engine_verdict_of_numeric_snapshot (H := plain) (engine_policy 75 25 false)
              R1 ∅ 45 60 0 75 25)
    as (d & why & Hd & _ & _ & Hc & _).
  - reflexivity.
  - reflexivity.
  - exists d. split; [exact Hd | exact Hc].
Defined.

End CallerProps.


Section ReturnFacts.
Context {call : Type} {reply : call -> Type}.

Lemma every_return_lift {A} (Q : A -> Prop) (r : res A) :
  (forall a, r = Ok a -> Q a) ->
  every_return Q (lift (call := call) (reply := reply) r).
Proof. intros Hq. destruct r; simpl; auto. Qed.

End ReturnFacts.

Module UnknownRouter.
Import World ProgProps Calls Store Samples.
Import Mcp McpWorld McpCalls McpAct.

Section Facts.
Context `{Format} (env : Env) (POLICY : PolicyFile).

Lemma same_records_refl (w : world) : same_records w w.
Proof. repeat split. Qed.

Lemma same_records_trans (w x y : world) :
  same_records w x -> same_records x y -> same_records w y.
Proof.
  unfold same_records. intros (A1 & A2 & A3 & A4) (B1 & B2 & B3 & B4).
  repeat split; congruence.
Qed.

Lemma harmless_serve (router_id : string) (t : tool_call) (x : world) :
  Db.routers (db x) !! router_id = None ->
  harmless_for router_id (session_call_tool t) ->
  same_records x (snd (serve env t x)).
Proof.
  intros Hr Hc.
  destruct t as [rid | rid | rid win | rid dec rs tv | uid st inf | rid tv chk];
    simpl in *.
  - destruct (String.eqb rid ""); [apply same_records_refl |].
    destruct (Db.routers (db x) !! rid); apply same_records_refl.
  - destruct (String.eqb rid ""); [apply same_records_refl |].
    destruct (Db.select_policy rid (db x)); apply same_records_refl.
  - destruct (get_health_summary env rid win x); apply same_records_refl.
  - subst rid.
    destruct (negb _); [apply same_records_refl |].
    destruct (negb _); [apply same_records_refl |].
    unfold Db.insert_upgrade. rewrite Hr.
    rewrite bool_decide_eq_false_2 by (intros [r Hs]; discriminate).
    simpl. repeat split.
  - subst uid. simpl. apply same_records_refl.
  - subst tv. simpl. rewrite orb_true_r. apply same_records_refl.
Qed.

Lemma harmless_handle (w : world) (router_id : string) (c : call) (x : world) :
  Db.routers (db w) !! router_id = None ->
  harmless_for router_id c ->
  same_records w x -> same_records w (snd (handle env c x)).
Proof.
  intros Hr Hc Hx.
  assert (Hrx : Db.routers (db x) !! router_id = None).
  { destruct Hx as (-> & _). exact Hr. }
  apply same_records_trans with x; [exact Hx |].
  destruct c as [t | m p]; simpl; [| repeat split].
  pose proof (harmless_serve router_id t x Hrx Hc) as Hs.
  destruct (network env (clock x)); simpl; try (repeat split; fail);
    destruct (serve env t x) as [result x1]; exact Hs.
Qed.

Lemma harmless_run {A} (w : world) (router_id : string) (p : prog A) (x : world) :
  Db.routers (db w) !! router_id = None ->
  every_call (harmless_for router_id) p ->
  same_records w x -> same_records w (snd (run (handle env) p x)).
Proof.
  intros Hr Hp Hx.
  apply (run_preserves (handle env) (fun y => same_records w y)
           (harmless_for router_id)); [| exact Hp | exact Hx].
  intros c y Hc Hy. now apply harmless_handle with router_id.
Qed.

(** The gate keeps the target version of the rule decision. *)
Lemma gate_keeps_target_ver (router_info policy health_summary : jval)
    (rule : UpgradeDecision) :
  every_return (fun d => target_ver d = target_ver rule)
    (llm_gate_decision POLICY router_info policy health_summary rule).
Proof.
  unfold llm_gate_decision. destruct (negb (gate_enabled POLICY)); [reflexivity |].
  apply every_return_bind
    with (Q' := fun made => match made with
                            | Some d => target_ver d = target_ver rule
                            | None => True
                            end).
  - apply every_return_try_except; [| intros e; reflexivity].
    apply every_return_bind with (Q' := fun _ => True); [apply every_return_true |].
    intros [| [t | ty] rest] _; try exact I.
    apply every_return_bind with (Q' := fun d => target_ver d = target_ver rule);
      [| intros d Hd; exact Hd].
    apply every_return_lift. intros d. unfold gate_opinion.
    destruct (json_loads t) as [data |]; [| discriminate]. simpl.
    destruct (py_index data "approve") as [a |]; [| discriminate]. simpl.
    destruct (py_index data "reason") as [r |]; [| discriminate]. simpl.
    destruct (py_index data "confidence") as [c |]; [| discriminate]. simpl.
    destruct (metrics_summary rule); [| discriminate]. simpl.
    intros [= <-]. reflexivity.
  - intros [d |] Hd; [exact Hd | reflexivity].
Qed.

(** What follows the router lookup in [analyze_upgrade_readiness]. *)
Lemma analysis_without_versions (router_id : string) (router_info : jval) :
  py_get router_info "target_ver" JNull = Ok JNull ->
  py_get router_info "current_ver" JNull = Ok JNull ->
  let rest :=
    (policy <~ call_mcp_tool (pg_get_policy router_id) ;;
     health_summary <~ call_mcp_tool
                         (influx_health_summary router_id (defaults_window POLICY)) ;;
     rule_decision <~ lift (evaluate_upgrade_rules POLICY router_info
                              (py_or policy (JObj ∅)) health_summary) ;;
     final_decision <~ llm_gate_decision POLICY router_info policy health_summary
                         rule_decision ;;
     _ <~ call_mcp_tool (pg_record_decision router_id
                           (decision_word final_decision)
                           (reason final_decision) (target_ver final_decision)) ;;
     Ret final_decision) in
  every_return (fun d => target_ver d = JNull) rest
  /\ every_call (harmless_for router_id) rest.
Proof.
  intros Ht Hc rest. unfold rest. split.
  - apply every_return_bind with (Q' := fun _ => True); [apply every_return_true |].
    intros policy _.
    apply every_return_bind with (Q' := fun _ => True); [apply every_return_true |].
    intros hs _.
    apply every_return_bind with (Q' := fun d => target_ver d = JNull).
    + apply every_return_lift. intros d. unfold evaluate_upgrade_rules.
      repeat match goal with
             | |- context [res_bind ?m _] =>
                 match m with
                 | py_get router_info _ _ => fail 1
                 | _ => destruct m; simpl res_bind; try discriminate
                 end
             end.
      rewrite Ht. simpl. rewrite Hc. simpl. intros [= <-]. reflexivity.
    + intros rule Hrule.
      apply every_return_bind with (Q' := fun d => target_ver d = JNull).
      * pose proof (gate_keeps_target_ver router_info policy hs rule) as Hg.
        rewrite Hrule in Hg. exact Hg.
      * intros final Hfinal.
        apply every_return_bind with (Q' := fun _ => True); [apply every_return_true |].
        intros _ _. exact Hfinal.
  - apply every_call_bind; [apply call_mcp_tool_calls; exact I | intros policy].
    apply every_call_bind; [apply call_mcp_tool_calls; exact I | intros hs].
    apply every_call_bind; [apply every_call_lift | intros rule].
    apply every_call_bind;
      [apply McpRows.llm_gate_decision_calls; intros; exact I | intros final].
    apply every_call_bind; [apply call_mcp_tool_calls; reflexivity | intros _].
    exact I.
Qed.

Lemma error_reply_has_no_versions (msg k : string) :
  k <> "error" -> py_get (JObj {[ "error" := JStr msg ]}) k JNull = Ok JNull.
Proof. intros Hk. simpl. now rewrite lookup_singleton_ne by congruence. Qed.

Lemma run_tool_answered (t : tool_call) (x : world) (v : jval) :
  network env (clock x) = Delivered ->
  fst (serve env t x) = respond v ->
  run (handle env) (call_mcp_tool t) x = (Ok v, tick (snd (serve env t x))).
Proof.
  intros Hn Hs. rewrite run_call_mcp_tool, Hn, Hs. reflexivity.
Qed.

Lemma run_tool_failed (t : tool_call) (x : world) :
  network env (clock x) <> Delivered ->
  exists e x', run (handle env) (call_mcp_tool t) x = (Raise e, x').
Proof.
  intros Hn. rewrite run_call_mcp_tool.
  destruct (network env (clock x)); [contradiction | eauto | eauto].
Qed.

Lemma get_router_unknown (router_id : string) (x : world) :
  Db.routers (db x) !! router_id = None ->
  exists msg, serve env (pg_get_router router_id) x = (tool_error msg, x).
Proof.
  intros Hr. simpl. destruct (String.eqb router_id ""); [eauto |].
  rewrite Hr. eauto.
Qed.

Lemma record_unknown (router_id decision : string) (rs tv : jval) (x : world) :
  Db.routers (db x) !! router_id = None ->
  exists msg,
    fst (serve env (pg_record_decision router_id decision rs tv) x) = tool_error msg.
Proof.
  intros Hr. simpl.
  destruct (negb _); [eauto |]. destruct (negb _); [eauto |].
  unfold Db.insert_upgrade. rewrite Hr.
  rewrite bool_decide_eq_false_2 by (intros [r Hs]; discriminate).
  simpl. eauto.
Qed.

Lemma analyze_unknown (w : world) (router_id : string) :
  Db.routers (db w) !! router_id = None ->
  same_records w (snd (run (handle env) (analyze_upgrade_readiness POLICY router_id) w))
  /\ exists d,
       fst (run (handle env) (analyze_upgrade_readiness POLICY router_id) w) = Ok d
       /\ target_ver d = JNull.
Proof.
  intros Hr.
  assert (Hcalls : every_call (harmless_for router_id)
                     (analyze_upgrade_readiness POLICY router_id)).
  { unfold analyze_upgrade_readiness.
    apply every_call_try_except; [| intros e; exact I].
    apply every_call_bind; [apply call_mcp_tool_calls; exact I | intros ri].
    apply every_call_bind; [apply call_mcp_tool_calls; exact I | intros policy].
    apply every_call_bind; [apply call_mcp_tool_calls; exact I | intros hs].
    apply every_call_bind; [apply every_call_lift | intros rule].
    apply every_call_bind;
      [apply McpRows.llm_gate_decision_calls; intros; exact I | intros final].
    apply every_call_bind; [apply call_mcp_tool_calls; reflexivity | intros _].
    exact I. }
  split; [apply (harmless_run w router_id); [exact Hr | exact Hcalls | repeat split] |].
  unfold analyze_upgrade_readiness. rewrite run_try_except, run_bind.
  destruct (get_router_unknown router_id w Hr) as (msg & Hs).
  destruct (network env (clock w)) eqn:Hn.
  - rewrite (run_tool_answered (pg_get_router router_id) w
               (JObj {[ "error" := JStr msg ]}) Hn) by now rewrite Hs.
    set (ri := JObj {[ "error" := JStr msg ]}).
    destruct (analysis_without_versions router_id ri) as (Hret & _);
      [now apply error_reply_has_no_versions
      | now apply error_reply_has_no_versions |].
    cbv zeta in Hret.
    match goal with
    | |- context [run (handle env) ?p ?x] =>
        pose proof (every_return_run (fun d => target_ver d = JNull)
                      (handle env) p x) as Hd;
        destruct (run (handle env) p x) as [[d | e] w1]
    end.
    + exists d. split; [reflexivity |]. now apply Hd.
    + eexists. split; reflexivity.
  - destruct (run_tool_failed (pg_get_router router_id) w) as (e & x' & ->);
      [congruence |]. eexists. split; reflexivity.
  - destruct (run_tool_failed (pg_get_router router_id) w) as (e & x' & ->);
      [congruence |]. eexists. split; reflexivity.
Qed.

Lemma carry_out_unknown (w x : world) (router_id : string) (dry_run : bool)
    (d : UpgradeDecision) :
  Db.routers (db w) !! router_id = None ->
  same_records w x ->
  target_ver d = JNull ->
  same_records w (snd (run (handle env) (carry_out router_id dry_run d) x))
  /\ match fst (run (handle env) (carry_out router_id dry_run d) x) with
     | Ok out => o_status out = "denied" \/ o_status out = "failed"
     | Raise _ => True
     end.
Proof.
  intros Hr Hx Htv. unfold carry_out. rewrite Htv.
  destruct (negb (truthy (approve d))); [simpl; split; [exact Hx | now left] |].
  assert (Hrx : Db.routers (db x) !! router_id = None).
  { destruct Hx as (-> & _). exact Hr. }
  rewrite run_bind.
  pose proof (harmless_run w router_id
                (call_mcp_tool (pg_record_decision router_id "approve" (reason d) JNull))
                x Hr (call_mcp_tool_calls _ _ eq_refl) Hx) as Hw1.
  destruct (record_unknown router_id "approve" (reason d) JNull x Hrx) as (msg & Hs).
  destruct (network env (clock x)) eqn:Hn.
  2: { destruct (run_tool_failed
                   (pg_record_decision router_id "approve" (reason d) JNull) x)
         as (e & x' & He); [congruence |].
       rewrite He in *. simpl. split; [exact Hw1 | exact I]. }
  2: { destruct (run_tool_failed
                   (pg_record_decision router_id "approve" (reason d) JNull) x)
         as (e & x' & He); [congruence |].
       rewrite He in *. simpl. split; [exact Hw1 | exact I]. }
  rewrite (run_tool_answered _ x (JObj {[ "error" := JStr msg ]}) Hn Hs) in *.
  simpl snd in Hw1.
  set (x1 := tick (snd (serve env (pg_record_decision router_id "approve" (reason d) JNull) x))) in *.
  rewrite run_bind, run_lift.
  rewrite (error_reply_has_no_versions msg "upgrade_id") by discriminate.
  split.
  - apply (harmless_run w router_id); [exact Hr | | exact Hw1].
    apply every_call_try_except.
    + apply every_call_bind; [apply call_mcp_tool_calls; reflexivity | intros _].
      apply every_call_bind; [apply call_mcp_tool_calls; reflexivity | intros res].
      apply every_call_bind; [apply every_call_lift | intros ok].
      apply every_call_bind; [apply call_mcp_tool_calls; reflexivity | intros _].
      exact I.
    + intros e. simpl. exact I.
  - rewrite run_try_except, run_bind.
    destruct (run (handle env) (call_mcp_tool (pg_update_upgrade_status JNull "running" None)) x1)
      as [[r | e] x2]; [| simpl; now right].
    rewrite run_bind.
    destruct (network env (clock x2)) eqn:Hn2.
    2: { destruct (run_tool_failed (ansible_upgrade router_id JNull dry_run) x2)
           as (e & x' & ->); [congruence |]. simpl. now right. }
    2: { destruct (run_tool_failed (ansible_upgrade router_id JNull dry_run) x2)
           as (e & x' & ->); [congruence |]. simpl. now right. }
    rewrite (run_tool_answered (ansible_upgrade router_id JNull dry_run) x2
               (JObj {[ "error" := JStr "router_id and target_ver are required";
                        "success" := JBool false ]}) Hn2)
      by (simpl; now rewrite orb_true_r).
    rewrite run_bind, run_lift. simpl py_get.
    rewrite lookup_insert_ne by discriminate. rewrite lookup_singleton_eq.
    simpl default. simpl truthy. cbv iota.
    rewrite run_bind.
    match goal with
    | |- context [run (handle env) (call_mcp_tool ?t) ?y] =>
        destruct (run (handle env) (call_mcp_tool t) y) as [[r2 | e2] x3]
    end; simpl; now right.
Qed.

End Facts.
End UnknownRouter.

Module UnknownRouterProps.
Import World ProgProps Calls Store Samples UnknownRouter.

(** X22.  For a router that is not in the inventory [execute_upgrade]
    never runs the playbook and never writes a record or an audit event,
    whatever the telemetry and the gate say; it returns [denied], [failed]
    or [error], never [success]. *)
Theorem unknown_router_is_never_upgraded `{Format} (env : McpWorld.Env)
    (POLICY : Mcp.PolicyFile) (w : world) (router_id : string) (dry_run : bool) :
  Db.routers (db w) !! router_id = None ->
  same_records w
    (snd (run (McpWorld.handle env) (Mcp.execute_upgrade POLICY router_id dry_run) w))
  /\ exists out,
       fst (run (McpWorld.handle env) (Mcp.execute_upgrade POLICY router_id dry_run) w)
       = Ok out
       /\ Mcp.o_status out ∈ ["denied"; "failed"; "error"].
Proof.
  intros Hr. unfold Mcp.execute_upgrade. rewrite run_try_except, run_bind.
  destruct (analyze_unknown env POLICY w router_id Hr) as (Hw1 & d & Hd & Htv).
  destruct (run (McpWorld.handle env) (Mcp.analyze_upgrade_readiness POLICY router_id) w)
    as [o w1]. simpl in Hw1, Hd. subst o.
  destruct (carry_out_unknown env w w1 router_id dry_run d Hr Hw1 Htv) as (Hw2 & Hst).
  destruct (run (McpWorld.handle env) (Mcp.carry_out router_id dry_run d) w1)
    as [[out | e] w2]; simpl in *.
  - split; [exact Hw2 |]. exists out. split; [reflexivity |].
    destruct Hst as [-> | ->]; Outcomes.in_list.
  - split; [exact Hw2 |]. eexists. split; [reflexivity |]. Outcomes.in_list.
Qed.

Lemma unknown_router_is_never_upgraded_witness :
  same_records world0
    (snd (run (McpWorld.handle (H := plain)
                 (env_with always_delivered (JNum 45) (JNum 60) (JNum 0) 0 (Ok nil)))
            (Mcp.execute_upgrade (H := plain) (engine_policy 75 25 false) "R9" false)
            world0)).
Proof.
  apply (unknown_router_is_never_upgraded (H := plain)
           (env_with always_delivered (JNum 45) (JNum 60) (JNum 0) 0 (Ok nil))
           (engine_policy 75 25 false) world0 "R9" false).
  reflexivity.
Defined.

End UnknownRouterProps.


Module RecordProps.
Import World Attempt AttemptFacts RowsFacts Samples.

(** X23.  [execute_upgrade] records an approved decision twice and
    follows up on the second record only: every record that exists when
    [analyze_upgrade_readiness] is through, its own included, is unchanged
    when [execute_upgrade] returns, and the records the analysis adds have
    had no status update. *)
Theorem analysis_record_is_never_updated `{Format} (env : McpWorld.Env)
    (POLICY : Mcp.PolicyFile) (w : world) (router_id : string) (dry_run : bool) :
  let analysed :=
    snd (run (McpWorld.handle env) (Mcp.analyze_upgrade_readiness POLICY router_id) w) in
  let finished :=
    snd (run (McpWorld.handle env) (Mcp.execute_upgrade POLICY router_id dry_run) w) in
  rows_since w analysed (fun h => h = nil)
  /\ (forall id row,
        Db.upgrades (db analysed) !! id = Some row ->
        Db.upgrades (db finished) !! id = Some row).
Proof.
  intros analysed finished. split.
  - apply (run_preserves (McpWorld.handle env)
             (fun x => rows_since w x (fun h => h = nil)) Mcp.no_status_update).
    + intros c x Hc Hx. now apply McpRows.no_status_update_rows.
    + apply McpRows.analyze_no_status_update.
    + apply rows_since_refl.
  - unfold finished, analysed, Mcp.execute_upgrade.
    rewrite run_try_except, run_bind.
    destruct (run (McpWorld.handle env) (Mcp.analyze_upgrade_readiness POLICY router_id) w)
      as [[d | e] w1]; [| simpl; auto].
    pose proof (McpAct.carry_out_history env w1 router_id dry_run d) as Hc.
    cbv zeta in Hc.
    destruct (run (McpWorld.handle env) (Mcp.carry_out router_id dry_run d) w1)
      as [[out | e] w2]; simpl in *;
      (destruct Hc as [Hsame | (id0 & h & evs & runs & n & Ha & _)];
       [intros id row Hl; now rewrite Hsame
       | intros id row Hl; destruct Ha as (Hfresh & _ & Hothers & _);
         rewrite Hothers; [exact Hl | intros ->; congruence]]).
Qed.

(** On router R1 with a gate that approves and a playbook that succeeds,
    [execute_upgrade] leaves two records: the one the analysis wrote, still
    [pending], and its own, at [success]. *)
Remark approved_upgrade_leaves_two_records :
  let env : McpWorld.Env :=
    env_with always_delivered (JNum 45) (JNum 60) (JNum 0) 0
      (Ok [Mcp.TextBlock
             (json_text (H := plain)
                (JObj {[ "approve" := JBool true; "reason" := JStr "ok";
                         "confidence" := JNum (9 # 10) ]}))]) in
  let finished :=
    snd (run (McpWorld.handle (H := plain) env)
           (Mcp.execute_upgrade (H := plain) (engine_policy 75 25 true) "R1" false)
           world0) in
  (Db.u_status <$> Db.upgrades (db finished) !! 1%Z) = Some "pending"
  /\ (Db.u_status <$> Db.upgrades (db finished) !! 2%Z) = Some "success"
  /\ (Db.u_history <$> Db.upgrades (db finished) !! 1%Z) = Some nil.
Proof. vm_compute. repeat split. Qed.

End RecordProps.


(** ** Order of calls, the rule decision end to end, and the command line *)

Section OrderFacts.
Context {call : Type} {reply : call -> Type}.
Import Order.

Lemma only_after_seen {A} (P : forall c : call, res (reply c) -> bool)
    (Q : call -> bool) (p : Eff.prog call reply A) :
  only_after P Q true p.
Proof.
  induction p as [a | e | c k IH]; simpl; auto.
Qed.

Lemma only_after_quiet {A B} (P : forall c : call, res (reply c) -> bool)
    (Q : call -> bool) (seen : bool)
    (p : Eff.prog call reply A) (f : A -> Eff.prog call reply B) :
  every_call (fun c => Q c = false) p ->
  (forall a seen', only_after P Q (seen || seen') (f a)) ->
  only_after P Q seen (bind p f).
Proof.
  revert seen. induction p as [a | e | c k IH]; simpl; intros seen Hp Hf.
  - specialize (Hf a false). now rewrite orb_false_r in Hf.
  - exact I.
  - destruct Hp as [Hc Hk]. split; [congruence |].
    intros o. apply IH; [apply Hk |].
    intros a seen'. rewrite <- orb_assoc. apply Hf.
Qed.

Lemma only_after_try_quiet {A} (P : forall c : call, res (reply c) -> bool)
    (Q : call -> bool) (seen : bool)
    (p : Eff.prog call reply A) (h : exn -> Eff.prog call reply A) :
  every_call (fun c => Q c = false) p ->
  (forall e seen', only_after P Q (seen || seen') (h e)) ->
  only_after P Q seen (try_except p h).
Proof.
  revert seen. induction p as [a | e | c k IH]; simpl; intros seen Hp Hh.
  - exact I.
  - specialize (Hh e false). now rewrite orb_false_r in Hh.
  - destruct Hp as [Hc Hk]. split; [congruence |].
    intros o. apply IH; [apply Hk |].
    intros e seen'. rewrite <- orb_assoc. apply Hh.
Qed.

Lemma only_after_try {A} (P : forall c : call, res (reply c) -> bool)
    (Q : call -> bool) (seen : bool)
    (p : Eff.prog call reply A) (h : exn -> Eff.prog call reply A) :
  only_after P Q seen p ->
  (forall e seen', only_after P Q seen' (h e)) ->
  only_after P Q seen (try_except p h).
Proof.
  revert seen. induction p as [a | e | c k IH]; simpl; intros seen Hp Hh; auto.
  destruct Hp as [Hc Hk]. split; [exact Hc |]. intros o. now apply IH.
Qed.

End OrderFacts.

Module OrderProps.
Import Order Calls AgentCalls.

Section Props.
Context `{Format}.

(** X24.  Neither agent calls the automation backend before a request
    to record the decision has been answered, whatever the collaborators
    answer. *)
Theorem decision_is_recorded_before_the_playbook_runs (PL : Legacy.PolicyFile)
    (PM : Mcp.PolicyFile) (router_id : string) (dry_run : bool) :
  only_after legacy_recorded legacy_backend false
    (Legacy.decide_and_act PL router_id dry_run)
  /\ only_after mcp_recorded ansible_call false
       (Mcp.execute_upgrade PM router_id dry_run).
Proof.
  split.
  - unfold Legacy.decide_and_act.
    apply only_after_quiet;
      [apply LegacyFacts.post_calls; reflexivity | intros router s1].
    apply only_after_quiet.
    { apply (every_call_impl Legacy.read_only);
        [| apply LegacyRows.rule_decision_read_only].
      intros [[] | m p]; simpl; tauto. }
    intros d s2.
    apply only_after_quiet.
    { apply (every_call_impl Legacy.read_only);
        [| apply LegacyRows.llm_gate_read_only].
      intros [[] | m p]; simpl; tauto. }
    intros d' s3. unfold Legacy.act, Legacy.post. simpl.
    split; [discriminate |]. intros [resp | e]; simpl; [| exact I].
    rewrite !orb_true_r. apply only_after_seen.
  - unfold Mcp.execute_upgrade.
    apply only_after_try; [| intros e s; exact I].
    apply only_after_quiet; [apply analyze_calls; auto | intros d s1].
    unfold Mcp.carry_out. destruct (negb (truthy (Mcp.approve d))); [exact I |].
    unfold Mcp.call_mcp_tool. simpl.
    split; [discriminate |]. intros [result | e]; simpl; [| exact I].
    rewrite !orb_true_r. apply only_after_seen.
Qed.

End Props.
End OrderProps.


Module EndToEnd.
Import World Samples.
Import Legacy LegacyWorld LegacyRun.

Section Props.
Context `{Format} (env : Env) (POLICY : PolicyFile).

Lemma run_post_delivered (r : request) (w : world) :
  network env (clock w) = Delivered ->
  run (handle env) (post r) w
  = (check_response r (fst (endpoint env r w)), tick (snd (endpoint env r w))).
Proof. intros Hn. now rewrite run_post, Hn. Qed.

(** X25.  [rule_decision] against the HTTP servers: when its five
    requests are delivered, the router is known and the three telemetry
    queries answer, it returns the verdict of lines 39-50 on the router's
    row, the policy row for the router (none: the defaults), the CPU and
    memory values queried and the error count with [None] read as 0; the
    database is unchanged. *)
Theorem rule_decision_is_the_verdict_on_the_stored_data (w : world)
    (router_id : string) (r : gmap string jval) (cpu mem errs : jval) :
  (forall k, (k < 5)%nat -> network env (clock w + k) = Delivered) ->
  Db.routers (db w) !! router_id = Some r ->
  influx_query env (clock w + 2) "cpu" router_id (defaults_window POLICY) = Ok cpu ->
  influx_query env (clock w + 3) "mem" router_id (defaults_window POLICY) = Ok mem ->
  influx_query env (clock w + 4) "errors" router_id (defaults_window POLICY) = Ok errs ->
  let pol := match Db.select_policy router_id (db w) with
             | Some p => JObj p
             | None => JNull
             end in
  run (handle env) (rule_decision POLICY router_id) w
  = (rule_verdict POLICY (JObj r) (py_or pol (JObj ∅)) cpu mem (py_or errs (JNum 0)),
     {| db := db w; playbook_runs := playbook_runs w; clock := clock w + 5 |}).
Proof.
  intros Hnet Hr Hcpu Hmem Herrs pol. unfold rule_decision.
  assert (H0 : network env (clock w) = Delivered).
  { rewrite <- (Nat.add_0_r (clock w)). apply Hnet. lia. }
  assert (H1 : network env (S (clock w)) = Delivered).
  { replace (S (clock w)) with (clock w + 1)%nat by lia. apply Hnet. lia. }
  assert (H2 : network env (S (S (clock w))) = Delivered).
  { replace (S (S (clock w))) with (clock w + 2)%nat by lia. apply Hnet. lia. }
  assert (H3 : network env (S (S (S (clock w)))) = Delivered).
  { replace (S (S (S (clock w)))) with (clock w + 3)%nat by lia. apply Hnet. lia. }
  assert (H4 : network env (S (S (S (S (clock w))))) = Delivered).
  { replace (S (S (S (S (clock w))))) with (clock w + 4)%nat by lia. apply Hnet. lia. }
  replace (clock w + 2)%nat with (S (S (clock w))) in Hcpu by lia.
  replace (clock w + 3)%nat with (S (S (S (clock w)))) in Hmem by lia.
  replace (clock w + 4)%nat with (S (S (S (S (clock w))))) in Herrs by lia.
  rewrite run_bind, run_post_delivered by exact H0.
  simpl endpoint. rewrite Hr. simpl fst. simpl snd. rewrite check_response_ok.
  rewrite run_bind, run_post_delivered by exact H1.
  assert (Hpol : endpoint env (get_policy router_id) (tick w)
                 = (json_response 200 pol, tick w)).
  { simpl. unfold pol. destruct (Db.select_policy router_id (db w)); reflexivity. }
  rewrite Hpol. simpl fst. simpl snd. rewrite check_response_ok.
  rewrite run_bind, run_post_delivered by exact H2.
  simpl endpoint. rewrite Hcpu. simpl fst. simpl snd. rewrite check_response_ok.
  rewrite run_bind, run_lift, LegacyCalls.py_index_singleton.
  rewrite run_bind, run_post_delivered by exact H3.
  simpl endpoint. rewrite Hmem. simpl fst. simpl snd. rewrite check_response_ok.
  rewrite run_bind, run_lift, LegacyCalls.py_index_singleton.
  rewrite run_bind, run_post_delivered by exact H4.
  simpl endpoint. rewrite Herrs. simpl fst. simpl snd. rewrite check_response_ok.
  rewrite run_bind, run_lift, LegacyCalls.py_index_singleton.
  rewrite run_lift. f_equal. unfold tick. simpl. f_equal. lia.
Qed.

End Props.

Lemma rule_decision_is_the_verdict_on_the_stored_data_witness :
  fst (run (handle (H := plain)
              (env_with always_delivered (JNum 45) (JNum 60) JNull 0
                 (Raise (Exception "unused" ""))))
         (rule_decision (H := plain) (legacy_policy false) "R1") world0)
  = rule_verdict (H := plain) (legacy_policy false) (JObj R1) (JObj ∅)
      (JNum 45) (JNum 60) (JNum 0).
Proof.
  rewrite (rule_decision_is_the_verdict_on_the_stored_data (H := plain)
             (env_with always_delivered (JNum 45) (JNum 60) JNull 0
                (Raise (Exception "unused" "")))
             (legacy_policy false) world0 "R1" R1 (JNum 45) (JNum 60) JNull).
  - reflexivity.
  - intros k _. reflexivity.
  - reflexivity.
  - reflexivity.
  - reflexivity.
  - reflexivity.
Defined.

End EndToEnd.


Module CliFacts.
Import Cli Calls.

Lemma every_call_embed {A} (P : call -> Prop) (Q : Mcp.call -> Prop) (p : Mcp.prog A) :
  (forall c, Q c -> P (agent c)) ->
  every_call Q p -> every_call P (embed p).
Proof.
  intros Hpq. induction p as [a | e | c k IH]; simpl; auto.
  intros [Hc Hk]. split; [now apply Hpq | intros o; now apply IH].
Qed.

Lemma every_call_all {A} (p : Mcp.prog A) : every_call (fun _ => True) p.
Proof. induction p as [a | e | c k IH]; simpl; auto. Qed.

Lemma every_call_finally {A} (P : call -> Prop) (p : prog A) (h : exn -> prog A)
    (f : prog unit) :
  every_call P p -> (forall e, every_call P (h e)) -> every_call P f ->
  every_call P (try_except_finally p h f).
Proof.
  intros Hp Hh Hf. unfold try_except_finally.
  apply every_call_bind.
  - apply every_call_try_except; [| intros e; exact I].
    apply every_call_bind; [| intros a; exact I].
    apply every_call_try_except; [exact Hp |].
    intros e. destruct (is_exception e); [apply Hh | exact I].
  - intros r. apply every_call_bind; [exact Hf | intros _; apply every_call_lift].
Qed.

(** While connected, a body that keeps the connection, followed by
    [cleanup] whatever happens, ends disconnected. *)
Lemma closes_finally {A} (p : prog A) (h : exn -> prog A) :
  every_call keeps_connection p ->
  (forall e, every_call keeps_connection (h e)) ->
  closes true (try_except_finally p h (perform cleanup)).
Proof.
  intros Hp Hh. unfold try_except_finally.
  assert (Hend : forall r : res A,
            closes true (_ <~ perform cleanup ;; lift r)).
  { intros r. simpl. intros [u | e]; simpl; [destruct r |]; reflexivity. }
  assert (Hplain : forall q : prog A,
            every_call keeps_connection q ->
            closes true
              (r <~ try_except (a <~ q ;; Ret (Ok a)) (fun e => Ret (Raise e)) ;;
               _ <~ perform cleanup ;; lift r)).
  { intros q. induction q as [a | e | c k IH]; intros Hq.
    - apply (Hend (Ok a)).
    - apply (Hend (Raise e)).
    - destruct Hq as [Hc Hk]. destruct c; simpl in Hc; try contradiction.
      + simpl. intros o. apply IH, Hk.
      + simpl. split; [reflexivity |]. intros o. apply IH, Hk. }
  induction p as [a | e | c k IH].
  - apply (Hend (Ok a)).
  - simpl try_except at 2. destruct (is_exception e).
    + apply Hplain, Hh.
    + apply (Hend (Raise e)).
  - destruct Hp as [Hc Hk]. destruct c; simpl in Hc; try contradiction.
    + simpl. intros o. apply IH, Hk.
    + simpl. split; [reflexivity |]. intros o. apply IH, Hk.
Qed.

End CliFacts.

Module CliProps.
Import Cli Calls CliFacts.

Section Props.
Context `{Format} (POLICY : Mcp.PolicyFile).

Lemma body_keeps_connection {A} (p : Mcp.prog A) :
  every_call keeps_connection (embed p).
Proof.
  apply (every_call_embed _ (fun _ => True)); [intros; exact I | apply every_call_all].
Qed.

(** X26.  With fewer than four entries in [sys.argv] (the documented
    [python -m src.agent.mcp_agent analyze <router_id>] has three)
    [handle_cli] prints the usage text and exits with status 1: the print
    is its only call, and it does not return. *)
Theorem documented_command_line_prints_usage (argv : list string) (W : Type)
    (handle : forall c : call, W -> res (reply c) * W) (w : W) :
  (length argv < 4)%nat ->
  calls handle (handle_cli POLICY argv) w = [print usage]
  /\ exists e, fst (run handle (handle_cli POLICY argv) w) = Raise e
               /\ (fst (handle (print usage) w) = Ok tt -> e = SystemExit).
Proof.
  intros Hlen. unfold handle_cli. cbv zeta.
  assert (Hargs : (length (drop 2 argv) <? 2)%nat = true).
  { apply Nat.ltb_lt. rewrite length_drop. lia. }
  rewrite Hargs. simpl. destruct (handle (print usage) w) as [[[] | e] w']; simpl.
  - split; [reflexivity |]. eexists. split; [reflexivity | reflexivity].
  - split; [reflexivity |]. eexists. split; [reflexivity | discriminate].
Qed.

(** X27.  [handle_cli] calls the agent's tools only between
    [initialize] and [cleanup], and once [initialize] has been called it
    ends, normally or not, after a call of [cleanup]. *)
Theorem cleanup_always_follows_initialize (argv : list string) :
  closes false (handle_cli POLICY argv).
Proof.
  unfold handle_cli. cbv zeta.
  destruct (length (drop 2 argv) <? 2)%nat.
  - simpl. intros [[] | e]; reflexivity.
  - set (command := default "" (drop 2 argv !! 0%nat)).
    set (router_id := default "" (drop 2 argv !! 1%nat)).
    match goal with
    | |- closes false (try_except_finally (_ <~ perform initialize ;; ?b) ?h ?f) =>
        assert (Hb : every_call keeps_connection b)
    end.
    { destruct (String.eqb command "analyze").
      { apply every_call_bind; [apply body_keeps_connection |].
        intros d. simpl. split; [exact I | intros [u | e]; exact I]. }
      destruct (String.eqb command "upgrade").
      { apply every_call_bind; [apply body_keeps_connection |].
        intros d. simpl. split; [exact I | intros [u | e]; exact I]. }
      destruct (String.eqb command "dry-run").
      { apply every_call_bind; [apply body_keeps_connection |].
        intros d. simpl. split; [exact I | intros [u | e]; exact I]. }
      exact I. }
    unfold try_except_finally. simpl. intros [[] | e].
    + apply (closes_finally _ (fun _ => Throw SystemExit)); [exact Hb | intros; exact I].
    + apply (closes_finally (Throw e) (fun _ => Throw SystemExit));
        [exact I | intros; exact I].
Qed.

Lemma every_call_and {A} (P Q : Mcp.call -> Prop) (p : Mcp.prog A) :
  every_call P p -> every_call Q p -> every_call (fun c => P c /\ Q c) p.
Proof.
  induction p as [a | e | c k IH]; simpl; auto.
  intros [Hc Hk] [Hc' Hk']. split; [now split | intros o; now apply IH].
Qed.

(** X28.  The command decides what the agent may do: [analyze] never
    calls the automation backend or updates a status, [dry-run] calls the
    backend in check mode only, and any command other than [analyze],
    [upgrade] and [dry-run] calls no tool at all and exits. *)
Theorem command_decides_what_the_agent_may_do
    (script module command router_id : string) (rest : list string) :
  let p := handle_cli POLICY (script :: module :: command :: router_id :: rest) in
  (command = "analyze" ->
   every_call (agent_call (fun c => ansible_call c = false
                                    /\ Mcp.no_status_update c)) p)
  /\ (command = "dry-run" -> every_call (agent_call mcp_dry) p)
  /\ (command <> "analyze" -> command <> "upgrade" -> command <> "dry-run" ->
      every_call (agent_call (fun _ => False)) p
      /\ every_return (fun _ => False) p).
Proof.
  intros p. unfold p, handle_cli. cbv zeta. simpl drop.
  replace (length (command :: router_id :: rest) <? 2)%nat with false
    by (symmetry; apply Nat.ltb_ge; simpl; lia).
  simpl default.
  split; [| split].
  - intros ->. simpl String.eqb.
    apply every_call_finally; [| intros e; exact I
                               | simpl; split; [exact I | intros [u | e]; exact I]].
    apply every_call_bind; [simpl; split; [exact I | intros [u | e]; exact I] |].
    intros _. apply every_call_bind.
    + apply (every_call_embed _ (fun c => ansible_call c = false
                                          /\ Mcp.no_status_update c));
        [intros c Hc; exact Hc |].
      apply every_call_and;
        [apply AgentCalls.analyze_calls; auto | apply McpRows.analyze_no_status_update].
    + intros d. simpl. split; [exact I | intros [u | e]; exact I].
  - intros ->. simpl String.eqb.
    apply every_call_finally; [| intros e; exact I
                               | simpl; split; [exact I | intros [u | e]; exact I]].
    apply every_call_bind; [simpl; split; [exact I | intros [u | e]; exact I] |].
    intros _. apply every_call_bind.
    + apply (every_call_embed _ mcp_dry); [intros c Hc; exact Hc |].
      unfold Mcp.execute_upgrade.
      apply every_call_try_except; [| intros e; exact I].
      apply every_call_bind; [| intros d; apply AgentCalls.carry_out_dry].
      apply AgentCalls.analyze_calls.
      intros [[] | m q]; simpl; try discriminate; tauto.
    + intros out. simpl. split; [exact I | intros [u | e]; exact I].
  - intros Ha Hu Hd.
    apply String.eqb_neq in Ha, Hu, Hd. rewrite Ha, Hu, Hd.
    unfold try_except_finally. split.
    + simpl. split; [exact I |]. intros [[] | e]; simpl.
      * split; [exact I |]. intros [[] | e']; exact I.
      * destruct (is_exception e); simpl;
          (split; [exact I |]); intros [[] | e']; exact I.
    + simpl. intros [[] | e]; simpl.
      * intros [[] | e']; exact I.
      * destruct (is_exception e); simpl; intros [[] | e']; exact I.
Qed.

End Props.

Lemma documented_command_line_prints_usage_witness :
  calls offline
    (handle_cli (H := Samples.plain) (Samples.engine_policy 75 25 false)
       ["mcp_agent.py"; "analyze"; "R1"]) tt
  = [print usage].
Proof.
  apply (documented_command_line_prints_usage (H := Samples.plain)
           (Samples.engine_policy 75 25 false)
           ["mcp_agent.py"; "analyze"; "R1"] unit offline tt).
  simpl. lia.
Defined.

End CliProps.


(** ** The health status and the rule verdict

    [calculate_health_status] of [src/src/servers/influx_server.py] and
    [evaluate_upgrade_rules] of [src/src/agent/decision_engine.py] grade the
    same three numbers; the thresholds of the first are fixed, those of the
    second come from the policy row, whose columns default to 30 and 70 in
    [init_schema]. *)

Module HealthFacts.
Import Samples RuleFacts EngineFacts.

Section Facts.
Context `{Format}.

Lemma evaluate_numeric (POLICY : Mcp.PolicyFile)
    (router_info policy : gmap string jval) (cpu mem errors max_cpu min_mem : Q) :
  default (JNum (Mcp.defaults_max_cpu_percent POLICY))
          (policy !! "max_cpu_percent") = JNum max_cpu ->
  default (JNum (Mcp.defaults_min_free_mem_percent POLICY))
          (policy !! "min_free_mem_percent") = JNum min_mem ->
  exists d,
    Mcp.evaluate_upgrade_rules POLICY (JObj router_info) (JObj policy)
      (summary_with (metrics_of (JNum cpu) (JNum mem) (JNum errors))) = Ok d
    /\ Mcp.approve d
       = JBool (Qle_bool cpu max_cpu && Qle_bool min_mem mem
                && Qle_bool errors (Mcp.defaults_max_critical_errors POLICY)).
Proof.
  intros Hcpu Hmem. unfold Mcp.evaluate_upgrade_rules.
  rewrite summary_metrics. simpl res_bind. rewrite Hcpu, Hmem.
  rewrite metrics_of_cpu, metrics_of_mem, metrics_of_errors. simpl.
  destruct (truthy (default JNull (router_info !! "target_ver"))); simpl;
    eexists; (split; [reflexivity |]); simpl; now rewrite andb_true_r.
Qed.

Lemma evaluate_without_cpu (POLICY : Mcp.PolicyFile)
    (router_info policy : gmap string jval) (mem errors max_cpu min_mem : Q) :
  default (JNum (Mcp.defaults_max_cpu_percent POLICY))
          (policy !! "max_cpu_percent") = JNum max_cpu ->
  default (JNum (Mcp.defaults_min_free_mem_percent POLICY))
          (policy !! "min_free_mem_percent") = JNum min_mem ->
  exists d,
    Mcp.evaluate_upgrade_rules POLICY (JObj router_info) (JObj policy)
      (summary_with (metrics_of JNull (JNum mem) (JNum errors))) = Ok d
    /\ Mcp.approve d = JBool false.
Proof.
  intros Hcpu Hmem. unfold Mcp.evaluate_upgrade_rules.
  rewrite summary_metrics. simpl res_bind. rewrite Hcpu, Hmem.
  rewrite metrics_of_cpu, metrics_of_mem, metrics_of_errors. simpl.
  destruct (truthy (default JNull (router_info !! "target_ver"))); simpl;
    eexists; split; reflexivity.
Qed.

Lemma evaluate_without_mem (POLICY : Mcp.PolicyFile)
    (router_info policy : gmap string jval) (cpu errors max_cpu min_mem : Q) :
  default (JNum (Mcp.defaults_max_cpu_percent POLICY))
          (policy !! "max_cpu_percent") = JNum max_cpu ->
  default (JNum (Mcp.defaults_min_free_mem_percent POLICY))
          (policy !! "min_free_mem_percent") = JNum min_mem ->
  exists d,
    Mcp.evaluate_upgrade_rules POLICY (JObj router_info) (JObj policy)
      (summary_with (metrics_of (JNum cpu) JNull (JNum errors))) = Ok d
    /\ Mcp.approve d = JBool false.
Proof.
  intros Hcpu Hmem. unfold Mcp.evaluate_upgrade_rules.
  rewrite summary_metrics. simpl res_bind. rewrite Hcpu, Hmem.
  rewrite metrics_of_cpu, metrics_of_mem, metrics_of_errors. simpl.
  destruct (truthy (default JNull (router_info !! "target_ver"))); simpl;
    eexists; (split; [reflexivity |]); simpl;
    now rewrite ?andb_false_r, ?andb_false_l.
Qed.

Lemma health_status_numeric (cpu mem errors : Q) :
  Influx.calculate_health_status (JNum cpu) (JNum mem) (JNum errors)
  = Ok (if negb (Qle_bool errors 0) then "critical"
        else if negb (Qle_bool cpu 80) || negb (Qle_bool 20 mem) then "warning"
        else if negb (Qle_bool cpu 70) || negb (Qle_bool 30 mem) then "caution"
        else "healthy").
Proof.
  unfold Influx.calculate_health_status. simpl is_none. cbn [orb].
  rewrite !py_gt_num, !py_lt_num. simpl res_bind.
  destruct (Qle_bool errors 0), (Qle_bool cpu 80), (Qle_bool 20 mem),
    (Qle_bool cpu 70), (Qle_bool 30 mem); reflexivity.
Qed.

End Facts.

End HealthFacts.

Module HealthProps.
Import Samples RuleFacts EngineFacts HealthFacts.

Section Props.
Context `{Format}.

(** X29.  With the thresholds a policy row gets from the schema by default
    (CPU limit 70, memory floor 30) and no critical error allowed, the rule
    engine approves a snapshot of three numbers exactly when the telemetry
    server calls it "healthy"; when the CPU or memory value is missing the
    status is "unknown" and the verdict is a denial. *)
Theorem healthy_is_approved_under_schema_defaults (POLICY : Mcp.PolicyFile)
    (router_info policy : gmap string jval) (cpu mem errors : Q) :
  default (JNum (Mcp.defaults_max_cpu_percent POLICY))
          (policy !! "max_cpu_percent") = JNum 70 ->
  default (JNum (Mcp.defaults_min_free_mem_percent POLICY))
          (policy !! "min_free_mem_percent") = JNum 30 ->
  (Mcp.defaults_max_critical_errors POLICY == 0)%Q ->
  (exists d status,
     Mcp.evaluate_upgrade_rules POLICY (JObj router_info) (JObj policy)
       (summary_with (metrics_of (JNum cpu) (JNum mem) (JNum errors))) = Ok d
     /\ Influx.calculate_health_status (JNum cpu) (JNum mem) (JNum errors) = Ok status
     /\ (Mcp.approve d = JBool true <-> status = "healthy"))
  /\ (forall v,
        Influx.calculate_health_status JNull v (JNum errors) = Ok "unknown"
        /\ Influx.calculate_health_status v JNull (JNum errors) = Ok "unknown")
  /\ (exists d,
        Mcp.evaluate_upgrade_rules POLICY (JObj router_info) (JObj policy)
          (summary_with (metrics_of JNull (JNum mem) (JNum errors))) = Ok d
        /\ Mcp.approve d = JBool false)
  /\ (exists d,
        Mcp.evaluate_upgrade_rules POLICY (JObj router_info) (JObj policy)
          (summary_with (metrics_of (JNum cpu) JNull (JNum errors))) = Ok d
        /\ Mcp.approve d = JBool false).
Proof.
  intros Hcpu Hmem Herr.
  assert (He : Qle_bool errors (Mcp.defaults_max_critical_errors POLICY)
               = Qle_bool errors 0).
  { destruct (Qle_bool errors 0) eqn:E.
    - apply Qle_bool_iff. apply Qle_bool_iff in E. rewrite Herr. exact E.
    - apply Qle_bool_false. apply Qle_bool_false in E. rewrite Herr. exact E. }
  split; [| split; [| split]].
  - destruct (evaluate_numeric POLICY router_info policy cpu mem errors 70 30
                Hcpu Hmem) as (d & Hd & Ha).
    exists d. eexists. split; [exact Hd |]. split; [apply health_status_numeric |].
    rewrite Ha, He.
    destruct (Qle_bool errors 0) eqn:E1, (Qle_bool cpu 70) eqn:C70,
      (Qle_bool 30 mem) eqn:M30, (Qle_bool cpu 80) eqn:C80, (Qle_bool 20 mem) eqn:M20;
      cbn [andb orb negb];
      try (split; intros Hx; first [reflexivity | discriminate Hx]);
      order_facts; exfalso; lra.
  - intros v. split; [reflexivity |].
    unfold Influx.calculate_health_status. simpl. now rewrite orb_true_r.
  - exact (evaluate_without_cpu POLICY router_info policy mem errors 70 30 Hcpu Hmem).
  - exact (evaluate_without_mem POLICY router_info policy cpu errors 70 30 Hcpu Hmem).
Qed.

End Props.

Lemma healthy_is_approved_under_schema_defaults_witness :
  exists d,
    Mcp.evaluate_upgrade_rules (H := plain) (engine_policy 70 30 false) (JObj R1) (JObj ∅)
      (summary_with (metrics_of (JNum 45) (JNum 60) (JNum 0))) = Ok d
    /\ Mcp.approve d = JBool true.
Proof.
  destruct (healthy_is_approved_under_schema_defaults (H := plain)
              (engine_policy 70 30 false) R1 ∅ 45 60 0)
    as ((d & status & Hd & Hs & Hiff) & _).
  - reflexivity.
  - reflexivity.
  - reflexivity.
  - exists d. split; [exact Hd |]. apply Hiff.
    vm_compute in Hs. congruence.
Defined.

End HealthProps.
